(** * ai-study-assistant: the ML study scheduler of [modules/scheduler.py]

    A shallow embedding of [calculate_subject_distribution] and
    [generate_smart_timetable], with the properties of the weekly timetable
    that the specification states about them.

    Conventions of the embedding.
    - A [weakness_score] is a float64 in the source; it is a rational here,
      as every finite float64 is one.  [calculate_subject_distribution] is
      given twice: with exact arithmetic, for the properties that depend on
      the arithmetic only through its order (range, monotonicity, the pool),
      and in [Float64] over the rounding sum, division and multiplication of
      float64, taken as an interface, for the formula of the allocation.
    - A wall-clock time ([datetime.time] at the minute resolution of
      [st.time_input]) is a number of minutes since midnight; a [datetime] is
      a number of minutes since the midnight of [datetime.today()].
    - Every duration is a number of minutes.  The source keeps
      [session_duration] and the ['duration'] entry of a slot in hours; the
      embedding keeps the same quantities multiplied by 60.
    - A slot's ['time'] entry is the string made of its start and end
      datetimes printed with [strftime('%H:%M')]; the embedding keeps the two
      datetimes, and [clock] gives the minute of the day that is printed. *)

From Stdlib Require Import List ZArith QArith Qround Bool Lia Arith.
From Stdlib Require Import String Ascii Permutation Sorted.
From Stdlib Require Import Lqa SpecFloat.
Import ListNotations.

Local Open Scope string_scope.
Local Open Scope Z_scope.
Local Open Scope list_scope.

(** ** Python values *)

(** A [dict] keeps its keys in insertion order; assigning to a key that is
    already there replaces its value in place. *)
Module PyDict.

Section Dict.
Context {V : Type}.

Definition t := list (string * V).

Fixpoint set (k : string) (v : V) (d : t) : t :=
  match d with
  | [] => [(k, v)]
  | (k', v') :: d' =>
      if String.eqb k' k then (k', v) :: d' else (k', v') :: set k v d'
  end.

Fixpoint get (k : string) (d : t) : option V :=
  match d with
  | [] => None
  | (k', v') :: d' => if String.eqb k' k then Some v' else get k d'
  end.

Definition keys (d : t) : list string := map fst d.
Definition items (d : t) : list (string * V) := d.
End Dict.

Arguments t : clear implicits.

End PyDict.

(** What a call returns: a value, or the exception it raises.  The
    statements of the scheduler can raise the [IndexError] of a list
    subscript and the [KeyError] of a dictionary subscript. *)
Inductive py_exception : Type :=
| IndexError
| KeyError.

Inductive result (A : Type) : Type :=
| Ok (a : A)
| Raise (e : py_exception).

Arguments Ok {A} a.
Arguments Raise {A} e.

Definition bind {A B : Type} (r : result A) (f : A -> result B) : result B :=
  match r with
  | Ok a => f a
  | Raise e => Raise e
  end.

Notation "x <- r ;; k" := (bind r (fun x => k))
  (at level 61, r at next level, right associativity).

(** [l[i]] *)
Definition subscript {A : Type} (l : list A) (i : nat) : result A :=
  match nth_error l i with
  | Some a => Ok a
  | None => Raise IndexError
  end.

(** [int(x)] for a float [x]: truncation toward zero. *)
Definition py_int (q : Q) : Z := Z.quot (Qnum q) (Z.pos (Qden q)).

(** [s in t] for strings. *)
Fixpoint contains (s t : string) : bool :=
  String.prefix s t ||
  match t with
  | EmptyString => false
  | String _ t' => contains s t'
  end.

(** ** Predictions *)

(** The columns of the predictions frame that the scheduler reads. *)
Record prediction : Type := mkPrediction {
  subject : string;
  weakness_score : Q
}.

(** [predictions['weakness_score'].sum()], added without rounding. *)
Definition sum_weakness (predictions : list prediction) : Q :=
  fold_left Qplus (map weakness_score predictions) 0%Q.

(** ** [calculate_subject_distribution] (scheduler.py, lines 158-179) *)

Definition total_days : Z := 6.

(** The days of a row, with division and multiplication without rounding;
    [Float64.days_of_row] below has the rounding ones. *)
Definition days_of_row (total_weakness : Q) (row : prediction) : Z :=
  let proportion := (weakness_score row / total_weakness)%Q in
  Z.max 1 (Z.min 6 (py_int (proportion * inject_Z total_days * 2)%Q)).

Definition calculate_subject_distribution (predictions : list prediction)
  : PyDict.t Z :=
  let total_weakness := sum_weakness predictions in
  if Qeq_bool total_weakness 0 then
    fold_left (fun d s => PyDict.set s 3 d) (map subject predictions) []
  else
    fold_left (fun d row => PyDict.set (subject row) (days_of_row total_weakness row) d)
              predictions [].

(** *** The same function in float64

    The sum of line 164 and the division and multiplications of lines 174-176
    are operations of float64: each rounds its result, pandas does not fix
    the order in which [sum] adds, and it adds a column of integers in int64,
    which wraps.  NumPy and pandas are not part of the
    repository: the embedding takes the three operations as an interface, on
    the rationals that finite float64 numbers are.  [int] is exact on a
    float, and is [py_int] on its value. *)
Class Float64Arithmetic : Type := {
  series_sum : list Q -> Q;
  truediv : Q -> Q -> Q;
  mul : Q -> Q -> Q
}.

(** The arithmetic without rounding. *)
Instance exact_arithmetic : Float64Arithmetic := {
  series_sum l := fold_left Qplus l 0%Q;
  truediv := Qdiv;
  mul := Qmult
}.

Module Float64.
Section Arithmetic.
Context {F : Float64Arithmetic}.

Definition days_of_row (total_weakness : Q) (row : prediction) : Z :=
  let proportion := truediv (weakness_score row) total_weakness in
  Z.max 1 (Z.min 6 (py_int (mul (mul proportion (inject_Z total_days)) 2%Q))).

Definition calculate_subject_distribution (predictions : list prediction)
  : PyDict.t Z :=
  let total_weakness := series_sum (map weakness_score predictions) in
  if Qeq_bool total_weakness 0 then
    fold_left (fun d s => PyDict.set s 3 d) (map subject predictions) []
  else
    fold_left (fun d row => PyDict.set (subject row) (days_of_row total_weakness row) d)
              predictions [].

End Arithmetic.
End Float64.

(** float64 itself, as the Standard Library specifies it: binary
    floating-point numbers of precision 53, rounded to nearest, ties to
    even. *)
Definition b64_of_Z (n : Z) : spec_float := binary_normalize 53 1024 n 0 false.

(** The float64 nearest to [n / d], for [n] and [d] that float64 holds
    exactly; it is the float itself for the value of a float. *)
Definition b64_of_Q (q : Q) : spec_float :=
  SFdiv 53 1024 (b64_of_Z (Qnum q)) (b64_of_Z (Z.pos (Qden q))).

(** The value of a finite float. *)
Definition b64_value (x : spec_float) : Q :=
  match x with
  | S754_finite s m e =>
      let v := if 0 <=? e then inject_Z (Z.pos m * 2 ^ e)
               else Z.pos m # Z.to_pos (2 ^ (- e)) in
      if s then (- v)%Q else v
  | _ => 0%Q
  end.

(** float64 with a sum that adds in order, from 0, as NumPy does for fewer
    than eight numbers. *)
Instance binary64_arithmetic : Float64Arithmetic := {
  series_sum l :=
    b64_value (fold_left (fun acc q => SFadd 53 1024 acc (b64_of_Q q)) l
                 (S754_zero false));
  truediv a b := b64_value (SFdiv 53 1024 (b64_of_Q a) (b64_of_Q b));
  mul a b := b64_value (SFmul 53 1024 (b64_of_Q a) (b64_of_Q b))
}.

(** ** The pseudo-random generator of NumPy

    [np.random.seed] and [np.random.shuffle] act on a generator that is
    global to the process.  NumPy is not part of the repository: the
    embedding takes the generator as an interface.  [np_seed g n] is the
    state that [np.random.seed(n)] installs when the generator is in state
    [g]; it replaces the whole state, so it is the same whatever [g] is.
    [np_shuffle_order g n] is the order in which [np.random.shuffle] leaves
    the positions [0 .. n-1] of a list of length [n] when the generator is in
    state [g], with the state it leaves behind; the shuffle moves positions
    and never looks at the elements. *)
Class NumpyRandom : Type := {
  rng_state : Type;
  np_seed : rng_state -> Z -> rng_state;
  np_shuffle_order : rng_state -> nat -> list nat * rng_state;
  np_seed_resets : forall g g' n, np_seed g n = np_seed g' n;
  np_shuffle_order_perm :
    forall g n, Permutation (fst (np_shuffle_order g n)) (seq 0 n)
}.

(** [np.random.shuffle(l)] in state [g]. *)
Definition np_shuffle `{NumpyRandom} (g : rng_state) (l : list string)
  : list string * rng_state :=
  let '(order, g') := np_shuffle_order g (List.length l) in
  (map (fun i => nth i l "") order, g').

(** A generator whose shuffle keeps every list as it is; the examples below
    run the scheduler with it. *)
#[refine] Instance keep_order_random : NumpyRandom := {
  rng_state := unit;
  np_seed := fun _ _ => tt;
  np_shuffle_order := fun _ n => (seq 0 n, tt)
}.
Proof.
  - reflexivity.
  - intros; apply Permutation_refl.
Defined.

(** ** Slots and timetables *)

Inductive slot_type : Type :=
| Routine | Meal | Study | Break | Revision | Assessment | Free.

Definition slot_type_eqb (a b : slot_type) : bool :=
  match a, b with
  | Routine, Routine | Meal, Meal | Study, Study | Break, Break
  | Revision, Revision | Assessment, Assessment | Free, Free => true
  | _, _ => false
  end.

(** One entry of a day's list: the dictionary with the keys ['time'],
    ['subject'], ['type'] and ['duration'].  [time] holds the start and the
    end of the slot, [duration] is in minutes. *)
Module Slot.
Record t : Type := mk {
  time : Z * Z;
  subject : string;
  type : slot_type;
  duration : Z
}.
Definition start (s : t) : Z := fst (time s).
Definition stop (s : t) : Z := snd (time s).
End Slot.

(** The minute of the day that [strftime('%H:%M')] prints for a datetime. *)
Definition clock (dt : Z) : Z := dt mod 1440.

Definition timetable : Type := PyDict.t (list Slot.t).

Definition days : list string :=
  ["Monday"; "Tuesday"; "Wednesday"; "Thursday"; "Friday"; "Saturday"; "Sunday"].

(** [days[:-1]] *)
Definition study_days : list string := removelast days.

(** ** [generate_smart_timetable] (scheduler.py, lines 181-377) *)

(** The [meal_times] argument. *)
Record meal_times : Type := mkMealTimes {
  breakfast : Z * Z;
  lunch : Z * Z;
  dinner : Z * Z;
  morning_routine : Z
}.

(** Lines 215-218: each subject repeated by its number of days. *)
Definition build_subject_pool (days_per_subject : PyDict.t Z) : list string :=
  flat_map (fun '(subject, days_count) => repeat subject (Z.to_nat days_count))
           (PyDict.items days_per_subject).

(** Lines 234-245, the [while] loop that fills one day.  [attempts_left] is
    [20 - attempts]: the loop condition [attempts < 20] is [attempts_left]
    being a successor. *)
Fixpoint draw_day_subjects (subject_pool : list string) (sessions_for_day : Z)
    (attempts_left : nat) (day_subjects : list string) (pool_index : nat)
  : list string * nat :=
  match attempts_left with
  | O => (day_subjects, pool_index)
  | S attempts_left' =>
      if (Z.of_nat (List.length day_subjects) <? sessions_for_day)
         && (pool_index <? List.length subject_pool)%nat
      then
        let subject := nth (pool_index mod List.length subject_pool) subject_pool "" in
        if (count_occ string_dec day_subjects subject <? 2)%nat
        then draw_day_subjects subject_pool sessions_for_day attempts_left'
               (day_subjects ++ [subject]) (S pool_index)
        else draw_day_subjects subject_pool sessions_for_day attempts_left'
               day_subjects (S pool_index)
      else (day_subjects, pool_index)
  end.

(** Lines 229-247, the body of the loop over Monday to Saturday; the state
    is [subject_assignments] and [pool_index]. *)
Definition assign_day (subject_pool : list string) (max_sessions_per_day : Z)
    (st : PyDict.t (list string) * nat) (day : string)
  : PyDict.t (list string) * nat :=
  let '(subject_assignments, pool_index) := st in
  let sessions_for_day := Z.min max_sessions_per_day 4 in
  let '(day_subjects, pool_index) :=
    draw_day_subjects subject_pool sessions_for_day 20 [] pool_index in
  (PyDict.set day day_subjects subject_assignments, pool_index).

(** Lines 224-247. *)
Definition assign_subjects (subject_pool : list string) (max_sessions_per_day : Z)
  : PyDict.t (list string) :=
  let subject_assignments := map (fun day => (day, @nil string)) study_days in
  fst (fold_left (assign_day subject_pool max_sessions_per_day) study_days
                 (subject_assignments, 0%nat)).

(** *** One day, Monday to Saturday (lines 250-345) *)

Section DaySlots.
Variables wake_dt breakfast_dt lunch_dt dinner_dt : Z.
Variables breakfast_duration lunch_duration dinner_duration : Z.
Variables morning_routine_duration break_duration session_duration : Z.

Definition routine_slot : Slot.t :=
  Slot.mk (wake_dt, wake_dt + morning_routine_duration)
          "🌅 Morning Routine (Freshen up, Exercise)" Routine morning_routine_duration.

Definition breakfast_slot : Slot.t :=
  Slot.mk (breakfast_dt, breakfast_dt + breakfast_duration)
          "🍳 Breakfast" Meal breakfast_duration.

Definition lunch_slot : Slot.t :=
  Slot.mk (lunch_dt, lunch_dt + lunch_duration) "🍛 Lunch" Meal lunch_duration.

Definition dinner_slot : Slot.t :=
  Slot.mk (dinner_dt, dinner_dt + dinner_duration) "🍽️ Dinner" Meal dinner_duration.

Definition study_slot (current_time session_end : Z) (subject : string) : Slot.t :=
  Slot.mk (current_time, session_end) subject Study session_duration.

Definition break_slot (current_time : Z) : Slot.t :=
  Slot.mk (current_time, current_time + break_duration) "☕ Break" Break break_duration.

Definition self_study_label : string := "🎯 Self-Study / Review".

Definition self_study_slot (current_time : Z) : Slot.t :=
  Slot.mk (current_time, dinner_dt) self_study_label Study (dinner_dt - current_time).

(** The test of lines 281 and 293:
    [current_time < meal_dt < session_end or (current_time < meal_dt and
     (meal_dt - current_time).total_seconds() / 3600 < 0.5)]. *)
Definition meal_first (current_time meal_dt session_end : Z) : bool :=
  ((current_time <? meal_dt) && (meal_dt <? session_end))
  || ((current_time <? meal_dt) && (meal_dt - current_time <? 30)).

(** The body of the loop of line 276 for the [i]-th of [n] subjects; the
    state is [slots] and [current_time]. *)
Definition place_session (n : nat) (st : list Slot.t * Z) (i : nat) (subject : string)
  : list Slot.t * Z :=
  let '(slots, current_time) := st in
  let session_end := current_time + session_duration in
  let '(slots, current_time, session_end) :=
    if meal_first current_time lunch_dt session_end then
      let lunch_end := lunch_dt + lunch_duration in
      (slots ++ [lunch_slot], lunch_end, lunch_end + session_duration)
    else (slots, current_time, session_end) in
  let '(slots, current_time, session_end) :=
    if meal_first current_time dinner_dt session_end then
      let dinner_end := dinner_dt + dinner_duration in
      (slots ++ [dinner_slot], dinner_end, dinner_end + session_duration)
    else (slots, current_time, session_end) in
  let slots := slots ++ [study_slot current_time session_end subject] in
  let current_time := session_end in
  if Z.of_nat i <? Z.of_nat n - 1 then
    (slots ++ [break_slot current_time], current_time + break_duration)
  else (slots, current_time).

(** [for i, subject in enumerate(subjects_today)], from index [i] on. *)
Fixpoint place_sessions (n : nat) (st : list Slot.t * Z) (i : nat)
    (subjects : list string) : list Slot.t * Z :=
  match subjects with
  | [] => st
  | subject :: rest => place_sessions n (place_session n st i subject) (S i) rest
  end.

(** [slot['type'] == 'Meal' and 'Dinner' in slot['subject']] *)
Definition is_dinner (slot : Slot.t) : bool :=
  slot_type_eqb (Slot.type slot) Meal && contains "Dinner" (Slot.subject slot).

(** Lines 325-343. *)
Definition ensure_dinner (st : list Slot.t * Z) : list Slot.t :=
  let '(slots, current_time) := st in
  if negb (existsb is_dinner slots) then
    if current_time <? dinner_dt then
      let slots :=
        if 60 <=? dinner_dt - current_time
        then slots ++ [self_study_slot current_time]
        else slots in
      slots ++ [dinner_slot]
    else slots
  else slots.

Definition day_slots (subjects_today : list string) : list Slot.t :=
  let slots := [routine_slot; breakfast_slot] in
  let current_time := breakfast_dt + breakfast_duration in
  ensure_dinner
    (place_sessions (List.length subjects_today) (slots, current_time) 0 subjects_today).

(** *** Sunday (lines 347-375) *)

Variable sleep_dt : Z.

Definition sunday_slots (weak_subjects : list string) : result (list Slot.t) :=
  let routine_end := wake_dt + morning_routine_duration in
  let breakfast_end := breakfast_dt + breakfast_duration in
  first <- subscript weak_subjects 0 ;;
  second <- (if (1 <? List.length weak_subjects)%nat
             then subscript weak_subjects 1
             else subscript weak_subjects 0) ;;
  Ok [ Slot.mk (wake_dt, routine_end) "🌅 Morning Routine" Routine morning_routine_duration;
       Slot.mk (breakfast_dt, breakfast_end) "🍳 Breakfast" Meal breakfast_duration;
       Slot.mk (breakfast_end, breakfast_end + 90)
               ("📚 Revision: " ++ first)%string Revision 90;
       Slot.mk (breakfast_end + 90, breakfast_end + 120) "☕ Break" Break 30;
       Slot.mk (breakfast_end + 120, breakfast_end + 210)
               ("📚 Revision: " ++ second)%string Revision 90;
       Slot.mk (lunch_dt, lunch_dt + lunch_duration) "🍛 Lunch" Meal lunch_duration;
       Slot.mk (lunch_dt + lunch_duration, lunch_dt + (lunch_duration + 120))
               "📝 Mock Test / Practice Problems" Assessment 120;
       Slot.mk (dinner_dt, dinner_dt + dinner_duration) "🍽️ Dinner" Meal dinner_duration;
       Slot.mk (dinner_dt + dinner_duration, sleep_dt) "🎮 Leisure / Relaxation" Free
               (sleep_dt - (dinner_dt + dinner_duration)) ].
End DaySlots.

(** [predictions.nlargest(n, 'weakness_score')]: the [n] rows of largest
    weakness, largest first, rows of equal weakness in their original order
    (pandas, [keep='first']). *)
Fixpoint insert_by_weakness (row : prediction) (sorted : list prediction)
  : list prediction :=
  match sorted with
  | [] => [row]
  | r :: sorted' =>
      if Qle_bool (weakness_score r) (weakness_score row)
      then row :: r :: sorted'
      else r :: insert_by_weakness row sorted'
  end.

Definition sort_by_weakness (predictions : list prediction) : list prediction :=
  fold_right insert_by_weakness [] predictions.

Definition nlargest (n : nat) (predictions : list prediction) : list prediction :=
  firstn n (sort_by_weakness predictions).

(** [d[k]] *)
Definition dict_subscript {V : Type} (d : PyDict.t V) (k : string) : result V :=
  match PyDict.get k d with
  | Some v => Ok v
  | None => Raise KeyError
  end.

(** The loop of line 250 over the days [ds]: [timetable[day] = slots]. *)
Fixpoint fill_days (day_slots : list string -> list Slot.t)
    (subject_assignments : PyDict.t (list string)) (ds : list string)
    (week : timetable) : result timetable :=
  match ds with
  | [] => Ok week
  | day :: ds' =>
      subjects_today <- dict_subscript subject_assignments day ;;
      fill_days day_slots subject_assignments ds'
                (PyDict.set day (day_slots subjects_today) week)
  end.

(** Lines 224-377: everything after the shuffle, from the shuffled pool. *)
Definition fill_week (predictions : list prediction) (subject_pool : list string)
    (wake_time sleep_time break_duration max_sessions_per_day session_duration : Z)
    (meals : meal_times) : result timetable :=
  let week : timetable := map (fun day => (day, @nil Slot.t)) days in
  let wake_dt := wake_time in
  let sleep_dt := sleep_time in
  let sleep_dt := if sleep_dt <=? wake_dt then sleep_dt + 1440 else sleep_dt in
  let '(breakfast_time, breakfast_duration) := breakfast meals in
  let '(lunch_time, lunch_duration) := lunch meals in
  let '(dinner_time, dinner_duration) := dinner meals in
  let morning_routine_duration := morning_routine meals in
  let breakfast_dt := breakfast_time in
  let lunch_dt := lunch_time in
  let dinner_dt := dinner_time in
  let subject_assignments := assign_subjects subject_pool max_sessions_per_day in
  week <-
    fill_days (day_slots wake_dt breakfast_dt lunch_dt dinner_dt
                 breakfast_duration lunch_duration dinner_duration
                 morning_routine_duration break_duration session_duration)
              subject_assignments study_days week ;;
  let weak_subjects := map subject (nlargest 3 predictions) in
  sunday <-
    sunday_slots wake_dt breakfast_dt lunch_dt dinner_dt
      breakfast_duration lunch_duration dinner_duration
      morning_routine_duration sleep_dt weak_subjects ;;
  Ok (PyDict.set "Sunday" sunday week).

(** The whole call.  [g] is the state of NumPy's global generator when the
    call starts; the call returns its result and the state it leaves. *)
Definition generate_smart_timetable `{NumpyRandom} (g : rng_state)
    (predictions : list prediction)
    (wake_time sleep_time break_duration max_sessions_per_day session_duration : Z)
    (meals : meal_times) : result timetable * rng_state :=
  let days_per_subject := calculate_subject_distribution predictions in
  let subject_pool := build_subject_pool days_per_subject in
  let g := np_seed g 42 in
  let '(subject_pool, g) := np_shuffle g subject_pool in
  (fill_week predictions subject_pool wake_time sleep_time break_duration
             max_sessions_per_day session_duration meals, g).

(** ** The defaults of the form (lines 95-130)

    Waking at 06:00, sleep at 23:00, breaks of 30 minutes, at most 6
    sessions a day, sessions of one hour, and the meals below. *)

(** [time(h, m)] *)
Definition hm (h m : Z) : Z := 60 * h + m.

Definition default_meals : meal_times :=
  mkMealTimes (hm 7 30, 30) (hm 13 0, 60) (hm 20 0, 45) 45.

(** Math predicted at 40 with difficulty 8, History predicted at 85. *)
Definition math_history : list prediction :=
  [mkPrediction "Math" 240; mkPrediction "History" 0].

(** ** The allocation as the specification words it

    The reference definition of the specification: the mapping from a
    subject to [3] when the total weakness is zero, and otherwise to
    [clamp(rounding(proportion * total_days * 2), 1, 6)].  The rounding is a
    parameter: the specification says [round]. *)

(** [round(x)] of Python: to the nearest integer, a tie to the even one. *)
Definition py_round (q : Q) : Z :=
  let f := Qfloor q in
  match (q - inject_Z f ?= 1 # 2)%Q with
  | Lt => f
  | Gt => f + 1
  | Eq => if Z.even f then f else f + 1
  end.

Definition clamp (x lo hi : Z) : Z := Z.max lo (Z.min hi x).

(** The row that decides a subject's entry: the last one of that subject. *)
Fixpoint last_row (s : string) (predictions : list prediction) : option prediction :=
  match predictions with
  | [] => None
  | row :: rest =>
      match last_row s rest with
      | Some row' => Some row'
      | None => if String.eqb (subject row) s then Some row else None
      end
  end.

Definition reference_days (rounding : Q -> Z) (total : Q) (row : prediction) : Z :=
  if Qeq_bool total 0 then 3
  else clamp (rounding (weakness_score row / total * 6 * 2)%Q) 1 6.

Definition reference_allocation (rounding : Q -> Z) (predictions : list prediction)
    (s : string) : option Z :=
  option_map (reference_days rounding (sum_weakness predictions))
             (last_row s predictions).

(** The reference definition over the arithmetic of float64: the same
    formula, on the total and the scaled share as float64 computes them. *)
Definition float64_reference_days `{Float64Arithmetic} (rounding : Q -> Z)
    (total : Q) (row : prediction) : Z :=
  if Qeq_bool total 0 then 3
  else clamp (rounding (mul (mul (truediv (weakness_score row) total) 6%Q) 2%Q)) 1 6.

Definition float64_reference_allocation `{Float64Arithmetic} (rounding : Q -> Z)
    (predictions : list prediction) (s : string) : option Z :=
  option_map
    (float64_reference_days rounding (series_sum (map weakness_score predictions)))
    (last_row s predictions).

(** ** The properties stated of the scheduler *)

(** *** Results *)


(** The slots of [day] in what a call returned. *)
Definition day_of (r : result timetable) (day : string) : option (list Slot.t) :=
  match r with
  | Ok week => PyDict.get day week
  | Raise _ => None
  end.

(** The pool that the days are drawn from: the pool of line 218 after the
    shuffle of lines 221-222. *)
Definition shuffled_pool `{NumpyRandom} (g : rng_state)
    (predictions : list prediction) : list string :=
  fst (np_shuffle (np_seed g 42)
         (build_subject_pool (calculate_subject_distribution predictions))).

(** [subject_assignments[day]], for a day that is a key. *)
Definition subjects_of_day (subject_assignments : PyDict.t (list string))
    (day : string) : list string :=
  match PyDict.get day subject_assignments with
  | Some l => l
  | None => []
  end.

(** The six study days as the loop of line 250 leaves them. *)
Definition days_filled (f : list string -> list Slot.t)
    (subject_assignments : PyDict.t (list string)) : timetable :=
  fold_left
    (fun week day => PyDict.set day (f (subjects_of_day subject_assignments day)) week)
    study_days (map (fun day => (day, @nil Slot.t)) days).

(** *** The allocation (claims C3, C4, C8) *)

(** Claim C3 at one subject: the computed entry is the one of the reference
    definition with [round]. *)
Definition allocation_is_rounded (predictions : list prediction) (s : string) : Prop :=
  PyDict.get s (calculate_subject_distribution predictions)
  = reference_allocation py_round predictions s.




(** [a] is at least as weak as [b]: the order of [nlargest]. *)
Definition weaker_or_equal (a b : prediction) : Prop :=
  (weakness_score b <= weakness_score a)%Q.

(** *** Order and overlap of the slots of a day (claim C1) *)

(** Two slots overlap when each starts before the other ends. *)
Definition overlap (a b : Slot.t) : bool :=
  (Slot.start a <? Slot.stop b) && (Slot.start b <? Slot.stop a).

(** No slot overlaps a later one. *)
Fixpoint no_overlap (slots : list Slot.t) : bool :=
  match slots with
  | [] => true
  | a :: rest => forallb (fun b => negb (overlap a b)) rest && no_overlap rest
  end.

(** Each slot starts no later than the next one. *)
Fixpoint sorted_by_start (slots : list Slot.t) : bool :=
  match slots with
  | a :: (b :: _) as rest => (Slot.start a <=? Slot.start b) && sorted_by_start rest
  | _ => true
  end.

(** Claim C1 for one day of a result: the call returned a timetable whose
    [day] is sorted by start time and free of overlaps. *)
Definition well_ordered_day (r : result timetable) (day : string) : bool :=
  match day_of r day with
  | Some slots => sorted_by_start slots && no_overlap slots
  | None => false
  end.

Definition ends_before (a b : Slot.t) : Prop := Slot.stop a <= Slot.start b.

(** The invariant of the day's loop: every slot ends before the next one
    starts, none ends before it starts, and all end by [current_time]. *)
Definition placed (slots : list Slot.t) (current_time : Z) : Prop :=
  StronglySorted ends_before slots
  /\ Forall (fun s => Slot.start s <= Slot.stop s /\ Slot.stop s <= current_time) slots.

(** *** The subjects of a day (claims C5, C7) *)

Definition has_type (ty : slot_type) (slot : Slot.t) : bool :=
  slot_type_eqb (Slot.type slot) ty.

(** The labels of the Study slots of a day, in order. *)
Definition study_subjects (slots : list Slot.t) : list string :=
  map Slot.subject (filter (has_type Study) slots).

Definition at_most_twice (l : list string) : Prop :=
  forall s, (count_occ string_dec l s <= 2)%nat.

(** Every study day has its list of subjects, none of them more than twice. *)
Definition assignments_ok (subject_assignments : PyDict.t (list string)) : Prop :=
  forall day, In day study_days ->
    exists l, PyDict.get day subject_assignments = Some l /\ at_most_twice l.

(** The pool holds two distinct subjects. *)
Definition two_distinct (pool : list string) : bool :=
  existsb (fun a => existsb (fun b => negb (String.eqb a b)) pool) pool.

(** Claim C7 for one day of a result: the call returned, and no label is on
    more than two of the day's Study slots. *)
Definition at_most_twice_on (r : result timetable) (day : string) : bool :=
  match day_of r day with
  | Some slots =>
      forallb (fun s => (count_occ string_dec (study_subjects slots) s <=? 2)%nat)
              (study_subjects slots)
  | None => false
  end.

(** *** Inputs of the examples *)

(** One subject: predicted score 40, difficulty 8. *)
Definition one_subject : list prediction := [mkPrediction "Math" 240].

(** Scaled shares 8.4 and 3.6. *)
Definition seven_three : list prediction :=
  [mkPrediction "Physics" 7; mkPrediction "Art" 3].

(** The floats 167.2, 217.9, 256.3 and 230.2.  Without rounding the scaled
    share of Physics is a little more than 3, 12 times 217.9 of 871.6; float64
    computes the total 871.6000000000001 and the share 2.9999999999999996. *)
Definition four_sciences : list prediction :=
  [ mkPrediction "Maths" (b64_value (b64_of_Q (1672 # 10)));
    mkPrediction "Physics" (b64_value (b64_of_Q (2179 # 10)));
    mkPrediction "Chemistry" (b64_value (b64_of_Q (2563 # 10)));
    mkPrediction "Biology" (b64_value (b64_of_Q (2302 # 10))) ].

(** A subject whose name is the label of the Self-Study filler. *)
Definition filler_clash : list prediction :=
  [mkPrediction self_study_label 240; mkPrediction "History" 0].

(** The defaults of the form with a morning routine of two hours: the routine
    ends at 08:00, breakfast starts at 07:30. *)
Definition long_routine_meals : meal_times :=
  mkMealTimes (hm 7 30, 30) (hm 13 0, 60) (hm 20 0, 45) 120.

(** The defaults of the form with breakfast at 09:30; with sessions of two
    hours and breaks of one hour the second session of a day starts at 13:00,
    the time of lunch. *)
Definition late_breakfast_meals : meal_times :=
  mkMealTimes (hm 9 30, 30) (hm 13 0, 60) (hm 20 0, 45) 45.

(** ** The score predictor ([utils/ml_utils.py], lines 89-107) *)

(** [max(a, b)] and [min(a, b)] of Python: the first argument, unless the
    second is strictly larger (smaller). *)
Definition py_max (a b : Q) : Q := if Qle_bool b a then a else b.

Definition py_min (a b : Q) : Q := if Qle_bool a b then a else b.

(** A cell of the ['subject'] column of the frame that [load_data] returns:
    [pd.read_csv] gives the text of the field, or NaN for a field that it
    reads as missing (an empty field, [NA], [null], ...). *)
Inductive cell : Type :=
| Text (s : string)
| NaN.

(** [a == b] on cells: NaN is equal to nothing, itself included. *)
Definition cell_eqb (a b : cell) : bool :=
  match a, b with
  | Text s, Text t => String.eqb s t
  | _, _ => false
  end.

(** The cells that [unique] takes for one value: equal texts, and NaN with
    NaN. *)
Definition same_cell (a b : cell) : bool :=
  match a, b with
  | Text s, Text t => String.eqb s t
  | NaN, NaN => true
  | _, _ => false
  end.

(** [str(c)]: the text of a cell. *)
Definition cell_text (c : cell) : string :=
  match c with
  | Text s => s
  | NaN => "nan"
  end.

(** A row of the study data: the columns of the frame read from the CSV
    file. *)
Module StudyRecord.
Record t : Type := mk {
  subject : cell;
  study_hours : Q;
  previous_score : Z;
  days_before_exam : Z;
  difficulty : Z;
  final_score : Z
}.
End StudyRecord.

(** [MLScheduler.predict_score].  [best_model] is the fitted regressor, if
    any; its [predict] on the features of one record is a function of the
    record (scikit-learn is not part of the repository). *)
Definition predict_score (best_model : option (StudyRecord.t -> Q))
    (record : StudyRecord.t) : Q :=
  match best_model with
  | None => 0
  | Some model =>
      let prediction := model record in
      py_max 0 (py_min 100 prediction)
  end.

(** ** The predictions of [show] (scheduler.py, lines 58-79) *)

(** A row of the predictions frame, with all its columns. *)
Module PredictionRow.
Record t : Type := mk {
  subject : string;
  predicted_score : Q;
  difficulty : Z;
  weakness_score : Q;
  study_hours : Q;
  days_before_exam : Z
}.
End PredictionRow.

(** [Series.unique()]: the values in order of first appearance, NaN counted
    once; [seen] holds the values met so far. *)
Fixpoint unique_after (seen : list cell) (l : list cell) : list cell :=
  match l with
  | [] => []
  | x :: rest =>
      if existsb (same_cell x) seen then unique_after seen rest
      else x :: unique_after (x :: seen) rest
  end.

Definition unique (l : list cell) : list cell := unique_after [] l.

(** [frame.iloc[-1]] *)
Fixpoint iloc_last {A : Type} (l : list A) : result A :=
  match l with
  | [] => Raise IndexError
  | [x] => Ok x
  | _ :: rest => iloc_last rest
  end.

(** Line 67: [max(0, (70 - pred_score)) * subject_data['difficulty']]. *)
Definition weakness (pred_score : Q) (difficulty : Z) : Q :=
  (py_max 0 (70 - pred_score) * inject_Z difficulty)%Q.

(** The body of the loop of line 63.  For the subject NaN the selection
    [data[data['subject'] == subject]] of line 64 is empty and its [iloc[-1]]
    raises; a row is appended for a text only. *)
Definition predict_subject (best_model : option (StudyRecord.t -> Q))
    (data : list StudyRecord.t) (subject : cell) : result PredictionRow.t :=
  subject_data <-
    iloc_last (filter (fun r => cell_eqb (StudyRecord.subject r) subject) data) ;;
  let pred_score := predict_score best_model subject_data in
  Ok (PredictionRow.mk (cell_text subject) pred_score
        (StudyRecord.difficulty subject_data)
        (weakness pred_score (StudyRecord.difficulty subject_data))
        (StudyRecord.study_hours subject_data)
        (StudyRecord.days_before_exam subject_data)).

(** A [for] loop that appends the result of [f] for each element. *)
Fixpoint for_each {A B : Type} (f : A -> result B) (l : list A) : result (list B) :=
  match l with
  | [] => Ok []
  | a :: rest =>
      b <- f a ;;
      bs <- for_each f rest ;;
      Ok (b :: bs)
  end.

(** Lines 59-76: the list [predictions]. *)
Definition build_predictions (best_model : option (StudyRecord.t -> Q))
    (data : list StudyRecord.t) : result (list PredictionRow.t) :=
  let all_subjects := unique (map StudyRecord.subject data) in
  for_each (predict_subject best_model data) all_subjects.

Definition stronger_first (a b : PredictionRow.t) : Prop :=
  (PredictionRow.weakness_score b <= PredictionRow.weakness_score a)%Q.

(** [DataFrame.sort_values('weakness_score', ascending=False)].  pandas is
    not part of the repository and its default sort does not fix the order of
    rows of equal weakness: the embedding takes the sort as an interface that
    permutes the rows into descending order. *)
Class PandasSort : Type := {
  sort_values_descending : list PredictionRow.t -> list PredictionRow.t;
  sort_values_permutation :
    forall rows, Permutation (sort_values_descending rows) rows;
  sort_values_sorted :
    forall rows, StronglySorted stronger_first (sort_values_descending rows)
}.

(** The columns of the predictions frame that the scheduler reads. *)
Definition scheduler_columns (row : PredictionRow.t) : prediction :=
  mkPrediction (PredictionRow.subject row) (PredictionRow.weakness_score row).

(** Lines 58-79: [pred_df]. *)
Definition show_predictions `{PandasSort} (best_model : option (StudyRecord.t -> Q))
    (data : list StudyRecord.t) : result (list PredictionRow.t) :=
  predictions <- build_predictions best_model data ;;
  Ok (sort_values_descending predictions).

(** What a run of [show] leaves on the page when the model has been trained
    and the Generate button is pressed: one of the two warnings of lines
    17-28, or the outcome of the rest of the run, which is the timetable of
    the call of line 141 or the exception raised on the way to it. *)
Inductive page : Type :=
| NeedRecords (current : nat)
| NeedCompletedExams (current : nat)
| Generated (r : result timetable).

Definition show `{NumpyRandom} `{PandasSort} (g : rng_state)
    (best_model : option (StudyRecord.t -> Q)) (data : list StudyRecord.t)
    (wake_time sleep_time break_duration max_sessions_per_day session_duration : Z)
    (meals : meal_times) : page :=
  if (List.length data <? 5)%nat then NeedRecords (List.length data)
  else
    let completed_data := filter (fun r => 0 <? StudyRecord.final_score r) data in
    if (List.length completed_data <? 3)%nat
    then NeedCompletedExams (List.length completed_data)
    else
      Generated
        (pred_df <- show_predictions best_model data ;;
         fst (generate_smart_timetable g (map scheduler_columns pred_df)
                wake_time sleep_time break_duration max_sessions_per_day
                session_duration meals)).

(** ** The statistics of [display_timetable] (scheduler.py, lines 384-405) *)

(** [s.replace(old, new)] for a pattern [old] that is not empty: the
    occurrences of [old] are replaced from left to right, without overlap.
    [skip] counts the characters of a replaced occurrence still to pass. *)
Fixpoint replace_from (old new : string) (skip : nat) (s : string) : string :=
  match s with
  | EmptyString => EmptyString
  | String c rest =>
      match skip with
      | S skip' => replace_from old new skip' rest
      | O =>
          if String.prefix old s
          then (new ++ replace_from old new (String.length old - 1) rest)%string
          else String c (replace_from old new 0 rest)
      end
  end.

Definition str_replace (old new s : string) : string := replace_from old new 0 s.

(** Line 395. *)
Definition clean_subject (label : string) : string :=
  str_replace "Mock Test / Practice Problems" "Assessment"
    (str_replace "Revision: " "" label).

(** [slot['type'] in ['Study', 'Revision', 'Assessment']] *)
Definition counts_as_study (slot : Slot.t) : bool :=
  match Slot.type slot with
  | Study | Revision | Assessment => true
  | _ => false
  end.

(** [d.get(k, default)] *)
Definition dict_get {V : Type} (d : PyDict.t V) (k : string) (default : V) : V :=
  match PyDict.get k d with
  | Some v => v
  | None => default
  end.

(** The body of the loop of line 389; the state is [total_study_hours] and
    [subject_hours], here in minutes. *)
Definition tally_slot (st : Z * PyDict.t Z) (slot : Slot.t) : Z * PyDict.t Z :=
  let '(total_study_hours, subject_hours) := st in
  if counts_as_study slot then
    let duration := Slot.duration slot in
    let subject := clean_subject (Slot.subject slot) in
    (total_study_hours + duration,
     PyDict.set subject (dict_get subject_hours subject 0 + duration) subject_hours)
  else st.

(** Lines 385-396. *)
Definition weekly_statistics (week : timetable) : Z * PyDict.t Z :=
  fold_left (fun st '(day, slots) => fold_left tally_slot slots st)
            (PyDict.items week) (0, []).

(** Line 405: the metric "Subjects Covered". *)
Definition covered_keys (subject_hours : PyDict.t Z) : list string :=
  filter (fun s => negb (String.eqb s "Assessment")) (PyDict.keys subject_hours).

Definition subjects_covered (subject_hours : PyDict.t Z) : nat :=
  List.length (covered_keys subject_hours).

(** The sum of the values of [subject_hours]. *)
Definition sum_values (d : PyDict.t Z) : Z := fold_right Z.add 0 (map snd d).

(** The keys the loop of line 388 assigns to, in order: the cleaned labels
    of the Study, Revision and Assessment slots of the week. *)
Definition day_labels (slots : list Slot.t) : list string :=
  map (fun slot => clean_subject (Slot.subject slot)) (filter counts_as_study slots).

Definition counted_labels (week : timetable) : list string :=
  flat_map (fun '(day, slots) => day_labels slots) (PyDict.items week).

(** ** Definitions for the properties of the prediction table, the days
    and the statistics *)

(** The row that line 69 appends for a record. *)
Definition row_of_record (best_model : option (StudyRecord.t -> Q))
    (record : StudyRecord.t) : PredictionRow.t :=
  let pred_score := predict_score best_model record in
  PredictionRow.mk (cell_text (StudyRecord.subject record)) pred_score
    (StudyRecord.difficulty record)
    (weakness pred_score (StudyRecord.difficulty record))
    (StudyRecord.study_hours record) (StudyRecord.days_before_exam record).

(** [row] is the row of the last record of its subject in [data]. *)
Definition from_last_record (best_model : option (StudyRecord.t -> Q))
    (data : list StudyRecord.t) (row : PredictionRow.t) : Prop :=
  exists before record after,
    data = before ++ record :: after
    /\ StudyRecord.subject record = Text (PredictionRow.subject row)
    /\ Forall (fun r => StudyRecord.subject r <> StudyRecord.subject record) after
    /\ row = row_of_record best_model record.

(** A sort by insertion, which keeps rows of equal weakness in their order;
    the examples run [show] with it. *)
Fixpoint insert_row (row : PredictionRow.t) (sorted : list PredictionRow.t)
  : list PredictionRow.t :=
  match sorted with
  | [] => [row]
  | r :: sorted' =>
      if Qle_bool (PredictionRow.weakness_score r) (PredictionRow.weakness_score row)
      then row :: r :: sorted'
      else r :: insert_row row sorted'
  end.

(** Five records of three subjects, and a model that predicts the previous
    score. *)
Definition sample_data : list StudyRecord.t :=
  [ StudyRecord.mk (Text "Math") 2 40 10 8 45;
    StudyRecord.mk (Text "History") 3 85 12 3 88;
    StudyRecord.mk (Text "Math") 4 50 5 8 0;
    StudyRecord.mk (Text "Physics") 1 60 7 6 62;
    StudyRecord.mk (Text "History") 2 90 3 3 0 ].

(** The same records after a sixth one whose subject field was left empty. *)
Definition sample_data_with_gap : list StudyRecord.t :=
  sample_data ++ [StudyRecord.mk NaN 1 55 4 5 70].

Definition sample_model : option (StudyRecord.t -> Q) :=
  Some (fun record => inject_Z (StudyRecord.previous_score record)).

Definition sample_rows : list PredictionRow.t :=
  [ row_of_record sample_model (StudyRecord.mk (Text "Math") 4 50 5 8 0);
    row_of_record sample_model (StudyRecord.mk (Text "History") 2 90 3 3 0);
    row_of_record sample_model (StudyRecord.mk (Text "Physics") 1 60 7 6 62) ].

(** The week generated for [math_history] with the defaults of the form and a
    shuffle that keeps the order. *)
Definition sample_week : timetable :=
  Eval vm_compute in
    match fst (generate_smart_timetable (H := keep_order_random) tt math_history
                 (hm 6 0) (hm 23 0) 30 6 60 default_meals) with
    | Ok week => week
    | Raise _ => []
    end.

(** The number of sessions of the week. *)
Definition week_sessions (subject_assignments : PyDict.t (list string)) : nat :=
  list_sum (map (fun day => List.length (subjects_of_day subject_assignments day))
                study_days).

(** The ['duration'] of a slot is the length of its ['time']. *)
Definition consistent (slot : Slot.t) : Prop :=
  Slot.duration slot = Slot.stop slot - Slot.start slot.

Definition count_type (ty : slot_type) (slots : list Slot.t) : nat :=
  List.length (filter (has_type ty) slots).

(** Monday of the sample week. *)
Definition sample_monday : list Slot.t :=
  Eval vm_compute in dict_get sample_week "Monday" [].

(** Sunday of the sample week. *)
Definition sample_sunday : list Slot.t :=
  Eval vm_compute in dict_get sample_week "Sunday" [].

(** A Meal slot with the given label. *)
Definition is_meal (label : string) (slot : Slot.t) : bool :=
  has_type Meal slot && String.eqb (Slot.subject slot) label.

Definition count_meal (label : string) (slots : list Slot.t) : nat :=
  List.length (filter (is_meal label) slots).

(** The meal has not been placed, or it has been placed once and the cursor
    is not before it. *)
Definition served (label : string) (meal_dt : Z) (slots : list Slot.t)
    (current_time : Z) : Prop :=
  count_meal label slots = 0%nat
  \/ (count_meal label slots = 1%nat /\ meal_dt <= current_time).

(** The state of the day's loop as far as routine and meals go. *)
Definition meals_served (lunch_dt dinner_dt : Z) (st : list Slot.t * Z) : Prop :=
  count_type Routine (fst st) = 1%nat
  /\ count_meal "🍳 Breakfast" (fst st) = 1%nat
  /\ served "🍛 Lunch" lunch_dt (fst st) (snd st)
  /\ served "🍽️ Dinner" dinner_dt (fst st) (snd st).

(** ** Facts about times *)

(** Within the day a datetime is printed as it is. *)
Lemma clock_same_day (dt : Z) : 0 <= dt < 1440 -> clock dt = dt.
Proof. intros H. unfold clock. now apply Z.mod_small. Qed.

(** ** Facts about dictionaries *)

Lemma get_set_same {V : Type} (k : string) (v : V) (d : PyDict.t V) :
  PyDict.get k (PyDict.set k v d) = Some v.
Proof.
  induction d as [|[k' v'] d IH]; simpl.
  - now rewrite String.eqb_refl.
  - destruct (String.eqb k' k) eqn:E; simpl; rewrite E; auto.
Qed.

Lemma get_set_other {V : Type} (k k' : string) (v : V) (d : PyDict.t V) :
  k' <> k -> PyDict.get k (PyDict.set k' v d) = PyDict.get k d.
Proof.
  intros Hne. induction d as [|[k0 v0] d IH]; simpl.
  - destruct (String.eqb_spec k' k); congruence.
  - destruct (String.eqb_spec k0 k'); simpl.
    + subst k0. destruct (String.eqb_spec k' k); congruence.
    + destruct (String.eqb k0 k); auto.
Qed.

Lemma keys_set_present {V : Type} (k : string) (v : V) (d : PyDict.t V) :
  In k (PyDict.keys d) -> PyDict.keys (PyDict.set k v d) = PyDict.keys d.
Proof.
  unfold PyDict.keys. induction d as [|[k' v'] d IH]; simpl; [tauto|].
  intros [->|Hin].
  - now rewrite String.eqb_refl.
  - destruct (String.eqb k' k); simpl; [reflexivity|]. now rewrite IH.
Qed.

(** A dictionary filled row by row holds, for each subject, the value
    computed from the last row of that subject. *)
Lemma get_fold_set {V : Type} (f : prediction -> V) (s : string) :
  forall (predictions : list prediction) (d : PyDict.t V),
    PyDict.get s
      (fold_left (fun d row => PyDict.set (subject row) (f row) d) predictions d)
    = match last_row s predictions with
      | Some row => Some (f row)
      | None => PyDict.get s d
      end.
Proof.
  induction predictions as [|row rest IH]; intros d; simpl; [reflexivity|].
  rewrite IH. destruct (last_row s rest); [reflexivity|].
  destruct (String.eqb_spec (subject row) s) as [<-|Hne].
  - apply get_set_same.
  - now apply get_set_other.
Qed.

Lemma fold_left_map_subject {V : Type} (v : V) :
  forall (predictions : list prediction) (d : PyDict.t V),
    fold_left (fun d s => PyDict.set s v d) (map subject predictions) d
    = fold_left (fun d row => PyDict.set (subject row) v d) predictions d.
Proof.
  induction predictions as [|row rest IH]; intros d; simpl; auto.
Qed.

(** ** Facts about [int] *)

Lemma py_int_nonneg (q : Q) : (0 <= q)%Q -> py_int q = Qfloor q.
Proof.
  destruct q as [n d]. unfold Qle, py_int, Qfloor. simpl. intros H.
  apply Z.quot_div_nonneg; lia.
Qed.

Lemma py_int_nonpos (q : Q) : (q <= 0)%Q -> py_int q = Qceiling q.
Proof.
  destruct q as [n d]. unfold Qle, py_int, Qceiling, Qfloor. simpl. intros H.
  assert (Hn : n = - (- n)) by lia. rewrite Hn at 1.
  rewrite Z.quot_opp_l by lia. f_equal.
  apply Z.quot_div_nonneg; lia.
Qed.

(** Below the floor of the clamp, truncation and floor cannot be told apart. *)
Lemma clamp_py_int_floor (q : Q) : clamp (py_int q) 1 6 = clamp (Qfloor q) 1 6.
Proof.
  destruct (Qlt_le_dec q 0) as [Hq|Hq].
  - rewrite py_int_nonpos by now apply Qlt_le_weak.
    assert (H1 : Qceiling q <= Qceiling 0) by (apply Qceiling_resp_le; now apply Qlt_le_weak).
    assert (H2 : Qfloor q <= Qfloor 0) by (apply Qfloor_resp_le; now apply Qlt_le_weak).
    change (Qceiling 0) with 0 in H1. change (Qfloor 0) with 0 in H2.
    unfold clamp. lia.
  - now rewrite py_int_nonneg.
Qed.

Lemma days_of_row_reference (total : Q) (row : prediction) :
  Qeq_bool total 0 = false ->
  days_of_row total row = reference_days Qfloor total row.
Proof.
  intros Ht. unfold days_of_row, reference_days. rewrite Ht.
  change (inject_Z total_days) with 6%Q.
  apply clamp_py_int_floor.
Qed.

(** The entry of a subject in the computed allocation. *)
Lemma distribution_entry (predictions : list prediction) (s : string) :
  PyDict.get s (calculate_subject_distribution predictions)
  = reference_allocation Qfloor predictions s.
Proof.
  unfold calculate_subject_distribution, reference_allocation.
  destruct (Qeq_bool (sum_weakness predictions) 0) eqn:Ht.
  - rewrite fold_left_map_subject, (get_fold_set (fun _ => 3)).
    destruct (last_row s predictions); simpl; [|reflexivity].
    unfold reference_days. now rewrite Ht.
  - rewrite get_fold_set.
    destruct (last_row s predictions); simpl; [|reflexivity].
    now rewrite days_of_row_reference.
Qed.

Lemma last_row_in (s : string) (predictions : list prediction) (row : prediction) :
  last_row s predictions = Some row -> In row predictions /\ subject row = s.
Proof.
  induction predictions as [|r rest IH]; simpl; [discriminate|].
  destruct (last_row s rest) as [r'|].
  - intros E. destruct (IH E) as [Hin Hs]. auto.
  - destruct (String.eqb_spec (subject r) s); [|discriminate].
    intros E. injection E as <-. auto.
Qed.

Lemma last_row_nodup (predictions : list prediction) (row : prediction) :
  NoDup (map subject predictions) -> In row predictions ->
  last_row (subject row) predictions = Some row.
Proof.
  induction predictions as [|r rest IH]; simpl; [tauto|].
  intros Hnd Hin. inversion Hnd as [|? ? Hnotin Hnd']; subst.
  destruct Hin as [->|Hin].
  - destruct (last_row (subject row) rest) as [r'|] eqn:E.
    + apply last_row_in in E. destruct E as [Hin' Hs].
      exfalso. apply Hnotin. rewrite <- Hs. now apply in_map.
    + now rewrite String.eqb_refl.
  - now rewrite (IH Hnd' Hin).
Qed.

Lemma last_row_of_subject (predictions : list prediction) (row : prediction) :
  In row predictions -> exists row', last_row (subject row) predictions = Some row'.
Proof.
  induction predictions as [|r rest IH]; simpl; [tauto|].
  intros [->|Hin].
  - destruct (last_row (subject row) rest); eauto.
    rewrite String.eqb_refl. eauto.
  - destruct (IH Hin) as [row' ->]. eauto.
Qed.

Lemma clamp_range (x : Z) : 1 <= clamp x 1 6 <= 6.
Proof. unfold clamp. lia. Qed.

Lemma clamp_mono (x y : Z) : x <= y -> clamp x 1 6 <= clamp y 1 6.
Proof. unfold clamp. lia. Qed.

Lemma reference_days_range (rounding : Q -> Z) (total : Q) (row : prediction) :
  1 <= reference_days rounding total row <= 6.
Proof.
  unfold reference_days. destruct (Qeq_bool total 0); [lia|apply clamp_range].
Qed.

Lemma scaled_share_mono (total w1 w2 : Q) :
  (0 < total)%Q -> (w2 <= w1)%Q ->
  (w2 / total * 6 * 2 <= w1 / total * 6 * 2)%Q.
Proof.
  intros Ht Hw.
  apply Qmult_le_compat_r; [|discriminate].
  apply Qmult_le_compat_r; [|discriminate].
  apply Qmult_le_compat_r; [assumption|].
  apply Qinv_le_0_compat. now apply Qlt_le_weak.
Qed.

Lemma reference_days_mono (total : Q) (r1 r2 : prediction) :
  (0 < total)%Q -> (weakness_score r2 <= weakness_score r1)%Q ->
  reference_days Qfloor total r2 <= reference_days Qfloor total r1.
Proof.
  intros Ht Hw. unfold reference_days.
  destruct (Qeq_bool total 0); [lia|].
  apply clamp_mono, Qfloor_resp_le. now apply scaled_share_mono.
Qed.

(** ** The allocation: claims C3 and C4 *)

(** C3, as stated, fails: with weakness scores 7 and 3 the share of the
    second subject scales to 3.6, which [round] takes to 4 days and the code's
    [int] to 3. *)
Lemma C3_rounding_counterexample :
  ~ allocation_is_rounded seven_three "Art".
Proof. unfold allocation_is_rounded. vm_compute. discriminate. Qed.

(** The entry of a subject in the allocation computed in float64. *)
Lemma float64_distribution_entry `{Float64Arithmetic}
    (predictions : list prediction) (s : string) :
  PyDict.get s (Float64.calculate_subject_distribution predictions)
  = float64_reference_allocation py_int predictions s.
Proof.
  unfold Float64.calculate_subject_distribution, float64_reference_allocation.
  destruct (Qeq_bool (series_sum (map weakness_score predictions)) 0) eqn:Ht.
  - rewrite fold_left_map_subject, (get_fold_set (fun _ => 3)).
    destruct (last_row s predictions); simpl; [|reflexivity].
    unfold float64_reference_days. now rewrite Ht.
  - rewrite get_fold_set.
    destruct (last_row s predictions); simpl; [|reflexivity].
    unfold float64_reference_days, Float64.days_of_row, clamp. now rewrite Ht.
Qed.

(** Without rounding, the function in float64 is the exact one. *)
Lemma exact_distribution (predictions : list prediction) :
  Float64.calculate_subject_distribution (F := exact_arithmetic) predictions
  = calculate_subject_distribution predictions.
Proof. reflexivity. Qed.

(** The floor of the exact share is not what float64 gives: for the floats
    217.9 of 871.6 the share computed in float64 is 2.9999999999999996 and
    Physics gets 2 days, where the share without rounding gives 3. *)
Lemma float64_share_below_the_exact_one :
  PyDict.get "Physics"
    (Float64.calculate_subject_distribution (F := binary64_arithmetic) four_sciences)
  = Some 2
  /\ PyDict.get "Physics" (calculate_subject_distribution four_sciences) = Some 3.
Proof. split; vm_compute; reflexivity. Qed.

(** The same input in float64: the share of Art is 3.5999999999999996, which
    [int] takes to 3 days and [round] would take to 4. *)
Lemma float64_does_not_round_to_nearest :
  PyDict.get "Art"
    (Float64.calculate_subject_distribution (F := binary64_arithmetic) seven_three)
  = Some 3
  /\ float64_reference_allocation (H := binary64_arithmetic) py_round seven_three "Art"
     = Some 4.
Proof. split; vm_compute; reflexivity. Qed.

(** C3, amended: for every prediction list the computed allocation is the
    reference definition with [int], truncation toward zero, in place of
    [round], on the scaled share as the code computes it: 3 days for every
    subject when the total weakness is 0, and otherwise
    [clamp(int(((weakness_score / total) * 6) * 2), 1, 6)] days, where the
    sum, the division and the multiplications are those of float64, whatever
    they round to.  Only where they do not round is that
    [clamp(floor(weakness_score / total * 6 * 2), 1, 6)]: the last part is
    about the arithmetic without rounding, and
    [float64_share_below_the_exact_one] shows a share that float64 takes to
    the other side of an integer. *)
Theorem C3_allocation_truncates_the_share :
  forall (predictions : list prediction) (s : string),
    (forall F : Float64Arithmetic,
       PyDict.get s (Float64.calculate_subject_distribution predictions)
       = float64_reference_allocation py_int predictions s)
    /\ Float64.calculate_subject_distribution (F := exact_arithmetic) predictions
       = calculate_subject_distribution predictions
    /\ PyDict.get s (calculate_subject_distribution predictions)
       = reference_allocation Qfloor predictions s.
Proof.
  intros predictions s. split; [|split].
  - intros F. apply float64_distribution_entry.
  - apply exact_distribution.
  - apply distribution_entry.
Qed.



(** ** Facts about the shuffle *)

Lemma map_nth_seq (l : list string) :
  map (fun i => nth i l "") (seq 0 (List.length l)) = l.
Proof.
  induction l as [|x l IH]; simpl; [reflexivity|].
  f_equal. rewrite <- seq_shift, map_map. exact IH.
Qed.

Lemma np_shuffle_permutation `{NumpyRandom} (g : rng_state) (l : list string) :
  Permutation (fst (np_shuffle g l)) l.
Proof.
  unfold np_shuffle.
  pose proof (np_shuffle_order_perm g (List.length l)) as Hperm.
  destruct (np_shuffle_order g (List.length l)) as [order g']. simpl in *.
  apply Permutation_trans with (map (fun i => nth i l "") (seq 0 (List.length l))).
  - now apply Permutation_map.
  - now rewrite map_nth_seq.
Qed.

Lemma permutation_of_repeat (x : string) (n : nat) (l : list string) :
  Permutation l (repeat x n) -> l = repeat x n.
Proof.
  intros Hperm.
  assert (Hall : Forall (eq x) l).
  { apply Forall_forall. intros y Hy.
    symmetry. apply (repeat_spec n x y).
    now apply (Permutation_in y Hperm). }
  apply Forall_eq_repeat in Hall. rewrite Hall. f_equal.
  rewrite (Permutation_length Hperm). apply repeat_length.
Qed.

(** Shuffling copies of one subject changes nothing. *)
Lemma np_shuffle_repeat `{NumpyRandom} (g : rng_state) (x : string) (n : nat) :
  fst (np_shuffle g (repeat x n)) = repeat x n.
Proof. apply permutation_of_repeat, np_shuffle_permutation. Qed.

Lemma generate_smart_timetable_result `{NumpyRandom} (g : rng_state)
    (predictions : list prediction)
    (wake_time sleep_time break_duration max_sessions_per_day session_duration : Z)
    (meals : meal_times) :
  fst (generate_smart_timetable g predictions wake_time sleep_time break_duration
         max_sessions_per_day session_duration meals)
  = fill_week predictions (shuffled_pool g predictions) wake_time sleep_time
      break_duration max_sessions_per_day session_duration meals.
Proof.
  unfold generate_smart_timetable, shuffled_pool.
  destruct (np_shuffle _ _) as [pool g']. reflexivity.
Qed.

(** ** Facts about the draw of a day's subjects *)

Lemma draw_day_subjects_at_most_twice (subject_pool : list string) (sessions : Z) :
  forall (attempts_left : nat) (day_subjects : list string) (pool_index : nat),
    at_most_twice day_subjects ->
    at_most_twice
      (fst (draw_day_subjects subject_pool sessions attempts_left day_subjects pool_index)).
Proof.
  induction attempts_left as [|a IH]; intros day_subjects pool_index Hday; simpl;
    [assumption|].
  destruct (_ && _); [|assumption].
  set (subject := nth _ subject_pool "").
  destruct (Nat.ltb_spec (count_occ string_dec day_subjects subject) 2) as [Hlt|Hge].
  - apply IH. intros s. rewrite count_occ_app. simpl.
    destruct (string_dec subject s) as [<-|Hne]; [lia|].
    specialize (Hday s). lia.
  - now apply IH.
Qed.

(** The draw never takes the index past the end of the pool. *)
Lemma draw_day_subjects_index (subject_pool : list string) (sessions : Z) :
  forall (attempts_left : nat) (day_subjects : list string) (pool_index : nat),
    let r := draw_day_subjects subject_pool sessions attempts_left day_subjects pool_index in
    (pool_index <= snd r)%nat
    /\ ((pool_index <= List.length subject_pool)%nat ->
        (snd r <= List.length subject_pool)%nat)
    /\ (List.length (fst r) + pool_index <= List.length day_subjects + snd r)%nat.
Proof.
  induction attempts_left as [|a IH]; intros day_subjects pool_index; cbv zeta in *;
    simpl.
  { repeat split; auto with arith. }
  destruct (Z.ltb_spec (Z.of_nat (List.length day_subjects)) sessions) as [_|_]; simpl;
    [|repeat split; auto with arith].
  destruct (Nat.ltb_spec pool_index (List.length subject_pool)) as [Hlt|_]; simpl;
    [|repeat split; auto with arith].
  set (subject := nth _ subject_pool "").
  destruct (_ <? 2)%nat.
  - specialize (IH (day_subjects ++ [subject]) (S pool_index)).
    rewrite length_app in IH. simpl in IH.
    destruct (draw_day_subjects _ _ a _ _) as [l' i']. simpl in *.
    clearbody subject. lia.
  - specialize (IH day_subjects (S pool_index)).
    destruct (draw_day_subjects _ _ a _ _) as [l' i']. simpl in *.
    lia.
Qed.

Lemma assign_day_ok (subject_pool : list string) (max_sessions : Z)
    (st : PyDict.t (list string) * nat) (day : string) :
  assignments_ok (fst st) ->
  assignments_ok (fst (assign_day subject_pool max_sessions st day)).
Proof.
  destruct st as [sa idx]. unfold assign_day. cbn [fst]. intros Hok.
  pose proof (draw_day_subjects_at_most_twice subject_pool (Z.min max_sessions 4)
                20 [] idx) as Htwice.
  destruct (draw_day_subjects _ _ 20 [] idx) as [l idx']. cbn [fst] in *.
  intros d Hd. destruct (string_dec day d) as [->|Hne].
  - exists l. split; [apply get_set_same|].
    apply Htwice. intros s. simpl. lia.
  - rewrite get_set_other by assumption. now apply Hok.
Qed.

Lemma fold_assign_day_ok (subject_pool : list string) (max_sessions : Z) :
  forall (ds : list string) (st : PyDict.t (list string) * nat),
    assignments_ok (fst st) ->
    assignments_ok (fst (fold_left (assign_day subject_pool max_sessions) ds st)).
Proof.
  induction ds as [|d ds IH]; intros st Hok; simpl; [assumption|].
  apply IH. now apply assign_day_ok.
Qed.

Lemma assign_subjects_ok (subject_pool : list string) (max_sessions : Z) :
  assignments_ok (assign_subjects subject_pool max_sessions).
Proof.
  unfold assign_subjects. apply fold_assign_day_ok. simpl.
  intros day Hday. exists []. split.
  - simpl in Hday.
    repeat (destruct Hday as [<-|Hday]; [reflexivity|]). contradiction.
  - intros s. simpl. lia.
Qed.

(** ** Facts about the week *)

Lemma fill_days_ok (f : list string -> list Slot.t)
    (subject_assignments : PyDict.t (list string)) :
  forall (ds : list string) (week : timetable),
    (forall day, In day ds -> exists l, PyDict.get day subject_assignments = Some l) ->
    fill_days f subject_assignments ds week
    = Ok (fold_left
            (fun week day => PyDict.set day (f (subjects_of_day subject_assignments day)) week)
            ds week).
Proof.
  induction ds as [|d ds IH]; intros week Hall; simpl; [reflexivity|].
  destruct (Hall d (or_introl eq_refl)) as [l Hl].
  replace (subjects_of_day subject_assignments d) with l
    by (unfold subjects_of_day; now rewrite Hl).
  unfold dict_subscript. rewrite Hl. simpl.
  apply IH. intros day Hday. apply Hall. now right.
Qed.

Lemma get_fold_set_days {V : Type} (h : string -> V) (day : string) :
  forall (ds : list string) (week : PyDict.t V),
    PyDict.get day (fold_left (fun week d => PyDict.set d (h d) week) ds week)
    = if in_dec string_dec day ds then Some (h day) else PyDict.get day week.
Proof.
  induction ds as [|d ds IH]; intros week; [reflexivity|].
  cbn [fold_left]. rewrite IH.
  destruct (in_dec string_dec day ds) as [Hds|Hds];
    destruct (in_dec string_dec day (d :: ds)) as [Hin|Hin]; simpl in *; try tauto.
  - destruct Hin as [->|Hin]; [apply get_set_same|contradiction].
  - apply get_set_other. tauto.
Qed.

Lemma days_filled_keys (f : list string -> list Slot.t)
    (subject_assignments : PyDict.t (list string)) :
  PyDict.keys (days_filled f subject_assignments) = days.
Proof.
  unfold days_filled. simpl.
  repeat (rewrite keys_set_present; [|simpl; tauto]).
  reflexivity.
Qed.

Lemma days_filled_get (f : list string -> list Slot.t)
    (subject_assignments : PyDict.t (list string)) (day : string) :
  In day study_days ->
  PyDict.get day (days_filled f subject_assignments)
  = Some (f (subjects_of_day subject_assignments day)).
Proof.
  intros Hday. unfold days_filled.
  rewrite (get_fold_set_days (fun d => f (subjects_of_day subject_assignments d))).
  destruct (in_dec string_dec day study_days); [reflexivity|contradiction].
Qed.

Lemma sunday_is_no_study_day : ~ In "Sunday" study_days.
Proof. simpl. intuition discriminate. Qed.

(** The shape of [fill_week]: the six study days never fail, and the
    result is decided by the Sunday template. *)
Lemma fill_week_shape (predictions : list prediction) (subject_pool : list string)
    (wake_time sleep_time break_duration max_sessions_per_day session_duration : Z)
    (meals : meal_times) :
  let sleep_dt := if sleep_time <=? wake_time then sleep_time + 1440 else sleep_time in
  let f := day_slots wake_time (fst (breakfast meals)) (fst (lunch meals))
             (fst (dinner meals)) (snd (breakfast meals)) (snd (lunch meals))
             (snd (dinner meals)) (morning_routine meals) break_duration
             session_duration in
  fill_week predictions subject_pool wake_time sleep_time break_duration
    max_sessions_per_day session_duration meals
  = (sunday <-
       sunday_slots wake_time (fst (breakfast meals)) (fst (lunch meals))
         (fst (dinner meals)) (snd (breakfast meals)) (snd (lunch meals))
         (snd (dinner meals)) (morning_routine meals) sleep_dt
         (map subject (nlargest 3 predictions)) ;;
     Ok (PyDict.set "Sunday" sunday
           (days_filled f (assign_subjects subject_pool max_sessions_per_day)))).
Proof.
  intros sleep_dt f. unfold fill_week.
  destruct (breakfast meals) as [bt bd], (lunch meals) as [lt ld],
           (dinner meals) as [dt dd]. simpl fst. simpl snd.
  rewrite fill_days_ok.
  - reflexivity.
  - intros day Hday.
    destruct (assign_subjects_ok subject_pool max_sessions_per_day day Hday) as [l [Hl _]].
    eauto.
Qed.

(** ** Facts about [nlargest] *)

Lemma insert_by_weakness_perm (row : prediction) (sorted : list prediction) :
  Permutation (insert_by_weakness row sorted) (row :: sorted).
Proof.
  induction sorted as [|r sorted IH]; simpl; [reflexivity|].
  destruct (Qle_bool _ _); [reflexivity|].
  rewrite IH. apply perm_swap.
Qed.

Lemma sort_by_weakness_perm (predictions : list prediction) :
  Permutation (sort_by_weakness predictions) predictions.
Proof.
  induction predictions as [|row rest IH]; simpl; [reflexivity|].
  rewrite insert_by_weakness_perm. now constructor.
Qed.

Lemma insert_by_weakness_sorted (row : prediction) (sorted : list prediction) :
  StronglySorted weaker_or_equal sorted ->
  StronglySorted weaker_or_equal (insert_by_weakness row sorted).
Proof.
  induction sorted as [|r sorted IH]; intros Hs; simpl.
  - repeat constructor.
  - inversion Hs as [|? ? Hs' Hall]; subst.
    destruct (Qle_bool (weakness_score r) (weakness_score row)) eqn:E.
    + apply Qle_bool_iff in E. constructor; [assumption|].
      constructor; [exact E|].
      eapply Forall_impl; [|exact Hall].
      intros a Ha. unfold weaker_or_equal in *. now apply Qle_trans with (weakness_score r).
    + constructor; [now apply IH|].
      assert (Hlt : (weakness_score row <= weakness_score r)%Q).
      { apply Qnot_lt_le. intros Hlt. apply Qlt_le_weak in Hlt.
        apply Qle_bool_iff in Hlt. congruence. }
      apply (Permutation_Forall (Permutation_sym (insert_by_weakness_perm row sorted))).
      now constructor.
Qed.

Lemma sort_by_weakness_sorted (predictions : list prediction) :
  StronglySorted weaker_or_equal (sort_by_weakness predictions).
Proof.
  induction predictions as [|row rest IH]; simpl; [constructor|].
  now apply insert_by_weakness_sorted.
Qed.

(** ** Facts about the Sunday template *)

Lemma sunday_slots_shape
    (wake_dt breakfast_dt lunch_dt dinner_dt : Z)
    (breakfast_duration lunch_duration dinner_duration morning_routine_duration : Z)
    (sleep_dt : Z) (first : string) (others : list string) :
  exists common leisure,
    sunday_slots wake_dt breakfast_dt lunch_dt dinner_dt breakfast_duration
      lunch_duration dinner_duration morning_routine_duration sleep_dt
      (first :: others)
    = Ok (common ++ [leisure])
    /\ common =
       (let routine_end := wake_dt + morning_routine_duration in
        let breakfast_end := breakfast_dt + breakfast_duration in
        let second := match others with [] => first | s :: _ => s end in
        [ Slot.mk (wake_dt, routine_end) "🌅 Morning Routine" Routine
                  morning_routine_duration;
          Slot.mk (breakfast_dt, breakfast_end) "🍳 Breakfast" Meal breakfast_duration;
          Slot.mk (breakfast_end, breakfast_end + 90)
                  ("📚 Revision: " ++ first)%string Revision 90;
          Slot.mk (breakfast_end + 90, breakfast_end + 120) "☕ Break" Break 30;
          Slot.mk (breakfast_end + 120, breakfast_end + 210)
                  ("📚 Revision: " ++ second)%string Revision 90;
          Slot.mk (lunch_dt, lunch_dt + lunch_duration) "🍛 Lunch" Meal lunch_duration;
          Slot.mk (lunch_dt + lunch_duration, lunch_dt + (lunch_duration + 120))
                  "📝 Mock Test / Practice Problems" Assessment 120;
          Slot.mk (dinner_dt, dinner_dt + dinner_duration) "🍽️ Dinner" Meal
                  dinner_duration ])
    /\ leisure =
       Slot.mk (dinner_dt + dinner_duration, sleep_dt) "🎮 Leisure / Relaxation" Free
               (sleep_dt - (dinner_dt + dinner_duration)).
Proof.
  eexists. eexists. split; [|split; reflexivity].
  unfold sunday_slots. destruct others; reflexivity.
Qed.

Lemma nlargest_nonempty (predictions : list prediction) :
  predictions <> [] ->
  exists top rest,
    sort_by_weakness predictions = top :: rest
    /\ map subject (nlargest 3 predictions)
       = subject top :: map subject (firstn 2 rest).
Proof.
  intros Hne. unfold nlargest.
  destruct (sort_by_weakness predictions) as [|top rest] eqn:E.
  - pose proof (sort_by_weakness_perm predictions) as Hperm. rewrite E in Hperm.
    apply Permutation_nil in Hperm. contradiction.
  - exists top, rest. split; reflexivity.
Qed.

(** For predictions that are not empty, the call returns a timetable whose
    study days are the generated ones and whose Sunday is the template. *)
Lemma generate_returns `{NumpyRandom} (g : rng_state)
    (predictions : list prediction)
    (wake_time sleep_time break_duration max_sessions_per_day session_duration : Z)
    (meals : meal_times) :
  predictions <> [] ->
  let f := day_slots wake_time (fst (breakfast meals)) (fst (lunch meals))
             (fst (dinner meals)) (snd (breakfast meals)) (snd (lunch meals))
             (snd (dinner meals)) (morning_routine meals) break_duration
             session_duration in
  let assignments := assign_subjects (shuffled_pool g predictions) max_sessions_per_day in
  exists week sunday,
    fst (generate_smart_timetable g predictions wake_time sleep_time break_duration
           max_sessions_per_day session_duration meals) = Ok week
    /\ PyDict.keys week = days
    /\ (forall day, In day study_days ->
          PyDict.get day week = Some (f (subjects_of_day assignments day)))
    /\ PyDict.get "Sunday" week = Some sunday
    /\ sunday_slots wake_time (fst (breakfast meals)) (fst (lunch meals))
         (fst (dinner meals)) (snd (breakfast meals)) (snd (lunch meals))
         (snd (dinner meals)) (morning_routine meals)
         (if sleep_time <=? wake_time then sleep_time + 1440 else sleep_time)
         (map subject (nlargest 3 predictions)) = Ok sunday.
Proof.
  intros Hne f assignments.
  rewrite generate_smart_timetable_result, fill_week_shape.
  destruct (nlargest_nonempty predictions Hne) as [top [rest [_ Hweak]]].
  rewrite Hweak.
  destruct (sunday_slots_shape wake_time (fst (breakfast meals)) (fst (lunch meals))
              (fst (dinner meals)) (snd (breakfast meals)) (snd (lunch meals))
              (snd (dinner meals)) (morning_routine meals)
              (if sleep_time <=? wake_time then sleep_time + 1440 else sleep_time)
              (subject top) (map subject (firstn 2 rest)))
    as [common [leisure [Hs _]]].
  rewrite Hs. unfold bind.
  eexists. eexists. split; [reflexivity|].
  split; [|split; [|split; [|reflexivity]]].
  - rewrite keys_set_present; [apply days_filled_keys|].
    rewrite days_filled_keys. simpl. tauto.
  - intros day Hday. rewrite get_set_other.
    + now apply days_filled_get.
    + intros E. subst day. now apply sunday_is_no_study_day.
  - apply get_set_same.
Qed.

(** ** Order and overlap of the slots of a day *)

Lemma strongly_sorted_snoc {A : Type} (R : A -> A -> Prop) (l : list A) (x : A) :
  StronglySorted R l -> Forall (fun a => R a x) l -> StronglySorted R (l ++ [x]).
Proof.
  induction 1 as [|a l Hs IH Hall]; intros Hx; simpl.
  - repeat constructor.
  - inversion Hx; subst. constructor; [now apply IH|].
    apply Forall_app. split; [assumption|]. now repeat constructor.
Qed.

Lemma placed_snoc (slots : list Slot.t) (current_time : Z) (x : Slot.t) (t : Z) :
  placed slots current_time ->
  current_time <= Slot.start x -> Slot.start x <= Slot.stop x -> Slot.stop x <= t ->
  placed (slots ++ [x]) t.
Proof.
  intros [Hs Hall] H1 H2 H3. split.
  - apply strongly_sorted_snoc; [assumption|].
    eapply Forall_impl; [|exact Hall]. unfold ends_before. intros a [_ Ha]. lia.
  - apply Forall_app. split.
    + eapply Forall_impl; [|exact Hall]. intros a [Ha Hb]. lia.
    + repeat constructor; lia.
Qed.

Lemma placed_sorted (slots : list Slot.t) (t : Z) :
  placed slots t -> sorted_by_start slots = true /\ no_overlap slots = true.
Proof.
  intros [Hs Hall]. induction Hs as [|a l Hs IH Ha]; [split; reflexivity|].
  inversion Hall as [|? ? [Hle _] Hall']; subst.
  destruct (IH Hall') as [IH1 IH2]. split.
  - destruct l as [|b l]; [reflexivity|].
    change (sorted_by_start (a :: b :: l))
      with ((Slot.start a <=? Slot.start b) && sorted_by_start (b :: l)).
    rewrite IH1, andb_true_r.
    inversion Ha; subst. unfold ends_before in *. lia.
  - cbn [no_overlap]. rewrite IH2, andb_true_r.
    apply forallb_forall. intros b Hb.
    rewrite Forall_forall in Ha. specialize (Ha b Hb).
    unfold overlap, ends_before in *.
    destruct (Z.ltb_spec (Slot.start b) (Slot.stop a)); [lia|].
    now rewrite andb_false_r.
Qed.

(** Arithmetic on the bounds of the slots the day is built from. *)
Ltac slot_arith :=
  unfold Slot.start, Slot.stop, routine_slot, breakfast_slot, lunch_slot,
    dinner_slot, study_slot, break_slot, self_study_slot;
  simpl; lia.

Section Placement.
Variables wake_dt breakfast_dt lunch_dt dinner_dt : Z.
Variables breakfast_duration lunch_duration dinner_duration : Z.
Variables morning_routine_duration break_duration session_duration : Z.

Hypothesis routine_nonneg : 0 <= morning_routine_duration.
Hypothesis breakfast_nonneg : 0 <= breakfast_duration.
Hypothesis lunch_nonneg : 0 <= lunch_duration.
Hypothesis dinner_nonneg : 0 <= dinner_duration.
Hypothesis break_nonneg : 0 <= break_duration.
Hypothesis session_nonneg : 0 <= session_duration.

Let place_session' :=
  place_session lunch_dt dinner_dt lunch_duration dinner_duration
    break_duration session_duration.
Let place_sessions' :=
  place_sessions lunch_dt dinner_dt lunch_duration dinner_duration
    break_duration session_duration.

Lemma meal_first_before (current_time meal_dt session_end : Z) :
  meal_first current_time meal_dt session_end = true -> current_time < meal_dt.
Proof. unfold meal_first. lia. Qed.

Lemma meal_placed (slots : list Slot.t) (current_time meal_dt meal_duration : Z)
    (label : string) :
  placed slots current_time -> current_time < meal_dt -> 0 <= meal_duration ->
  placed (slots ++ [Slot.mk (meal_dt, meal_dt + meal_duration) label Meal meal_duration])
         (meal_dt + meal_duration).
Proof.
  intros Hp Hlt Hd. apply (placed_snoc _ current_time); [exact Hp|..]; slot_arith.
Qed.

Lemma study_then_break_placed (slots : list Slot.t) (current_time : Z)
    (subject : string) (more : bool) :
  placed slots current_time ->
  let session_end := current_time + session_duration in
  let st :=
    if more then
      ((slots ++ [study_slot session_duration current_time session_end subject])
         ++ [break_slot break_duration session_end], session_end + break_duration)
    else (slots ++ [study_slot session_duration current_time session_end subject],
          session_end) in
  placed (fst st) (snd st).
Proof.
  intros Hp session_end st. subst st session_end.
  assert (Hs : placed (slots ++ [study_slot session_duration current_time
                                   (current_time + session_duration) subject])
                      (current_time + session_duration)).
  { apply (placed_snoc _ current_time); [exact Hp|..]; slot_arith. }
  destruct more; cbn [fst snd]; [|exact Hs].
  apply (placed_snoc _ (current_time + session_duration)); [exact Hs|..]; slot_arith.
Qed.

Lemma place_session_placed (n : nat) (slots : list Slot.t) (current_time : Z)
    (i : nat) (subject : string) :
  placed slots current_time ->
  placed (fst (place_session' n (slots, current_time) i subject))
         (snd (place_session' n (slots, current_time) i subject)).
Proof.
  intros Hp. unfold place_session', place_session.
  destruct (meal_first current_time lunch_dt (current_time + session_duration)) eqn:El.
  - apply meal_first_before in El.
    pose proof (meal_placed _ _ _ _ "🍛 Lunch" Hp El lunch_nonneg) as Hl.
    destruct (meal_first (lunch_dt + lunch_duration) dinner_dt
                (lunch_dt + lunch_duration + session_duration)) eqn:Ed.
    + apply meal_first_before in Ed.
      pose proof (meal_placed _ _ _ _ "🍽️ Dinner" Hl Ed dinner_nonneg) as Hd.
      exact (study_then_break_placed _ _ subject _ Hd).
    + exact (study_then_break_placed _ _ subject _ Hl).
  - destruct (meal_first current_time dinner_dt (current_time + session_duration)) eqn:Ed.
    + apply meal_first_before in Ed.
      pose proof (meal_placed _ _ _ _ "🍽️ Dinner" Hp Ed dinner_nonneg) as Hd.
      exact (study_then_break_placed _ _ subject _ Hd).
    + exact (study_then_break_placed _ _ subject _ Hp).
Qed.

Lemma place_sessions_placed (n : nat) :
  forall (subjects : list string) (st : list Slot.t * Z) (i : nat),
    placed (fst st) (snd st) ->
    placed (fst (place_sessions' n st i subjects)) (snd (place_sessions' n st i subjects)).
Proof.
  induction subjects as [|s rest IH]; intros st i Hp; simpl; [assumption|].
  apply IH. destruct st as [slots t]. now apply place_session_placed.
Qed.

Lemma ensure_dinner_placed (slots : list Slot.t) (current_time : Z) :
  placed slots current_time ->
  exists t, placed (ensure_dinner dinner_dt dinner_duration (slots, current_time)) t.
Proof.
  intros Hp. unfold ensure_dinner.
  destruct (negb _); [|eauto].
  destruct (Z.ltb_spec current_time dinner_dt); [|eauto].
  exists (dinner_dt + dinner_duration).
  destruct (60 <=? dinner_dt - current_time).
  - eapply placed_snoc; [eapply (placed_snoc _ _ _ dinner_dt); [exact Hp|..]|..];
      slot_arith.
  - eapply placed_snoc; [exact Hp|..]; slot_arith.
Qed.

Hypothesis breakfast_after_routine :
  wake_dt + morning_routine_duration <= breakfast_dt.

Lemma day_slots_placed (subjects_today : list string) :
  exists t,
    placed (day_slots wake_dt breakfast_dt lunch_dt dinner_dt breakfast_duration
              lunch_duration dinner_duration morning_routine_duration
              break_duration session_duration subjects_today) t.
Proof.
  unfold day_slots.
  set (st := place_sessions _ _ _ _ _ _ _ _ _ _).
  assert (Hp : placed (fst st) (snd st)).
  { apply place_sessions_placed. simpl. split.
    - repeat constructor. unfold ends_before. slot_arith.
    - repeat constructor; slot_arith. }
  destruct st as [slots t]. now apply ensure_dinner_placed.
Qed.

End Placement.

(** ** Claim C1: order of the study days *)

Lemma shuffled_pool_of_repeat `{NumpyRandom} (g : rng_state)
    (predictions : list prediction) (x : string) (n : nat) :
  build_subject_pool (calculate_subject_distribution predictions) = repeat x n ->
  shuffled_pool g predictions = repeat x n.
Proof. unfold shuffled_pool. intros ->. apply np_shuffle_repeat. Qed.

Lemma shuffled_pool_one_subject `{NumpyRandom} (g : rng_state) :
  shuffled_pool g one_subject = repeat "Math" 6.
Proof. apply (shuffled_pool_of_repeat g one_subject "Math" 6). now vm_compute. Qed.

(** C1, as stated, fails: with a two-hour morning routine after waking at
    06:00 and breakfast at 07:30, Monday's first two slots overlap, whatever
    the generator. *)
Lemma C1_overlap_counterexample :
  ~ exists (R : NumpyRandom) (g : rng_state),
      well_ordered_day
        (fst (generate_smart_timetable g one_subject (hm 6 0) (hm 23 0) 30 6 60
                long_routine_meals)) "Monday" = true.
Proof.
  intros [R [g H]].
  rewrite generate_smart_timetable_result, shuffled_pool_one_subject in H.
  vm_compute in H. discriminate.
Qed.

(** C1, amended: for every non-empty prediction list and every configuration
    whose durations are not negative and whose morning routine ends no later
    than breakfast starts, the call returns a timetable in which each day from
    Monday to Saturday is sorted by slot start and has no two overlapping
    slots, start and end being the datetimes the slots are built from. *)
Theorem C1_study_days_sorted_without_overlap :
  forall (R : NumpyRandom) (g : rng_state) (predictions : list prediction)
         (wake_time sleep_time break_duration max_sessions_per_day session_duration : Z)
         (meals : meal_times),
    predictions <> [] ->
    0 <= morning_routine meals ->
    0 <= snd (breakfast meals) -> 0 <= snd (lunch meals) -> 0 <= snd (dinner meals) ->
    0 <= break_duration -> 0 <= session_duration ->
    wake_time + morning_routine meals <= fst (breakfast meals) ->
    exists week,
      fst (generate_smart_timetable g predictions wake_time sleep_time break_duration
             max_sessions_per_day session_duration meals) = Ok week
      /\ forall day, In day study_days ->
           exists slots,
             PyDict.get day week = Some slots
             /\ sorted_by_start slots = true /\ no_overlap slots = true.
Proof.
  intros R g predictions wake_time sleep_time break_duration max_sessions_per_day
         session_duration meals Hne Hr Hb Hl Hd Hbr Hs Hrb.
  destruct (generate_returns g predictions wake_time sleep_time break_duration
              max_sessions_per_day session_duration meals Hne)
    as [week [sunday [Hok [_ [Hdays _]]]]].
  exists week. split; [exact Hok|].
  intros day Hday. rewrite (Hdays day Hday).
  eexists. split; [reflexivity|].
  destruct (day_slots_placed wake_time (fst (breakfast meals)) (fst (lunch meals))
              (fst (dinner meals)) (snd (breakfast meals)) (snd (lunch meals))
              (snd (dinner meals)) (morning_routine meals) break_duration
              session_duration Hr Hb Hl Hd Hbr Hs Hrb
              (subjects_of_day
                 (assign_subjects (shuffled_pool g predictions) max_sessions_per_day) day))
    as [t Hp].
  exact (placed_sorted _ _ Hp).
Qed.

Lemma C1_witness :
  exists week,
    fst (generate_smart_timetable (H := keep_order_random) tt math_history
           (hm 6 0) (hm 23 0) 30 6 60 default_meals) = Ok week
    /\ forall day, In day study_days ->
         exists slots,
           PyDict.get day week = Some slots
           /\ sorted_by_start slots = true /\ no_overlap slots = true.
Proof.
  apply (C1_study_days_sorted_without_overlap keep_order_random tt math_history
           (hm 6 0) (hm 23 0) 30 6 60 default_meals).
  - discriminate.
  - simpl; lia.
  - simpl; lia.
  - simpl; lia.
  - simpl; lia.
  - lia.
  - lia.
  - vm_compute; discriminate.
Defined.

(** ** Claim C5: the Sunday template *)

(** C5: for every non-empty prediction list and every configuration, the
    Sunday of the returned timetable has exactly one Assessment slot, of 120
    minutes, and exactly two Revision slots, of 90 minutes each; the first
    revises a subject of highest weakness score, the second a subject of
    highest weakness score among the other rows, or the same subject when
    there is no other row. *)
Theorem C5_sunday_assessment_and_revisions :
  forall (R : NumpyRandom) (g : rng_state) (predictions : list prediction)
         (wake_time sleep_time break_duration max_sessions_per_day session_duration : Z)
         (meals : meal_times),
    predictions <> [] ->
    exists week sunday top second others,
      fst (generate_smart_timetable g predictions wake_time sleep_time break_duration
             max_sessions_per_day session_duration meals) = Ok week
      /\ PyDict.get "Sunday" week = Some sunday
      /\ Permutation predictions (top :: others)
      /\ Forall (fun row => (weakness_score row <= weakness_score top)%Q) others
      /\ match others with
         | [] => second = top
         | _ :: _ =>
             exists rest,
               Permutation others (second :: rest)
               /\ Forall (fun row => (weakness_score row <= weakness_score second)%Q) rest
         end
      /\ (let lunch_end := fst (lunch meals) + snd (lunch meals) in
          filter (has_type Assessment) sunday
          = [Slot.mk (lunch_end, fst (lunch meals) + (snd (lunch meals) + 120))
                     "📝 Mock Test / Practice Problems" Assessment 120])
      /\ (let breakfast_end := fst (breakfast meals) + snd (breakfast meals) in
          filter (has_type Revision) sunday
          = [Slot.mk (breakfast_end, breakfast_end + 90)
                     ("📚 Revision: " ++ subject top)%string Revision 90;
             Slot.mk (breakfast_end + 120, breakfast_end + 210)
                     ("📚 Revision: " ++ subject second)%string Revision 90]).
Proof.
  intros R g predictions wake_time sleep_time break_duration max_sessions_per_day
         session_duration meals Hne.
  destruct (generate_returns g predictions wake_time sleep_time break_duration
              max_sessions_per_day session_duration meals Hne)
    as [week [sunday [Hok [_ [_ [Hget Hsunday]]]]]].
  destruct (nlargest_nonempty predictions Hne) as [top [rest [Hsort Hweak]]].
  pose proof (sort_by_weakness_perm predictions) as Hperm.
  pose proof (sort_by_weakness_sorted predictions) as Hsorted.
  rewrite Hsort in Hperm, Hsorted.
  inversion Hsorted as [|? ? Hrest Htop]; subst.
  rewrite Hweak in Hsunday.
  destruct (sunday_slots_shape wake_time (fst (breakfast meals)) (fst (lunch meals))
              (fst (dinner meals)) (snd (breakfast meals)) (snd (lunch meals))
              (snd (dinner meals)) (morning_routine meals)
              (if sleep_time <=? wake_time then sleep_time + 1440 else sleep_time)
              (subject top) (map subject (firstn 2 rest)))
    as [common [leisure [Hshape [Hcommon Hleisure]]]].
  rewrite Hshape in Hsunday. injection Hsunday as <-.
  exists week, (common ++ [leisure]), top,
         (match rest with [] => top | s :: _ => s end), rest.
  split; [exact Hok|]. split; [exact Hget|].
  split; [now apply Permutation_sym|]. split; [exact Htop|].
  split; [|split].
  - destruct rest as [|s rest']; [reflexivity|].
    exists rest'. split; [reflexivity|]. now inversion Hrest.
  - subst common leisure. reflexivity.
  - subst common leisure. destruct rest as [|s rest']; reflexivity.
Qed.

Lemma C5_witness :
  exists week sunday,
    fst (generate_smart_timetable (H := keep_order_random) tt math_history
           (hm 6 0) (hm 23 0) 30 6 60 default_meals) = Ok week
    /\ PyDict.get "Sunday" week = Some sunday
    /\ List.length (filter (has_type Assessment) sunday) = 1%nat
    /\ List.length (filter (has_type Revision) sunday) = 2%nat.
Proof.
  destruct (C5_sunday_assessment_and_revisions keep_order_random tt math_history
              (hm 6 0) (hm 23 0) 30 6 60 default_meals)
    as [week [sunday [top [second [others [Hok [Hget [_ [_ [_ [Ha Hr]]]]]]]]]]].
  - discriminate.
  - exists week, sunday. cbv zeta in Ha, Hr. rewrite Ha, Hr. auto.
Defined.

(** ** Claim C9: the call does not depend on the state of the generator *)

(** C9: two calls with the same predictions and the same configuration
    return the same timetable, and leave the generator in the same state,
    whatever state earlier calls left it in: the call installs the state of
    seed 42 before it shuffles, and seeding replaces the state. *)
Theorem C9_generation_is_deterministic :
  forall (R : NumpyRandom) (g1 g2 : rng_state) (predictions : list prediction)
         (wake_time sleep_time break_duration max_sessions_per_day session_duration : Z)
         (meals : meal_times),
    generate_smart_timetable g1 predictions wake_time sleep_time break_duration
      max_sessions_per_day session_duration meals
    = generate_smart_timetable g2 predictions wake_time sleep_time break_duration
        max_sessions_per_day session_duration meals.
Proof.
  intros. unfold generate_smart_timetable.
  now rewrite (np_seed_resets g1 g2).
Qed.

(** ** Claim C8: what the calls raise *)





Lemma generate_empty `{NumpyRandom} (g : rng_state)
    (wake_time sleep_time break_duration max_sessions_per_day session_duration : Z)
    (meals : meal_times) :
  fst (generate_smart_timetable g [] wake_time sleep_time break_duration
         max_sessions_per_day session_duration meals) = Raise IndexError.
Proof. rewrite generate_smart_timetable_result, fill_week_shape. reflexivity. Qed.



(** ** Claim C10: what [sleep_time] changes *)

(** C10: of two calls that differ only in [sleep_time], both raise or both
    return; the days from Monday to Saturday are the same, and so is every
    slot of Sunday but the last, the Leisure slot, which keeps its start, its
    label and its type and ends at the time of sleep. *)
Theorem C10_sleep_time_only_moves_sunday_leisure :
  forall (R : NumpyRandom) (g : rng_state) (predictions : list prediction)
         (wake_time sleep_time1 sleep_time2 : Z)
         (break_duration max_sessions_per_day session_duration : Z)
         (meals : meal_times),
    let r1 := fst (generate_smart_timetable g predictions wake_time sleep_time1
                     break_duration max_sessions_per_day session_duration meals) in
    let r2 := fst (generate_smart_timetable g predictions wake_time sleep_time2
                     break_duration max_sessions_per_day session_duration meals) in
    (forall day, In day study_days -> day_of r1 day = day_of r2 day)
    /\ (predictions <> [] ->
        exists common leisure1 leisure2,
          day_of r1 "Sunday" = Some (common ++ [leisure1])
          /\ day_of r2 "Sunday" = Some (common ++ [leisure2])
          /\ Slot.type leisure1 = Free /\ Slot.type leisure2 = Free
          /\ Slot.subject leisure1 = Slot.subject leisure2
          /\ Slot.start leisure1 = Slot.start leisure2
          /\ Slot.duration leisure1 = Slot.stop leisure1 - Slot.start leisure1
          /\ Slot.duration leisure2 = Slot.stop leisure2 - Slot.start leisure2).
Proof.
  intros R g predictions wake_time sleep_time1 sleep_time2 break_duration
         max_sessions_per_day session_duration meals r1 r2. subst r1 r2.
  destruct predictions as [|row rest].
  - split; [|congruence]. intros day _. now rewrite !generate_empty.
  - assert (Hne : row :: rest <> []) by discriminate.
    destruct (generate_returns g (row :: rest) wake_time sleep_time1 break_duration
                max_sessions_per_day session_duration meals Hne)
      as [week1 [sunday1 [Hok1 [_ [Hdays1 [Hget1 Hs1]]]]]].
    destruct (generate_returns g (row :: rest) wake_time sleep_time2 break_duration
                max_sessions_per_day session_duration meals Hne)
      as [week2 [sunday2 [Hok2 [_ [Hdays2 [Hget2 Hs2]]]]]].
    rewrite Hok1, Hok2. simpl day_of. split.
    + intros day Hday. now rewrite Hdays1, Hdays2.
    + intros _.
      destruct (nlargest_nonempty (row :: rest) Hne) as [top [others [_ Hweak]]].
      rewrite Hweak in Hs1, Hs2.
      destruct (sunday_slots_shape wake_time (fst (breakfast meals)) (fst (lunch meals))
                  (fst (dinner meals)) (snd (breakfast meals)) (snd (lunch meals))
                  (snd (dinner meals)) (morning_routine meals)
                  (if sleep_time1 <=? wake_time then sleep_time1 + 1440 else sleep_time1)
                  (subject top) (map subject (firstn 2 others)))
        as [common1 [leisure1 [Hshape1 [Hc1 Hl1]]]].
      destruct (sunday_slots_shape wake_time (fst (breakfast meals)) (fst (lunch meals))
                  (fst (dinner meals)) (snd (breakfast meals)) (snd (lunch meals))
                  (snd (dinner meals)) (morning_routine meals)
                  (if sleep_time2 <=? wake_time then sleep_time2 + 1440 else sleep_time2)
                  (subject top) (map subject (firstn 2 others)))
        as [common2 [leisure2 [Hshape2 [Hc2 Hl2]]]].
      rewrite Hshape1 in Hs1. rewrite Hshape2 in Hs2.
      injection Hs1 as <-. injection Hs2 as <-.
      exists common1, leisure1, leisure2.
      rewrite Hget1, Hget2. subst common1 common2 leisure1 leisure2.
      repeat split; reflexivity.
Qed.

Lemma C10_witness :
  exists common leisure1 leisure2,
    day_of (fst (generate_smart_timetable (H := keep_order_random) tt math_history
                   (hm 6 0) (hm 23 0) 30 6 60 default_meals)) "Sunday"
    = Some (common ++ [leisure1])
    /\ day_of (fst (generate_smart_timetable (H := keep_order_random) tt math_history
                      (hm 6 0) (hm 22 0) 30 6 60 default_meals)) "Sunday"
       = Some (common ++ [leisure2])
    /\ Slot.start leisure1 = Slot.start leisure2.
Proof.
  destruct (proj2 (C10_sleep_time_only_moves_sunday_leisure keep_order_random tt
                     math_history (hm 6 0) (hm 23 0) (hm 22 0) 30 6 60 default_meals))
    as [common [l1 [l2 [H1 [H2 [_ [_ [_ [H3 _]]]]]]]]].
  - discriminate.
  - exists common, l1, l2. auto.
Defined.

(** ** Claim C2: a session that starts when lunch starts *)

(** C2 at its failing input: the second Study slot of Monday runs from 13:00
    to 15:00, over the whole Lunch window 13:00-14:00, and no Lunch slot is
    placed before it, nor anywhere in the day: the test of line 281 asks for
    [current_time < lunch_dt], which is false when the session starts exactly
    when lunch starts. *)
Theorem C2_session_placed_over_lunch :
  forall (R : NumpyRandom) (g : rng_state),
    day_of (fst (generate_smart_timetable g one_subject (hm 6 0) (hm 23 0) 60 6 120
                   late_breakfast_meals)) "Monday"
    = Some [ Slot.mk (hm 6 0, hm 6 45) "🌅 Morning Routine (Freshen up, Exercise)"
                     Routine 45;
             Slot.mk (hm 9 30, hm 10 0) "🍳 Breakfast" Meal 30;
             Slot.mk (hm 10 0, hm 12 0) "Math" Study 120;
             Slot.mk (hm 12 0, hm 13 0) "☕ Break" Break 60;
             Slot.mk (hm 13 0, hm 15 0) "Math" Study 120;
             Slot.mk (hm 15 0, hm 20 0) "🎯 Self-Study / Review" Study 300;
             Slot.mk (hm 20 0, hm 20 45) "🍽️ Dinner" Meal 45 ].
Proof.
  intros R g.
  rewrite generate_smart_timetable_result, shuffled_pool_one_subject.
  vm_compute. reflexivity.
Qed.

(** ** Claim C6: the pool is not drawn from twice *)

(** Once the index has reached the end of the pool a day draws nothing: the
    loop condition asks for [pool_index < len(subject_pool)], so the
    remainder of line 236 never wraps around. *)
Lemma draw_from_exhausted_pool (subject_pool : list string) (sessions : Z)
    (attempts_left : nat) (pool_index : nat) :
  (List.length subject_pool <= pool_index)%nat ->
  draw_day_subjects subject_pool sessions attempts_left [] pool_index = ([], pool_index).
Proof.
  intros Hle. destruct attempts_left as [|a]; simpl; [reflexivity|].
  destruct (Nat.ltb_spec pool_index (List.length subject_pool)); [lia|].
  now rewrite andb_false_r.
Qed.

(** C6 at its failing input: one subject gives a pool of six tokens, fewer
    than the 24 sessions of the week; Monday draws two of them and skips the
    other four, and Tuesday to Saturday draw none, so that these days hold no
    session of the subject. *)
Theorem C6_days_after_the_pool_is_used_up :
  forall (R : NumpyRandom) (g : rng_state),
    assign_subjects (shuffled_pool g one_subject) 6
    = [ ("Monday", ["Math"; "Math"]); ("Tuesday", []); ("Wednesday", []);
        ("Thursday", []); ("Friday", []); ("Saturday", []) ]
    /\ forall day, In day ["Tuesday"; "Wednesday"; "Thursday"; "Friday"; "Saturday"] ->
         day_of (fst (generate_smart_timetable g one_subject (hm 6 0) (hm 23 0) 30 6 60
                        default_meals)) day
         = Some [ Slot.mk (hm 6 0, hm 6 45) "🌅 Morning Routine (Freshen up, Exercise)"
                          Routine 45;
                  Slot.mk (hm 7 30, hm 8 0) "🍳 Breakfast" Meal 30;
                  Slot.mk (hm 8 0, hm 20 0) "🎯 Self-Study / Review" Study 720;
                  Slot.mk (hm 20 0, hm 20 45) "🍽️ Dinner" Meal 45 ].
Proof.
  intros R g. rewrite generate_smart_timetable_result, shuffled_pool_one_subject.
  split; [vm_compute; reflexivity|].
  intros day Hday. simpl in Hday.
  repeat (destruct Hday as [<-|Hday]; [vm_compute; reflexivity|]).
  contradiction.
Qed.

(** ** Claim C7: repetitions of a subject in a day *)

Lemma study_subjects_app (l1 l2 : list Slot.t) :
  study_subjects (l1 ++ l2) = study_subjects l1 ++ study_subjects l2.
Proof. unfold study_subjects. now rewrite filter_app, map_app. Qed.

Section StudySubjects.
Variables wake_dt breakfast_dt lunch_dt dinner_dt : Z.
Variables breakfast_duration lunch_duration dinner_duration : Z.
Variables morning_routine_duration break_duration session_duration : Z.

Lemma place_session_subjects (n : nat) (slots : list Slot.t) (current_time : Z)
    (i : nat) (subject : string) :
  study_subjects
    (fst (place_session lunch_dt dinner_dt lunch_duration dinner_duration
            break_duration session_duration n (slots, current_time) i subject))
  = study_subjects slots ++ [subject].
Proof.
  unfold place_session.
  destruct (meal_first current_time lunch_dt _);
    destruct (meal_first _ dinner_dt _); destruct (_ <? _); cbn [fst];
    rewrite ?study_subjects_app; cbn; rewrite ?app_nil_r; reflexivity.
Qed.

Lemma place_sessions_subjects (n : nat) :
  forall (subjects : list string) (st : list Slot.t * Z) (i : nat),
    study_subjects
      (fst (place_sessions lunch_dt dinner_dt lunch_duration dinner_duration
              break_duration session_duration n st i subjects))
    = study_subjects (fst st) ++ subjects.
Proof.
  induction subjects as [|s rest IH]; intros [slots t] i; cbn [place_sessions fst].
  - now rewrite app_nil_r.
  - rewrite IH, place_session_subjects, <- app_assoc. reflexivity.
Qed.

Lemma ensure_dinner_subjects (slots : list Slot.t) (current_time : Z) :
  let after := study_subjects (ensure_dinner dinner_dt dinner_duration (slots, current_time)) in
  after = study_subjects slots
  \/ after = study_subjects slots ++ [self_study_label].
Proof.
  unfold ensure_dinner.
  destruct (negb _); [|now left].
  destruct (_ <? _); [|now left].
  destruct (_ <=? _); cbv zeta; rewrite ?study_subjects_app; cbn; rewrite ?app_nil_r;
    [now right|now left].
Qed.

(** The Study slots of a day are the sessions of the subjects drawn for it,
    in order, and after them at most the Self-Study filler. *)
Lemma day_slots_subjects (subjects_today : list string) :
  let after :=
    study_subjects
      (day_slots wake_dt breakfast_dt lunch_dt dinner_dt breakfast_duration
         lunch_duration dinner_duration morning_routine_duration break_duration
         session_duration subjects_today) in
  after = subjects_today \/ after = subjects_today ++ [self_study_label].
Proof.
  unfold day_slots.
  pose proof (place_sessions_subjects (List.length subjects_today) subjects_today
                ([routine_slot wake_dt morning_routine_duration;
                  breakfast_slot breakfast_dt breakfast_duration],
                 breakfast_dt + breakfast_duration) 0) as Hs.
  destruct (place_sessions _ _ _ _ _ _ _ _ _ _) as [slots t].
  cbn [fst] in Hs. change (study_subjects [_; _]) with (@nil string) in Hs.
  simpl app in Hs. rewrite <- Hs.
  apply ensure_dinner_subjects.
Qed.

End StudySubjects.

Lemma permutation_with_one_other (x y : string) (n : nat) (l : list string) :
  Permutation l (repeat y n ++ [x]) ->
  exists k, (k <= n)%nat /\ l = repeat y k ++ x :: repeat y (n - k).
Proof.
  intros Hperm.
  assert (Hin : In x l).
  { apply (Permutation_in x (Permutation_sym Hperm)), in_or_app. right. now left. }
  destruct (in_split x l Hin) as [l1 [l2 ->]].
  assert (Hrest : Permutation (l1 ++ l2) (repeat y n)).
  { apply Permutation_sym. apply Permutation_cons_app_inv with (a := x).
    apply Permutation_trans with (repeat y n ++ [x]).
    - apply Permutation_cons_append.
    - now apply Permutation_sym. }
  apply permutation_of_repeat in Hrest.
  assert (Hlen : (List.length l1 + List.length l2 = n)%nat).
  { rewrite <- length_app, Hrest. apply repeat_length. }
  assert (Hall : Forall (eq y) (l1 ++ l2)).
  { rewrite Hrest. apply Forall_forall. intros z Hz. symmetry. now apply (repeat_spec n). }
  apply Forall_app in Hall. destruct Hall as [H1 H2].
  apply Forall_eq_repeat in H1, H2.
  exists (List.length l1). split; [lia|].
  replace (n - List.length l1)%nat with (List.length l2) by lia.
  now rewrite <- H1, <- H2.
Qed.

Lemma shuffled_pool_filler_clash `{NumpyRandom} (g : rng_state) :
  exists k, (k <= 6)%nat
    /\ shuffled_pool g filler_clash
       = repeat self_study_label k ++ "History" :: repeat self_study_label (6 - k).
Proof.
  apply permutation_with_one_other.
  unfold shuffled_pool.
  replace (repeat self_study_label 6 ++ ["History"])
    with (build_subject_pool (calculate_subject_distribution filler_clash))
    by (vm_compute; reflexivity).
  apply np_shuffle_permutation.
Qed.

(** C7, as stated, fails: when a subject bears the label of the Self-Study
    filler, Monday holds two sessions of it and the filler after them, three
    Study slots with one label, in a pool of two distinct subjects and
    whatever the generator. *)
Lemma C7_filler_counterexample :
  ~ exists (R : NumpyRandom) (g : rng_state),
      implb (two_distinct (shuffled_pool g filler_clash))
            (at_most_twice_on
               (fst (generate_smart_timetable g filler_clash (hm 6 0) (hm 23 0) 30 6 60
                       default_meals)) "Monday") = true.
Proof.
  intros [R [g H]].
  rewrite generate_smart_timetable_result in H.
  destruct (shuffled_pool_filler_clash g) as [k [Hk Hpool]].
  rewrite Hpool in H. clear Hpool.
  do 7 (destruct k as [|k]; [vm_compute in H; discriminate|]).
  lia.
Qed.

(** C7, amended: for every non-empty prediction list, whatever the pool, on
    each day from Monday to Saturday the Study slots are the sessions of the
    subjects drawn for the day, none drawn more than twice, followed at most
    by the Self-Study filler; so no label other than the filler's is on more
    than two Study slots of a day. *)
Theorem C7_subject_at_most_twice_a_day :
  forall (R : NumpyRandom) (g : rng_state) (predictions : list prediction)
         (wake_time sleep_time break_duration max_sessions_per_day session_duration : Z)
         (meals : meal_times),
    predictions <> [] ->
    exists week,
      fst (generate_smart_timetable g predictions wake_time sleep_time break_duration
             max_sessions_per_day session_duration meals) = Ok week
      /\ forall day, In day study_days ->
           exists slots drawn,
             PyDict.get day week = Some slots
             /\ at_most_twice drawn
             /\ (study_subjects slots = drawn
                 \/ study_subjects slots = drawn ++ [self_study_label])
             /\ forall s, s <> self_study_label ->
                  (count_occ string_dec (study_subjects slots) s <= 2)%nat.
Proof.
  intros R g predictions wake_time sleep_time break_duration max_sessions_per_day
         session_duration meals Hne.
  destruct (generate_returns g predictions wake_time sleep_time break_duration
              max_sessions_per_day session_duration meals Hne)
    as [week [sunday [Hok [_ [Hdays _]]]]].
  exists week. split; [exact Hok|].
  intros day Hday. rewrite (Hdays day Hday).
  set (assignments := assign_subjects (shuffled_pool g predictions) max_sessions_per_day).
  assert (Htwice : at_most_twice (subjects_of_day assignments day)).
  { destruct (assign_subjects_ok (shuffled_pool g predictions) max_sessions_per_day
                day Hday) as [l [Hl Hl2]].
    unfold subjects_of_day, assignments. now rewrite Hl. }
  eexists. exists (subjects_of_day assignments day).
  split; [reflexivity|]. split; [exact Htwice|].
  pose proof (day_slots_subjects wake_time (fst (breakfast meals)) (fst (lunch meals))
                (fst (dinner meals)) (snd (breakfast meals)) (snd (lunch meals))
                (snd (dinner meals)) (morning_routine meals) break_duration
                session_duration (subjects_of_day assignments day)) as Hs.
  cbv zeta in Hs. split; [exact Hs|].
  intros s Hs'. destruct Hs as [-> | ->]; [apply Htwice|].
  rewrite count_occ_app. cbn [count_occ].
  destruct (string_dec self_study_label s) as [E|_]; [congruence|].
  specialize (Htwice s). lia.
Qed.

Lemma C7_witness :
  exists week,
    fst (generate_smart_timetable (H := keep_order_random) tt math_history
           (hm 6 0) (hm 23 0) 30 6 60 default_meals) = Ok week
    /\ forall day, In day study_days ->
         exists slots drawn,
           PyDict.get day week = Some slots
           /\ at_most_twice drawn
           /\ (study_subjects slots = drawn
               \/ study_subjects slots = drawn ++ [self_study_label])
           /\ forall s, s <> self_study_label ->
                (count_occ string_dec (study_subjects slots) s <= 2)%nat.
Proof.
  apply (C7_subject_at_most_twice_a_day keep_order_random tt math_history
           (hm 6 0) (hm 23 0) 30 6 60 default_meals).
  discriminate.
Defined.

(** * Further properties of the code *)

(** ** The score predictor and the weakness score *)

Lemma qle_bool_false (a b : Q) : Qle_bool a b = false -> (b < a)%Q.
Proof.
  intros E. apply Qnot_le_lt. intros H. apply Qle_bool_iff in H. congruence.
Qed.

Lemma py_max_cases (a b : Q) :
  ((b <= a)%Q /\ py_max a b = a) \/ ((a < b)%Q /\ py_max a b = b).
Proof.
  unfold py_max. destruct (Qle_bool b a) eqn:E.
  - left. split; [now apply Qle_bool_iff|reflexivity].
  - right. split; [now apply qle_bool_false|reflexivity].
Qed.

Lemma py_min_cases (a b : Q) :
  ((a <= b)%Q /\ py_min a b = a) \/ ((b < a)%Q /\ py_min a b = b).
Proof.
  unfold py_min. destruct (Qle_bool a b) eqn:E.
  - left. split; [now apply Qle_bool_iff|reflexivity].
  - right. split; [now apply qle_bool_false|reflexivity].
Qed.

(** The clip of lines 106-107. *)
Lemma clip_cases (x : Q) :
  let y := py_max 0 (py_min 100 x) in
  (0 <= y <= 100)%Q
  /\ ((0 <= x <= 100)%Q -> (y == x)%Q)
  /\ ((x < 0)%Q -> y = 0%Q)
  /\ ((100 < x)%Q -> y = 100%Q).
Proof.
  intros y. subst y.
  destruct (py_min_cases 100 x) as [[H1 E1]|[H1 E1]]; rewrite E1;
    destruct (py_max_cases 0 100) as [[H2 E2]|[H2 E2]];
    destruct (py_max_cases 0 x) as [[H3 E3]|[H3 E3]];
    rewrite ?E2, ?E3; repeat split; intros; try lra; try reflexivity.
Qed.

Lemma predict_score_range (best_model : option (StudyRecord.t -> Q))
    (record : StudyRecord.t) :
  (0 <= predict_score best_model record <= 100)%Q.
Proof.
  unfold predict_score. destruct best_model as [model|]; [|lra].
  apply clip_cases.
Qed.

(** X1: the predicted score is always between 0 and 100, whatever the fitted
    model returns: a prediction in that range is returned unchanged, one
    below 0 becomes 0, one above 100 becomes 100, and without a fitted model
    the score is 0. *)
Theorem X1_predicted_score_is_clipped :
  forall (best_model : option (StudyRecord.t -> Q)) (record : StudyRecord.t),
    (0 <= predict_score best_model record <= 100)%Q
    /\ match best_model with
       | None => predict_score best_model record = 0%Q
       | Some model =>
           ((0 <= model record <= 100)%Q ->
            (predict_score best_model record == model record)%Q)
           /\ ((model record < 0)%Q -> predict_score best_model record = 0%Q)
           /\ ((100 < model record)%Q -> predict_score best_model record = 100%Q)
       end.
Proof.
  intros best_model record. split; [apply predict_score_range|].
  destruct best_model as [model|]; [|reflexivity].
  unfold predict_score. apply clip_cases.
Qed.

Lemma weakness_cases (pred_score : Q) (difficulty : Z) :
  ((70 <= pred_score)%Q /\ (weakness pred_score difficulty == 0)%Q)
  \/ ((pred_score < 70)%Q
      /\ (weakness pred_score difficulty == (70 - pred_score) * inject_Z difficulty)%Q).
Proof.
  unfold weakness.
  destruct (py_max_cases 0 (70 - pred_score)) as [[H E]|[H E]]; rewrite E.
  - left. split; lra.
  - right. split; [lra|reflexivity].
Qed.

Lemma weakness_range (pred_score : Q) (difficulty : Z) :
  (0 <= pred_score)%Q -> 0 <= difficulty ->
  (0 <= weakness pred_score difficulty <= 70 * inject_Z difficulty)%Q.
Proof.
  intros Hp Hd.
  assert (Hq : (0 <= inject_Z difficulty)%Q).
  { change 0%Q with (inject_Z 0). now rewrite <- Zle_Qle. }
  destruct (weakness_cases pred_score difficulty) as [[H E]|[H E]]; rewrite E.
  - split; [lra|]. apply Qmult_le_0_compat; lra.
  - split.
    + apply Qmult_le_0_compat; lra.
    + apply Qmult_le_compat_r; lra.
Qed.

(** ** The predictions of [show] *)

Lemma cell_dec (a b : cell) : {a = b} + {a <> b}.
Proof. decide equality. apply string_dec. Qed.

Lemma same_cell_eq (a b : cell) : same_cell a b = true <-> a = b.
Proof.
  destruct a as [s|], b as [t|]; simpl; try (split; [discriminate|congruence]).
  - rewrite String.eqb_eq. split; congruence.
  - tauto.
Qed.

Lemma cell_eqb_text (c : cell) (s : string) : cell_eqb c (Text s) = true <-> c = Text s.
Proof.
  destruct c as [t|]; simpl; [|split; [discriminate|congruence]].
  rewrite String.eqb_eq. split; congruence.
Qed.

(** Nothing is equal to NaN. *)
Lemma cell_eqb_nan (c : cell) : cell_eqb c NaN = false.
Proof. destruct c; reflexivity. Qed.

Lemma existsb_same_cell_in (x : cell) (l : list cell) :
  existsb (same_cell x) l = true <-> In x l.
Proof.
  rewrite existsb_exists. split.
  - intros [y [Hy E]]. apply same_cell_eq in E. now subst.
  - intros H. exists x. split; [assumption|now apply same_cell_eq].
Qed.

Lemma unique_after_in (x : cell) :
  forall (l seen : list cell),
    In x (unique_after seen l) <-> In x l /\ ~ In x seen.
Proof.
  induction l as [|y l IH]; intros seen; simpl; [tauto|].
  destruct (existsb (same_cell y) seen) eqn:E.
  - apply existsb_same_cell_in in E. rewrite IH. split.
    + tauto.
    + intros [[->|H] Hn]; tauto.
  - assert (Hy : ~ In y seen).
    { intros H. apply existsb_same_cell_in in H. congruence. }
    simpl. rewrite IH. simpl. split.
    + intros [->|[H Hn]]; tauto.
    + intros [[->|H] Hn]; [tauto|].
      destruct (cell_dec y x); [tauto|]. right. tauto.
Qed.

Lemma unique_after_nodup :
  forall (l seen : list cell), NoDup (unique_after seen l).
Proof.
  induction l as [|y l IH]; intros seen; simpl; [constructor|].
  destruct (existsb (same_cell y) seen); [apply IH|].
  constructor; [|apply IH].
  rewrite unique_after_in. simpl. tauto.
Qed.

Lemma unique_in (x : cell) (l : list cell) : In x (unique l) <-> In x l.
Proof. unfold unique. rewrite unique_after_in. simpl. tauto. Qed.

Lemma unique_nodup (l : list cell) : NoDup (unique l).
Proof. apply unique_after_nodup. Qed.

Lemma iloc_last_snoc {A : Type} (l : list A) (x : A) : iloc_last (l ++ [x]) = Ok x.
Proof.
  induction l as [|y l IH]; [reflexivity|].
  simpl. destruct (l ++ [x]) eqn:E; [|exact IH].
  destruct l; discriminate.
Qed.

(** The last record of a subject that has one. *)
Lemma last_record_of_subject (data : list StudyRecord.t) (s : string) :
  In (Text s) (map StudyRecord.subject data) ->
  exists before record after,
    data = before ++ record :: after
    /\ StudyRecord.subject record = Text s
    /\ Forall (fun r => StudyRecord.subject r <> Text s) after
    /\ iloc_last (filter (fun r => cell_eqb (StudyRecord.subject r) (Text s)) data)
       = Ok record.
Proof.
  induction data as [|r data IH] using rev_ind; simpl; [tauto|].
  rewrite map_app, in_app_iff. simpl. intros Hin.
  destruct (cell_eqb (StudyRecord.subject r) (Text s)) eqn:E.
  - exists data, r, []. apply cell_eqb_text in E. repeat split; auto.
    rewrite filter_app. simpl. rewrite E. simpl. rewrite String.eqb_refl.
    apply iloc_last_snoc.
  - assert (Hne : StudyRecord.subject r <> Text s).
    { intros H. apply cell_eqb_text in H. congruence. }
    destruct IH as [before [record [after [-> [Hs [Hafter Hlast]]]]]]; [tauto|].
    exists before, record, (after ++ [r]).
    split; [now rewrite <- app_assoc|]. split; [assumption|]. split.
    + apply Forall_app. split; [assumption|]. now repeat constructor.
    + rewrite filter_app. simpl. rewrite E. now rewrite app_nil_r.
Qed.

(** Line 64 for the subject NaN: the selection is empty and [iloc[-1]]
    raises. *)
Lemma predict_subject_nan (best_model : option (StudyRecord.t -> Q))
    (data : list StudyRecord.t) :
  predict_subject best_model data NaN = Raise IndexError.
Proof.
  unfold predict_subject.
  assert (E : filter (fun r => cell_eqb (StudyRecord.subject r) NaN) data = []).
  { induction data as [|r data IH]; simpl; [reflexivity|].
    now rewrite cell_eqb_nan. }
  rewrite E. reflexivity.
Qed.

(** The loop body raises nothing but the [IndexError] of [iloc[-1]]. *)
Lemma predict_subject_cases (best_model : option (StudyRecord.t -> Q))
    (data : list StudyRecord.t) (subject : cell) :
  (exists row, predict_subject best_model data subject = Ok row)
  \/ predict_subject best_model data subject = Raise IndexError.
Proof.
  unfold predict_subject.
  assert (H : forall l : list StudyRecord.t,
             (exists r, iloc_last l = Ok r) \/ iloc_last l = Raise IndexError).
  { induction l as [|r l IH]; [now right|].
    destruct l as [|r' l]; [left; now exists r|exact IH]. }
  destruct (H (filter (fun r => cell_eqb (StudyRecord.subject r) subject) data))
    as [[r ->] | ->]; simpl; eauto.
Qed.

Lemma for_each_predict (best_model : option (StudyRecord.t -> Q))
    (data : list StudyRecord.t) :
  forall subjects : list cell,
    ~ In NaN subjects ->
    (forall c, In c subjects -> In c (map StudyRecord.subject data)) ->
    exists rows,
      for_each (predict_subject best_model data) subjects = Ok rows
      /\ map Text (map PredictionRow.subject rows) = subjects
      /\ Forall (from_last_record best_model data) rows.
Proof.
  induction subjects as [|c subjects IH]; intros Hnan Hin; simpl.
  - exists []. repeat split. constructor.
  - destruct c as [s|]; [|exfalso; apply Hnan; now left].
    destruct (last_record_of_subject data s (Hin (Text s) (or_introl eq_refl)))
      as [before [record [after [Hdata [Hs [Hafter Hlast]]]]]].
    destruct IH as [rows [Hrows [Hsubjects Hfrom]]].
    { intros H. apply Hnan. now right. }
    { intros c' Hc'. apply Hin. now right. }
    unfold predict_subject at 1. rewrite Hlast. simpl. rewrite Hrows. simpl.
    eexists. split; [reflexivity|]. split.
    + simpl. now rewrite Hsubjects.
    + constructor; [|assumption].
      exists before, record, after. simpl.
      split; [assumption|]. split; [assumption|]. split.
      * now rewrite Hs.
      * unfold row_of_record. now rewrite Hs.
Qed.

Lemma for_each_predict_nan (best_model : option (StudyRecord.t -> Q))
    (data : list StudyRecord.t) :
  forall subjects : list cell,
    In NaN subjects ->
    for_each (predict_subject best_model data) subjects = Raise IndexError.
Proof.
  induction subjects as [|c subjects IH]; intros Hin; simpl; [contradiction|].
  destruct (cell_dec c NaN) as [->|Hc].
  - now rewrite predict_subject_nan.
  - destruct Hin as [->|Hin]; [contradiction|].
    destruct (predict_subject_cases best_model data c) as [[row ->] | ->];
      simpl; [|reflexivity].
    now rewrite IH.
Qed.

Lemma build_predictions_returns (best_model : option (StudyRecord.t -> Q))
    (data : list StudyRecord.t) :
  ~ In NaN (map StudyRecord.subject data) ->
  exists rows,
    build_predictions best_model data = Ok rows
    /\ map Text (map PredictionRow.subject rows) = unique (map StudyRecord.subject data)
    /\ Forall (from_last_record best_model data) rows.
Proof.
  intros Hnan. unfold build_predictions. apply for_each_predict.
  - now rewrite unique_in.
  - intros c Hc. now apply unique_in.
Qed.

Lemma build_predictions_raises (best_model : option (StudyRecord.t -> Q))
    (data : list StudyRecord.t) :
  In NaN (map StudyRecord.subject data) ->
  build_predictions best_model data = Raise IndexError.
Proof.
  intros Hnan. unfold build_predictions. apply for_each_predict_nan.
  now apply unique_in.
Qed.

(** A table that was built has no NaN among its subjects. *)
Lemma build_predictions_built (best_model : option (StudyRecord.t -> Q))
    (data : list StudyRecord.t) (rows : list PredictionRow.t) :
  build_predictions best_model data = Ok rows ->
  ~ In NaN (map StudyRecord.subject data)
  /\ map Text (map PredictionRow.subject rows) = unique (map StudyRecord.subject data)
  /\ Forall (from_last_record best_model data) rows.
Proof.
  intros Hok.
  assert (Hnan : ~ In NaN (map StudyRecord.subject data)).
  { intros H. rewrite (build_predictions_raises best_model data H) in Hok.
    discriminate. }
  destruct (build_predictions_returns best_model data Hnan) as [rows' [Hok' H]].
  rewrite Hok in Hok'. injection Hok' as <-. tauto.
Qed.

Lemma text_subjects_nodup (rows : list PredictionRow.t) (l : list cell) :
  map Text (map PredictionRow.subject rows) = unique l ->
  NoDup (map PredictionRow.subject rows).
Proof.
  intros E. apply (NoDup_map_inv Text). rewrite E. apply unique_nodup.
Qed.

Lemma text_subjects_in (rows : list PredictionRow.t) (l : list cell) (s : string) :
  map Text (map PredictionRow.subject rows) = unique l ->
  (In s (map PredictionRow.subject rows) <-> In (Text s) l).
Proof.
  intros E. rewrite <- unique_in, <- E. split.
  - intros H. now apply in_map.
  - intros H. apply in_map_iff in H. destruct H as [t [Ht H]].
    injection Ht as ->. exact H.
Qed.

(** X2: building the predictions raises, an [IndexError] at line 64, exactly
    when a subject cell of the data is NaN (a subject field read as missing:
    NaN equals no cell, so its selection is empty).  Otherwise it yields one
    row for each distinct subject of the data, in order of first appearance,
    and each row is computed from the last record of its subject. *)
Theorem X2_one_prediction_per_subject_from_its_last_record :
  forall (best_model : option (StudyRecord.t -> Q)) (data : list StudyRecord.t),
    (In NaN (map StudyRecord.subject data) ->
     build_predictions best_model data = Raise IndexError)
    /\ (~ In NaN (map StudyRecord.subject data) ->
        exists rows,
          build_predictions best_model data = Ok rows
          /\ map Text (map PredictionRow.subject rows)
             = unique (map StudyRecord.subject data)
          /\ NoDup (map PredictionRow.subject rows)
          /\ (forall s, In s (map PredictionRow.subject rows)
                        <-> In (Text s) (map StudyRecord.subject data))
          /\ Forall (from_last_record best_model data) rows).
Proof.
  intros best_model data. split; [apply build_predictions_raises|].
  intros Hnan.
  destruct (build_predictions_returns best_model data Hnan) as [rows [Hok [Hs Hfrom]]].
  exists rows. split; [exact Hok|]. split; [exact Hs|].
  split; [exact (text_subjects_nodup rows _ Hs)|]. split; [|exact Hfrom].
  intros s. exact (text_subjects_in rows _ s Hs).
Qed.

Lemma X2_witness :
  build_predictions sample_model sample_data_with_gap = Raise IndexError
  /\ exists rows,
       build_predictions sample_model sample_data = Ok rows
       /\ map Text (map PredictionRow.subject rows)
          = unique (map StudyRecord.subject sample_data)
       /\ NoDup (map PredictionRow.subject rows)
       /\ (forall s, In s (map PredictionRow.subject rows)
                     <-> In (Text s) (map StudyRecord.subject sample_data))
       /\ Forall (from_last_record sample_model sample_data) rows.
Proof.
  split.
  - apply (X2_one_prediction_per_subject_from_its_last_record sample_model
             sample_data_with_gap).
    simpl. tauto.
  - apply (X2_one_prediction_per_subject_from_its_last_record sample_model
             sample_data).
    simpl. intuition discriminate.
Defined.

Lemma row_bounds (best_model : option (StudyRecord.t -> Q))
    (data : list StudyRecord.t) (row : PredictionRow.t) :
  Forall (fun r => 0 <= StudyRecord.difficulty r) data ->
  from_last_record best_model data row ->
  (0 <= PredictionRow.predicted_score row <= 100)%Q
  /\ (0 <= PredictionRow.weakness_score row
      <= 70 * inject_Z (PredictionRow.difficulty row))%Q
  /\ ((70 <= PredictionRow.predicted_score row)%Q ->
      (PredictionRow.weakness_score row == 0)%Q).
Proof.
  intros Hd [before [record [after [-> [_ [_ ->]]]]]].
  rewrite Forall_forall in Hd.
  assert (Hr : 0 <= StudyRecord.difficulty record).
  { apply Hd, in_or_app. right. now left. }
  unfold row_of_record. simpl.
  pose proof (predict_score_range best_model record) as Hp.
  split; [exact Hp|]. split.
  - apply weakness_range; [apply Hp|exact Hr].
  - intros H70.
    destruct (weakness_cases (predict_score best_model record)
                (StudyRecord.difficulty record)) as [[_ E]|[Hlt _]]; [exact E|lra].
Qed.

(** X3: when no record has a negative difficulty, every row of the
    predictions has a predicted score in [0, 100] and a weakness score
    between 0 and 70 times its difficulty, and the weakness score is 0 when
    the predicted score is 70 or more. *)
Theorem X3_weakness_scores_are_bounded :
  forall (best_model : option (StudyRecord.t -> Q)) (data : list StudyRecord.t)
         (rows : list PredictionRow.t),
    Forall (fun r => 0 <= StudyRecord.difficulty r) data ->
    build_predictions best_model data = Ok rows ->
    Forall (fun row =>
              (0 <= PredictionRow.predicted_score row <= 100)%Q
              /\ (0 <= PredictionRow.weakness_score row
                  <= 70 * inject_Z (PredictionRow.difficulty row))%Q
              /\ ((70 <= PredictionRow.predicted_score row)%Q ->
                  (PredictionRow.weakness_score row == 0)%Q))
           rows.
Proof.
  intros best_model data rows Hd Hok.
  destruct (build_predictions_built best_model data rows Hok) as [_ [_ Hfrom]].
  eapply Forall_impl; [|exact Hfrom].
  intros row Hrow. now apply (row_bounds best_model data).
Qed.

Lemma insert_row_perm (row : PredictionRow.t) (sorted : list PredictionRow.t) :
  Permutation (insert_row row sorted) (row :: sorted).
Proof.
  induction sorted as [|r sorted IH]; simpl; [reflexivity|].
  destruct (Qle_bool _ _); [reflexivity|].
  rewrite IH. apply perm_swap.
Qed.

Lemma insert_row_sorted (row : PredictionRow.t) (sorted : list PredictionRow.t) :
  StronglySorted stronger_first sorted ->
  StronglySorted stronger_first (insert_row row sorted).
Proof.
  induction sorted as [|r sorted IH]; intros Hs; simpl.
  - repeat constructor.
  - inversion Hs as [|? ? Hs' Hall]; subst.
    destruct (Qle_bool _ _) eqn:E.
    + apply Qle_bool_iff in E. constructor; [assumption|].
      constructor; [exact E|].
      eapply Forall_impl; [|exact Hall].
      intros a Ha. unfold stronger_first in *. lra.
    + apply qle_bool_false in E.
      constructor; [now apply IH|].
      apply (Permutation_Forall (Permutation_sym (insert_row_perm row sorted))).
      constructor; [|assumption]. unfold stronger_first. lra.
Qed.

#[refine] Instance insertion_sort_values : PandasSort := {
  sort_values_descending := fold_right insert_row []
}.
Proof.
  - induction rows as [|row rows IH]; simpl; [reflexivity|].
    rewrite insert_row_perm. now constructor.
  - induction rows as [|row rows IH]; simpl; [constructor|].
    now apply insert_row_sorted.
Defined.

Lemma sample_rows_built : build_predictions sample_model sample_data = Ok sample_rows.
Proof. reflexivity. Qed.

Lemma X3_witness :
  Forall (fun row =>
            (0 <= PredictionRow.predicted_score row <= 100)%Q
            /\ (0 <= PredictionRow.weakness_score row
                <= 70 * inject_Z (PredictionRow.difficulty row))%Q
            /\ ((70 <= PredictionRow.predicted_score row)%Q ->
                (PredictionRow.weakness_score row == 0)%Q))
         sample_rows.
Proof.
  apply (X3_weakness_scores_are_bounded sample_model sample_data sample_rows).
  - repeat constructor; simpl; lia.
  - reflexivity.
Defined.

(** ** The run of [show] *)

Lemma show_predictions_built `{PandasSort}
    (best_model : option (StudyRecord.t -> Q)) (data : list StudyRecord.t)
    (pred_df : list PredictionRow.t) :
  show_predictions best_model data = Ok pred_df ->
  exists rows,
    build_predictions best_model data = Ok rows
    /\ pred_df = sort_values_descending rows
    /\ map Text (map PredictionRow.subject rows) = unique (map StudyRecord.subject data)
    /\ Forall (from_last_record best_model data) rows.
Proof.
  unfold show_predictions.
  destruct (build_predictions best_model data) as [rows|e] eqn:Hok; simpl;
    [|discriminate].
  intros E. injection E as <-.
  destruct (build_predictions_built best_model data rows Hok) as [_ [Hs Hfrom]].
  exists rows. auto.
Qed.

Lemma frame_not_empty `{PandasSort}
    (best_model : option (StudyRecord.t -> Q)) (data : list StudyRecord.t)
    (pred_df : list PredictionRow.t) :
  data <> [] -> show_predictions best_model data = Ok pred_df ->
  map scheduler_columns pred_df <> [].
Proof.
  intros Hdata Hok.
  destruct (show_predictions_built best_model data pred_df Hok)
    as [rows [_ [-> [Hs _]]]].
  intros Hnil. apply map_eq_nil in Hnil.
  pose proof (sort_values_permutation rows) as Hperm. rewrite Hnil in Hperm.
  apply Permutation_nil in Hperm. subst rows.
  destruct data as [|r data]; [contradiction|].
  simpl in Hs. discriminate.
Qed.

(** X4: a run of [show] over at least five records, three of them of
    completed exams, ends with a timetable of the seven days when every
    record has a subject, whatever the fitted model, the configuration, the
    order pandas gives to rows of equal weakness and the state of NumPy's
    generator: the call of [generate_smart_timetable] on line 141 does not
    raise.  When the subject of some record is NaN (a subject field read as
    missing), the run raises the [IndexError] of line 64 instead and reaches
    no timetable. *)
Theorem X4_show_gets_a_timetable_unless_a_subject_is_missing :
  forall (R : NumpyRandom) (S : PandasSort) (g : rng_state)
         (best_model : option (StudyRecord.t -> Q)) (data : list StudyRecord.t)
         (wake_time sleep_time break_duration max_sessions_per_day session_duration : Z)
         (meals : meal_times),
    (5 <= List.length data)%nat ->
    (3 <= List.length (filter (fun r => (0 <? StudyRecord.final_score r)%Z) data))%nat ->
    (~ In NaN (map StudyRecord.subject data) ->
     exists week,
       show g best_model data wake_time sleep_time break_duration
            max_sessions_per_day session_duration meals = Generated (Ok week)
       /\ PyDict.keys week = days
       /\ forall day, In day days -> exists slots, PyDict.get day week = Some slots)
    /\ (In NaN (map StudyRecord.subject data) ->
        show g best_model data wake_time sleep_time break_duration
             max_sessions_per_day session_duration meals
        = Generated (Raise IndexError)).
Proof.
  intros R S g best_model data wake_time sleep_time break_duration
         max_sessions_per_day session_duration meals H5 H3.
  unfold show.
  destruct (Nat.ltb_spec (List.length data) 5) as [Hlt|_]; [lia|].
  destruct (Nat.ltb_spec
              (List.length (filter (fun r => (0 <? StudyRecord.final_score r)%Z) data)) 3)
    as [Hlt|_]; [lia|].
  split.
  - intros Hnan.
    destruct (build_predictions_returns best_model data Hnan) as [rows [Hbuilt _]].
    assert (Hshow : show_predictions best_model data = Ok (sort_values_descending rows)).
    { unfold show_predictions. now rewrite Hbuilt. }
    assert (Hdata : data <> []) by (intros ->; simpl in H5; lia).
    pose proof (frame_not_empty best_model data _ Hdata Hshow) as Hne.
    rewrite Hshow. simpl bind.
    destruct (generate_returns g (map scheduler_columns (sort_values_descending rows))
                wake_time sleep_time break_duration max_sessions_per_day
                session_duration meals Hne)
      as [week [sunday [Hok [Hkeys [Hdays [Hget _]]]]]].
    exists week. rewrite Hok. split; [reflexivity|]. split; [exact Hkeys|].
    intros day Hday.
    destruct (string_dec day "Sunday") as [->|Hns]; [eauto|].
    rewrite Hdays; [eauto|].
    simpl in Hday |- *. intuition congruence.
  - intros Hnan. unfold show_predictions.
    rewrite (build_predictions_raises best_model data Hnan). reflexivity.
Qed.

Lemma X4_witness :
  (exists week,
     show (H := keep_order_random) (H0 := insertion_sort_values) tt sample_model
          sample_data (hm 6 0) (hm 23 0) 30 6 60 default_meals = Generated (Ok week)
     /\ PyDict.keys week = days
     /\ forall day, In day days -> exists slots, PyDict.get day week = Some slots)
  /\ show (H := keep_order_random) (H0 := insertion_sort_values) tt sample_model
          sample_data_with_gap (hm 6 0) (hm 23 0) 30 6 60 default_meals
     = Generated (Raise IndexError).
Proof.
  split.
  - apply (X4_show_gets_a_timetable_unless_a_subject_is_missing keep_order_random
             insertion_sort_values tt sample_model sample_data (hm 6 0) (hm 23 0)
             30 6 60 default_meals).
    + simpl; lia.
    + simpl; lia.
    + simpl. intuition discriminate.
  - apply (X4_show_gets_a_timetable_unless_a_subject_is_missing keep_order_random
             insertion_sort_values tt sample_model sample_data_with_gap (hm 6 0)
             (hm 23 0) 30 6 60 default_meals).
    + simpl; lia.
    + simpl; lia.
    + simpl. tauto.
Defined.

Lemma fold_qplus_nonneg (l : list Q) :
  Forall (fun q => (0 <= q)%Q) l ->
  forall a : Q, (a <= fold_left Qplus l a)%Q.
Proof.
  induction 1 as [|q l Hq _ IH]; intros a; simpl; [lra|].
  specialize (IH (a + q)%Q). lra.
Qed.

Lemma sum_weakness_nonneg (predictions : list prediction) :
  Forall (fun row => (0 <= weakness_score row)%Q) predictions ->
  (0 <= sum_weakness predictions)%Q.
Proof.
  intros H. unfold sum_weakness. apply fold_qplus_nonneg.
  apply Forall_map. exact H.
Qed.

Lemma reference_days_mono_nonneg (total : Q) (r1 r2 : prediction) :
  (0 <= total)%Q -> (weakness_score r2 <= weakness_score r1)%Q ->
  reference_days Qfloor total r2 <= reference_days Qfloor total r1.
Proof.
  intros Ht Hw. destruct (Qeq_bool total 0) eqn:E.
  - unfold reference_days. rewrite E. lia.
  - apply reference_days_mono; [|assumption].
    apply Qeq_bool_neq in E. lra.
Qed.

(** X5: in a run of [show] over records of non-negative difficulty, every
    subject of the data is allocated between 1 and 6 days, and of two
    subjects the one with the higher weakness score is allocated at least as
    many days as the other, whatever the total weakness. *)
Theorem X5_show_allocates_more_days_to_weaker_subjects :
  forall (S : PandasSort) (best_model : option (StudyRecord.t -> Q))
         (data : list StudyRecord.t) (pred_df : list PredictionRow.t),
    Forall (fun r => 0 <= StudyRecord.difficulty r) data ->
    show_predictions best_model data = Ok pred_df ->
    let allocation := calculate_subject_distribution (map scheduler_columns pred_df) in
    (forall s, In (Text s) (map StudyRecord.subject data) ->
       exists d, PyDict.get s allocation = Some d /\ 1 <= d <= 6)
    /\ (forall r1 r2 d1 d2,
          In r1 pred_df -> In r2 pred_df ->
          (PredictionRow.weakness_score r2 <= PredictionRow.weakness_score r1)%Q ->
          PyDict.get (PredictionRow.subject r1) allocation = Some d1 ->
          PyDict.get (PredictionRow.subject r2) allocation = Some d2 ->
          d2 <= d1).
Proof.
  intros S best_model data pred_df Hd Hshow allocation. subst allocation.
  destruct (show_predictions_built best_model data pred_df Hshow)
    as [rows [Hbuilt [-> [Hsubjects Hfrom]]]].
  pose proof (sort_values_permutation rows) as Hperm.
  set (pred_df := sort_values_descending rows) in *.
  set (frame := map scheduler_columns pred_df).
  assert (Hnodup : NoDup (map subject frame)).
  { unfold frame. rewrite map_map. simpl.
    apply (Permutation_NoDup (l := map PredictionRow.subject rows)).
    - apply Permutation_sym. now apply Permutation_map.
    - exact (text_subjects_nodup rows _ Hsubjects). }
  assert (Hnonneg : Forall (fun row => (0 <= weakness_score row)%Q) frame).
  { unfold frame. apply Forall_map.
    apply (Permutation_Forall (Permutation_sym Hperm)).
    eapply Forall_impl; [|exact Hfrom].
    intros row Hrow. simpl. now apply (row_bounds best_model data row Hd Hrow). }
  pose proof (sum_weakness_nonneg frame Hnonneg) as Htotal.
  split.
  - intros s Hs.
    assert (Hin : In s (map subject frame)).
    { unfold frame. rewrite map_map. simpl.
      apply (Permutation_in s (Permutation_map PredictionRow.subject
                                 (Permutation_sym Hperm))).
      now apply (text_subjects_in rows _ s Hsubjects). }
    apply in_map_iff in Hin. destruct Hin as [row [<- Hrow]].
    rewrite distribution_entry. unfold reference_allocation.
    rewrite (last_row_nodup _ _ Hnodup Hrow). simpl.
    eexists. split; [reflexivity|]. apply reference_days_range.
  - intros r1 r2 d1 d2 H1 H2 Hw E1 E2.
    assert (F1 : In (scheduler_columns r1) frame) by now apply in_map.
    assert (F2 : In (scheduler_columns r2) frame) by now apply in_map.
    rewrite distribution_entry in E1, E2. unfold reference_allocation in E1, E2.
    change (PredictionRow.subject r1) with (subject (scheduler_columns r1)) in E1.
    change (PredictionRow.subject r2) with (subject (scheduler_columns r2)) in E2.
    rewrite (last_row_nodup _ _ Hnodup F1) in E1.
    rewrite (last_row_nodup _ _ Hnodup F2) in E2.
    simpl in E1, E2. injection E1 as <-. injection E2 as <-.
    now apply reference_days_mono_nonneg.
Qed.

Lemma X5_witness :
  exists d,
    PyDict.get "Math"
      (calculate_subject_distribution
         (map scheduler_columns
            (sort_values_descending (PandasSort := insertion_sort_values) sample_rows)))
    = Some d
    /\ 1 <= d <= 6.
Proof.
  assert (Hd : Forall (fun r => 0 <= StudyRecord.difficulty r) sample_data).
  { repeat constructor; simpl; lia. }
  destruct (X5_show_allocates_more_days_to_weaker_subjects insertion_sort_values
              sample_model sample_data _ Hd eq_refl) as [H _].
  apply (H "Math"). simpl. tauto.
Defined.

(** ** The pool of subject tokens *)

Lemma keys_set {V : Type} (k : string) (v : V) (d : PyDict.t V) :
  PyDict.keys (PyDict.set k v d)
  = if in_dec string_dec k (PyDict.keys d) then PyDict.keys d
    else PyDict.keys d ++ [k].
Proof.
  unfold PyDict.keys. induction d as [|[k' v'] d IH]; simpl; [reflexivity|].
  destruct (String.eqb_spec k' k) as [->|Hne]; simpl.
  - destruct (string_dec k k); [reflexivity|contradiction].
  - rewrite IH. destruct (string_dec k' k); [contradiction|].
    destruct (in_dec string_dec k (map fst d)); reflexivity.
Qed.

Lemma keys_set_nodup {V : Type} (k : string) (v : V) (d : PyDict.t V) :
  NoDup (PyDict.keys d) -> NoDup (PyDict.keys (PyDict.set k v d)).
Proof.
  intros Hd. rewrite keys_set.
  destruct (in_dec string_dec k (PyDict.keys d)) as [Hin|Hin]; [assumption|].
  apply NoDup_app; [assumption|repeat constructor; simpl; tauto|].
  intros x Hx [<-|[]]. contradiction.
Qed.

Lemma get_some_in_keys {V : Type} (k : string) (d : PyDict.t V) :
  In k (PyDict.keys d) <-> exists v, PyDict.get k d = Some v.
Proof.
  unfold PyDict.keys. induction d as [|[k' v'] d IH]; simpl.
  - split; [tauto|intros [v H]; discriminate].
  - destruct (String.eqb_spec k' k) as [->|Hne].
    + split; eauto.
    + rewrite <- IH. tauto.
Qed.

Lemma get_in_items {V : Type} (k : string) (v : V) (d : PyDict.t V) :
  NoDup (PyDict.keys d) -> In (k, v) d -> PyDict.get k d = Some v.
Proof.
  unfold PyDict.keys. induction d as [|[k' v'] d IH]; simpl; [tauto|].
  intros Hnd Hin. inversion Hnd as [|? ? Hnotin Hnd']; subst.
  destruct Hin as [E|Hin].
  - injection E as -> ->. now rewrite String.eqb_refl.
  - destruct (String.eqb_spec k' k) as [->|Hne]; [|now apply IH].
    exfalso. apply Hnotin. apply in_map_iff. now exists (k, v).
Qed.

Lemma fold_set_keys_nodup {A V : Type} (key : A -> string) (val : A -> V) :
  forall (l : list A) (d : PyDict.t V),
    NoDup (PyDict.keys d) ->
    NoDup (PyDict.keys (fold_left (fun d a => PyDict.set (key a) (val a) d) l d)).
Proof.
  induction l as [|a l IH]; intros d Hd; simpl; [assumption|].
  apply IH. now apply keys_set_nodup.
Qed.

Lemma distribution_keys_nodup (predictions : list prediction) :
  NoDup (PyDict.keys (calculate_subject_distribution predictions)).
Proof.
  unfold calculate_subject_distribution.
  destruct (Qeq_bool _ _).
  - apply (fold_set_keys_nodup (fun s => s) (fun _ => 3)). constructor.
  - apply (fold_set_keys_nodup subject). constructor.
Qed.

Lemma distribution_keys (predictions : list prediction) (s : string) :
  In s (PyDict.keys (calculate_subject_distribution predictions))
  <-> In s (map subject predictions).
Proof.
  rewrite get_some_in_keys, distribution_entry. unfold reference_allocation. split.
  - intros [v Hv]. destruct (last_row s predictions) as [row|] eqn:E; [|discriminate].
    apply last_row_in in E. destruct E as [Hin <-]. now apply in_map.
  - intros Hin. apply in_map_iff in Hin. destruct Hin as [row [<- Hrow]].
    destruct (last_row_of_subject predictions row Hrow) as [row' ->].
    simpl. eauto.
Qed.

Lemma distribution_values (predictions : list prediction) :
  Forall (fun item => 1 <= snd item <= 6)
         (PyDict.items (calculate_subject_distribution predictions)).
Proof.
  apply Forall_forall. intros [k v] Hin. simpl.
  apply (get_in_items k v _ (distribution_keys_nodup predictions)) in Hin.
  rewrite distribution_entry in Hin. unfold reference_allocation in Hin.
  destruct (last_row k predictions); simpl in Hin; [|discriminate].
  injection Hin as <-. apply reference_days_range.
Qed.

Lemma pool_count (d : PyDict.t Z) (s : string) :
  NoDup (PyDict.keys d) ->
  count_occ string_dec (build_subject_pool d) s = Z.to_nat (dict_get d s 0).
Proof.
  unfold build_subject_pool, PyDict.items, PyDict.keys, dict_get.
  induction d as [|[k v] d IH]; intros Hnd; simpl; [reflexivity|].
  inversion Hnd as [|? ? Hnotin Hnd']; subst.
  rewrite count_occ_app, (IH Hnd').
  destruct (String.eqb_spec k s) as [->|Hne].
  - rewrite count_occ_repeat_eq by reflexivity.
    destruct (PyDict.get s d) as [v'|] eqn:E; [|simpl; lia].
    exfalso. apply Hnotin. apply (get_some_in_keys s d). eauto.
  - rewrite count_occ_repeat_neq by congruence. reflexivity.
Qed.

(** X6: the shuffled pool holds each subject exactly as many times as the
    days allocated to it, and no other token: the shuffle keeps the
    distribution. *)
Theorem X6_shuffled_pool_keeps_the_distribution :
  forall (R : NumpyRandom) (g : rng_state) (predictions : list prediction)
         (s : string),
    count_occ string_dec (shuffled_pool g predictions) s
    = Z.to_nat (dict_get (calculate_subject_distribution predictions) s 0).
Proof.
  intros R g predictions s. unfold shuffled_pool.
  rewrite <- (pool_count _ s (distribution_keys_nodup predictions)).
  apply Permutation_count_occ, np_shuffle_permutation.
Qed.

Lemma pool_length_bounds (d : PyDict.t Z) :
  Forall (fun item => 1 <= snd item <= 6) (PyDict.items d) ->
  (List.length (PyDict.keys d) <= List.length (build_subject_pool d)
   <= 6 * List.length (PyDict.keys d))%nat.
Proof.
  unfold build_subject_pool, PyDict.items, PyDict.keys.
  induction 1 as [|[k v] d Hv _ IH]; simpl; [lia|].
  rewrite length_app, repeat_length. simpl in Hv. lia.
Qed.

(** X7: the pool holds at least one and at most six tokens for each distinct
    subject of the predictions, so its length lies between the number of
    distinct subjects and six times that number. *)
Theorem X7_pool_size_is_between_n_and_6n :
  forall (R : NumpyRandom) (g : rng_state) (predictions : list prediction),
    let subjects := PyDict.keys (calculate_subject_distribution predictions) in
    NoDup subjects
    /\ (forall s, In s subjects <-> In s (map subject predictions))
    /\ (List.length subjects <= List.length (shuffled_pool g predictions)
        <= 6 * List.length subjects)%nat.
Proof.
  intros R g predictions subjects. subst subjects.
  split; [apply distribution_keys_nodup|]. split; [apply distribution_keys|].
  unfold shuffled_pool.
  rewrite (Permutation_length (np_shuffle_permutation _ _)).
  apply pool_length_bounds, distribution_values.
Qed.

(** ** The subjects assigned to the days *)

Lemma subjects_of_day_set (sa : PyDict.t (list string)) (d day : string)
    (l : list string) :
  subjects_of_day (PyDict.set d l sa) day
  = if string_dec d day then l else subjects_of_day sa day.
Proof.
  unfold subjects_of_day. destruct (string_dec d day) as [->|Hne].
  - now rewrite get_set_same.
  - now rewrite get_set_other.
Qed.

Lemma subjects_of_day_initial (ds : list string) (day : string) :
  subjects_of_day (map (fun d => (d, @nil string)) ds) day = [].
Proof.
  unfold subjects_of_day. induction ds as [|d ds IH]; simpl; [reflexivity|].
  destruct (String.eqb d day); [reflexivity|exact IH].
Qed.

(** A property of every day's draw is a property of every day's list. *)
Lemma assign_subjects_invariant (P : list string -> Prop)
    (subject_pool : list string) (max_sessions : Z) :
  P [] ->
  (forall pool_index,
     P (fst (draw_day_subjects subject_pool (Z.min max_sessions 4) 20 [] pool_index))) ->
  forall day, P (subjects_of_day (assign_subjects subject_pool max_sessions) day).
Proof.
  intros Hnil Hdraw. unfold assign_subjects.
  assert (Hfold : forall ds st,
    (forall day, P (subjects_of_day (fst st) day)) ->
    forall day,
      P (subjects_of_day
           (fst (fold_left (assign_day subject_pool max_sessions) ds st)) day)).
  { induction ds as [|d ds IH]; intros st Hst; simpl; [assumption|].
    apply IH. destruct st as [sa idx]. unfold assign_day.
    specialize (Hdraw idx).
    destruct (draw_day_subjects _ _ 20 [] idx) as [l idx']. cbn [fst] in *.
    intros day. rewrite subjects_of_day_set.
    destruct (string_dec d day); [assumption|apply Hst]. }
  apply Hfold. cbn [fst]. intros day. now rewrite subjects_of_day_initial.
Qed.

Lemma draw_day_subjects_length (subject_pool : list string) (sessions : Z) :
  forall (attempts_left : nat) (day_subjects : list string) (pool_index : nat),
    Z.of_nat (List.length day_subjects) <= Z.max 0 sessions ->
    Z.of_nat (List.length
                (fst (draw_day_subjects subject_pool sessions attempts_left
                        day_subjects pool_index)))
    <= Z.max 0 sessions.
Proof.
  induction attempts_left as [|a IH]; intros day_subjects pool_index Hlen; simpl;
    [assumption|].
  destruct (Z.ltb_spec (Z.of_nat (List.length day_subjects)) sessions) as [Hlt|_];
    simpl; [|assumption].
  destruct (_ <? _)%nat; simpl; [|assumption].
  destruct (_ <? 2)%nat.
  - apply IH. rewrite length_app. simpl. lia.
  - now apply IH.
Qed.

Lemma draw_day_subjects_from_pool (subject_pool : list string) (sessions : Z) :
  forall (attempts_left : nat) (day_subjects : list string) (pool_index : nat),
    Forall (fun s => In s subject_pool) day_subjects ->
    Forall (fun s => In s subject_pool)
           (fst (draw_day_subjects subject_pool sessions attempts_left
                   day_subjects pool_index)).
Proof.
  induction attempts_left as [|a IH]; intros day_subjects pool_index Hall; simpl;
    [assumption|].
  destruct (_ <? sessions); simpl; [|assumption].
  destruct (Nat.ltb_spec pool_index (List.length subject_pool)) as [Hlt|_]; simpl;
    [|assumption].
  destruct (_ <? 2)%nat.
  - apply IH. apply Forall_app. split; [assumption|].
    repeat constructor. apply nth_In. apply Nat.mod_upper_bound. lia.
  - now apply IH.
Qed.

(** The sessions of a generated study day. *)
Lemma study_day_sessions `{NumpyRandom} (g : rng_state)
    (predictions : list prediction)
    (wake_time sleep_time break_duration max_sessions_per_day session_duration : Z)
    (meals : meal_times) (week : timetable) (day : string) :
  predictions <> [] ->
  fst (generate_smart_timetable g predictions wake_time sleep_time break_duration
         max_sessions_per_day session_duration meals) = Ok week ->
  In day study_days ->
  let drawn :=
    subjects_of_day
      (assign_subjects (shuffled_pool g predictions) max_sessions_per_day) day in
  exists slots,
    PyDict.get day week = Some slots
    /\ slots = day_slots wake_time (fst (breakfast meals)) (fst (lunch meals))
                 (fst (dinner meals)) (snd (breakfast meals)) (snd (lunch meals))
                 (snd (dinner meals)) (morning_routine meals) break_duration
                 session_duration drawn
    /\ (study_subjects slots = drawn
        \/ study_subjects slots = drawn ++ [self_study_label]).
Proof.
  intros Hne Hok Hday drawn.
  destruct (generate_returns g predictions wake_time sleep_time break_duration
              max_sessions_per_day session_duration meals Hne)
    as [week' [sunday [Hok' [_ [Hdays _]]]]].
  rewrite Hok in Hok'. injection Hok' as <-.
  eexists. split; [apply (Hdays day Hday)|]. split; [reflexivity|].
  apply day_slots_subjects.
Qed.

(** X8: on each generated day from Monday to Saturday the Study slots are
    the sessions drawn for the day, at most [min(max_sessions_per_day, 4)] of
    them (none when that number is not positive), followed by at most one
    Self-Study filler. *)
Theorem X8_at_most_four_sessions_a_day :
  forall (R : NumpyRandom) (g : rng_state) (predictions : list prediction)
         (wake_time sleep_time break_duration max_sessions_per_day session_duration : Z)
         (meals : meal_times) (week : timetable) (day : string),
    predictions <> [] ->
    fst (generate_smart_timetable g predictions wake_time sleep_time break_duration
           max_sessions_per_day session_duration meals) = Ok week ->
    In day study_days ->
    exists slots drawn,
      PyDict.get day week = Some slots
      /\ (study_subjects slots = drawn
          \/ study_subjects slots = drawn ++ [self_study_label])
      /\ Z.of_nat (List.length drawn) <= Z.max 0 (Z.min max_sessions_per_day 4).
Proof.
  intros R g predictions wake_time sleep_time break_duration max_sessions_per_day
         session_duration meals week day Hne Hok Hday.
  destruct (study_day_sessions g predictions wake_time sleep_time break_duration
              max_sessions_per_day session_duration meals week day Hne Hok Hday)
    as [slots [Hget [_ Hsubjects]]].
  exists slots. eexists. split; [exact Hget|]. split; [exact Hsubjects|].
  apply (assign_subjects_invariant
           (fun l => Z.of_nat (List.length l) <= Z.max 0 (Z.min max_sessions_per_day 4))).
  - simpl. lia.
  - intros idx. apply draw_day_subjects_length. simpl. lia.
Qed.

(** X10: every session of a generated study day is a session of a subject of
    the predictions: the label of each Study slot is a subject of the
    predictions or the label of the Self-Study filler. *)
Theorem X10_sessions_are_of_predicted_subjects :
  forall (R : NumpyRandom) (g : rng_state) (predictions : list prediction)
         (wake_time sleep_time break_duration max_sessions_per_day session_duration : Z)
         (meals : meal_times) (week : timetable) (day : string),
    predictions <> [] ->
    fst (generate_smart_timetable g predictions wake_time sleep_time break_duration
           max_sessions_per_day session_duration meals) = Ok week ->
    In day study_days ->
    exists slots,
      PyDict.get day week = Some slots
      /\ Forall (fun label =>
                   In label (map subject predictions) \/ label = self_study_label)
                (study_subjects slots).
Proof.
  intros R g predictions wake_time sleep_time break_duration max_sessions_per_day
         session_duration meals week day Hne Hok Hday.
  destruct (study_day_sessions g predictions wake_time sleep_time break_duration
              max_sessions_per_day session_duration meals week day Hne Hok Hday)
    as [slots [Hget [_ Hsubjects]]].
  exists slots. split; [exact Hget|].
  assert (Hdrawn :
    Forall (fun s => In s (shuffled_pool g predictions))
           (subjects_of_day
              (assign_subjects (shuffled_pool g predictions) max_sessions_per_day) day)).
  { apply (assign_subjects_invariant
             (Forall (fun s => In s (shuffled_pool g predictions)))).
    - constructor.
    - intros idx. apply draw_day_subjects_from_pool. constructor. }
  assert (Hpool : forall s, In s (shuffled_pool g predictions) ->
                            In s (map subject predictions)).
  { intros s Hs. apply distribution_keys.
    apply (Permutation_in s (np_shuffle_permutation _ _)) in Hs.
    unfold build_subject_pool in Hs. apply in_flat_map in Hs.
    destruct Hs as [[k v] [Hitem Hrep]]. apply repeat_spec in Hrep. subst s.
    apply in_map_iff. now exists (k, v). }
  assert (Hleft : Forall (fun label =>
                            In label (map subject predictions)
                            \/ label = self_study_label)
                         (subjects_of_day
                            (assign_subjects (shuffled_pool g predictions)
                               max_sessions_per_day) day)).
  { eapply Forall_impl; [|exact Hdrawn]. intros s Hs. left. now apply Hpool. }
  destruct Hsubjects as [-> | ->]; [exact Hleft|].
  apply Forall_app. split; [exact Hleft|].
  constructor; [now right|constructor].
Qed.

Lemma sample_week_generated :
  fst (generate_smart_timetable (H := keep_order_random) tt math_history
         (hm 6 0) (hm 23 0) 30 6 60 default_meals) = Ok sample_week.
Proof. vm_compute. reflexivity. Qed.

Lemma X8_witness :
  exists slots drawn,
    PyDict.get "Monday" sample_week = Some slots
    /\ (study_subjects slots = drawn
        \/ study_subjects slots = drawn ++ [self_study_label])
    /\ Z.of_nat (List.length drawn) <= Z.max 0 (Z.min 6 4).
Proof.
  apply (X8_at_most_four_sessions_a_day keep_order_random tt math_history
           (hm 6 0) (hm 23 0) 30 6 60 default_meals sample_week "Monday").
  - discriminate.
  - exact sample_week_generated.
  - simpl. tauto.
Defined.

Lemma X10_witness :
  exists slots,
    PyDict.get "Monday" sample_week = Some slots
    /\ Forall (fun label =>
                 In label (map subject math_history) \/ label = self_study_label)
              (study_subjects slots).
Proof.
  apply (X10_sessions_are_of_predicted_subjects keep_order_random tt math_history
           (hm 6 0) (hm 23 0) 30 6 60 default_meals sample_week "Monday").
  - discriminate.
  - exact sample_week_generated.
  - simpl. tauto.
Defined.

(** The loop over the days, for any way of drawing a day's subjects that
    only advances the index by at least the number of subjects drawn. *)
Section WeekOfDraws.
Variable draw : nat -> list string * nat.
Variable bound : nat.

Hypothesis draw_advances :
  forall idx,
    (idx <= snd (draw idx))%nat
    /\ ((idx <= bound)%nat -> (snd (draw idx) <= bound)%nat)
    /\ (List.length (fst (draw idx)) + idx <= snd (draw idx))%nat.

Definition draw_step (st : PyDict.t (list string) * nat) (d : string)
  : PyDict.t (list string) * nat :=
  (PyDict.set d (fst (draw (snd st))) (fst st), snd (draw (snd st))).

Lemma fold_draw_step_total :
  forall (ds : list string) (st : PyDict.t (list string) * nat),
    NoDup ds ->
    (forall d, In d ds -> subjects_of_day (fst st) d = []) ->
    ((snd st <= bound)%nat -> (snd (fold_left draw_step ds st) <= bound)%nat)
    /\ (list_sum
          (map (fun d => List.length (subjects_of_day (fst (fold_left draw_step ds st)) d))
               ds) + snd st
        <= snd (fold_left draw_step ds st))%nat
    /\ (forall d, ~ In d ds ->
          subjects_of_day (fst (fold_left draw_step ds st)) d
          = subjects_of_day (fst st) d).
Proof.
  induction ds as [|d ds IH]; intros st Hnd Hempty.
  - simpl. repeat split; auto.
  - inversion Hnd as [|? ? Hnotin Hnd']; subst.
    cbn [fold_left].
    destruct (draw_advances (snd st)) as [H1 [H2 H3]].
    destruct (IH (draw_step st d) Hnd') as [I1 [I2 I3]].
    { intros d' Hd'. unfold draw_step. cbn [fst]. rewrite subjects_of_day_set.
      destruct (string_dec d d') as [->|_]; [contradiction|].
      apply Hempty. right. exact Hd'. }
    assert (Hd : subjects_of_day (fst (draw_step st d)) d = fst (draw (snd st))).
    { unfold draw_step. cbn [fst]. rewrite subjects_of_day_set.
      destruct (string_dec d d); [reflexivity|contradiction]. }
    assert (Hs : snd (draw_step st d) = snd (draw (snd st))) by reflexivity.
    split; [|split].
    + intros Hle. apply I1. rewrite Hs. apply H2, Hle.
    + cbn [map]. rewrite (I3 d Hnotin), Hd. rewrite Hs in I2.
      unfold list_sum in *. cbn [fold_right]. lia.
    + intros d0 Hd0. rewrite I3.
      * unfold draw_step. cbn [fst]. rewrite subjects_of_day_set.
        destruct (string_dec d d0) as [->|_]; [|reflexivity].
        exfalso. apply Hd0. left. reflexivity.
      * intros H. apply Hd0. right. exact H.
Qed.

End WeekOfDraws.

Lemma assign_day_is_draw_step (subject_pool : list string) (max_sessions : Z)
    (st : PyDict.t (list string) * nat) (d : string) :
  assign_day subject_pool max_sessions st d
  = draw_step (draw_day_subjects subject_pool (Z.min max_sessions 4) 20 []) st d.
Proof.
  destruct st as [sa idx]. unfold assign_day, draw_step. cbn [fst snd].
  destruct (draw_day_subjects _ _ 20 [] idx). reflexivity.
Qed.

Lemma fold_assign_day_is_draw_step (subject_pool : list string) (max_sessions : Z) :
  forall (ds : list string) (st : PyDict.t (list string) * nat),
    fold_left (assign_day subject_pool max_sessions) ds st
    = fold_left (draw_step (draw_day_subjects subject_pool (Z.min max_sessions 4) 20 []))
                ds st.
Proof.
  induction ds as [|d ds IH]; intros st; [reflexivity|].
  cbn [fold_left]. rewrite assign_day_is_draw_step. apply IH.
Qed.

Lemma draw_day_advances (subject_pool : list string) (sessions : Z)
    (attempts_left : nat) (idx : nat) :
  (idx <= snd (draw_day_subjects subject_pool sessions attempts_left [] idx))%nat
  /\ ((idx <= List.length subject_pool)%nat ->
      (snd (draw_day_subjects subject_pool sessions attempts_left [] idx)
       <= List.length subject_pool)%nat)
  /\ (List.length (fst (draw_day_subjects subject_pool sessions attempts_left [] idx))
      + idx
      <= snd (draw_day_subjects subject_pool sessions attempts_left [] idx))%nat.
Proof. exact (draw_day_subjects_index subject_pool sessions attempts_left [] idx). Qed.

(** X9: the days of a week never draw more sessions than the pool has
    tokens: the index into the pool only advances and no day draws once it
    has reached the end, so the pool is gone through at most once. *)
Theorem X9_week_draws_at_most_the_pool :
  forall (subject_pool : list string) (max_sessions_per_day : Z),
    (week_sessions (assign_subjects subject_pool max_sessions_per_day)
     <= List.length subject_pool)%nat.
Proof.
  intros subject_pool max_sessions_per_day. unfold week_sessions, assign_subjects.
  rewrite fold_assign_day_is_draw_step.
  assert (Hnd : NoDup study_days).
  { simpl. repeat constructor; simpl; intuition discriminate. }
  destruct (fold_draw_step_total
              (draw_day_subjects subject_pool (Z.min max_sessions_per_day 4) 20 [])
              (List.length subject_pool)
              (draw_day_advances subject_pool (Z.min max_sessions_per_day 4) 20)
              study_days (map (fun day => (day, @nil string)) study_days, 0%nat) Hnd
              (fun d _ => subjects_of_day_initial study_days d)) as [H1 [H2 _]].
  generalize dependent
    (fold_left (draw_step (draw_day_subjects subject_pool
                             (Z.min max_sessions_per_day 4) 20 []))
               study_days (map (fun day => (day, @nil string)) study_days, 0%nat)).
  intros r H1 H2.
  cbn [snd] in H1, H2. specialize (H1 (Nat.le_0_l _)).
  unfold list_sum in *. lia.
Qed.

(** ** The slots of a generated day *)

Lemma count_type_app (ty : slot_type) (l1 l2 : list Slot.t) :
  count_type ty (l1 ++ l2) = (count_type ty l1 + count_type ty l2)%nat.
Proof. unfold count_type. now rewrite filter_app, length_app. Qed.

Ltac slot_consistent :=
  unfold consistent, Slot.start, Slot.stop, routine_slot, breakfast_slot, lunch_slot,
    dinner_slot, study_slot, break_slot, self_study_slot;
  simpl; lia.

Section DayFacts.
Variables wake_dt breakfast_dt lunch_dt dinner_dt : Z.
Variables breakfast_duration lunch_duration dinner_duration : Z.
Variables morning_routine_duration break_duration session_duration : Z.

Lemma place_session_consistent (n : nat) (slots : list Slot.t) (current_time : Z)
    (i : nat) (subject : string) :
  Forall consistent slots ->
  Forall consistent
    (fst (place_session lunch_dt dinner_dt lunch_duration dinner_duration
            break_duration session_duration n (slots, current_time) i subject)).
Proof.
  intros Hall. unfold place_session.
  destruct (meal_first current_time lunch_dt _);
    destruct (meal_first _ dinner_dt _); destruct (_ <? _); cbn [fst];
    repeat (apply Forall_app; split); try exact Hall;
    repeat constructor; slot_consistent.
Qed.

Lemma place_sessions_consistent (n : nat) :
  forall (subjects : list string) (st : list Slot.t * Z) (i : nat),
    Forall consistent (fst st) ->
    Forall consistent
      (fst (place_sessions lunch_dt dinner_dt lunch_duration dinner_duration
              break_duration session_duration n st i subjects)).
Proof.
  induction subjects as [|s rest IH]; intros [slots t] i Hall;
    cbn [place_sessions]; [exact Hall|].
  apply IH. now apply place_session_consistent.
Qed.

Lemma ensure_dinner_consistent (slots : list Slot.t) (current_time : Z) :
  Forall consistent slots ->
  Forall consistent (ensure_dinner dinner_dt dinner_duration (slots, current_time)).
Proof.
  intros Hall. unfold ensure_dinner.
  destruct (negb _); [|exact Hall].
  destruct (_ <? _); [|exact Hall].
  destruct (_ <=? _);
    repeat (apply Forall_app; split); try exact Hall;
    repeat constructor; slot_consistent.
Qed.

Lemma day_slots_consistent (subjects_today : list string) :
  Forall consistent
    (day_slots wake_dt breakfast_dt lunch_dt dinner_dt breakfast_duration
       lunch_duration dinner_duration morning_routine_duration break_duration
       session_duration subjects_today).
Proof.
  unfold day_slots.
  pose proof (place_sessions_consistent (List.length subjects_today) subjects_today
                ([routine_slot wake_dt morning_routine_duration;
                  breakfast_slot breakfast_dt breakfast_duration],
                 breakfast_dt + breakfast_duration) 0) as Hs.
  destruct (place_sessions _ _ _ _ _ _ _ _ _ _) as [slots t].
  apply ensure_dinner_consistent. apply Hs.
  repeat constructor; slot_consistent.
Qed.





End DayFacts.

Lemma sunday_slots_consistent
    (wake_dt breakfast_dt lunch_dt dinner_dt : Z)
    (breakfast_duration lunch_duration dinner_duration morning_routine_duration : Z)
    (sleep_dt : Z) (weak_subjects : list string) (sunday : list Slot.t) :
  sunday_slots wake_dt breakfast_dt lunch_dt dinner_dt breakfast_duration
    lunch_duration dinner_duration morning_routine_duration sleep_dt weak_subjects
  = Ok sunday ->
  Forall consistent sunday.
Proof.
  destruct weak_subjects as [|first others]; [discriminate|].
  destruct (sunday_slots_shape wake_dt breakfast_dt lunch_dt dinner_dt
              breakfast_duration lunch_duration dinner_duration
              morning_routine_duration sleep_dt first others)
    as [common [leisure [Hshape [Hcommon Hleisure]]]].
  rewrite Hshape. intros E. injection E as <-. subst common leisure.
  repeat constructor; unfold consistent, Slot.start, Slot.stop; simpl; lia.
Qed.

Lemma generated_not_empty `{NumpyRandom} (g : rng_state)
    (predictions : list prediction)
    (wake_time sleep_time break_duration max_sessions_per_day session_duration : Z)
    (meals : meal_times) (week : timetable) :
  fst (generate_smart_timetable g predictions wake_time sleep_time break_duration
         max_sessions_per_day session_duration meals) = Ok week ->
  predictions <> [].
Proof.
  intros Hok ->. rewrite generate_empty in Hok. discriminate.
Qed.

(** X11: in every timetable the call returns, the duration recorded in each
    slot of each of the seven days is the time from the slot's start to its
    end. *)
Theorem X11_durations_match_the_times :
  forall (R : NumpyRandom) (g : rng_state) (predictions : list prediction)
         (wake_time sleep_time break_duration max_sessions_per_day session_duration : Z)
         (meals : meal_times) (week : timetable) (day : string) (slots : list Slot.t),
    fst (generate_smart_timetable g predictions wake_time sleep_time break_duration
           max_sessions_per_day session_duration meals) = Ok week ->
    PyDict.get day week = Some slots ->
    Forall consistent slots.
Proof.
  intros R g predictions wake_time sleep_time break_duration max_sessions_per_day
         session_duration meals week day slots Hok Hget.
  pose proof (generated_not_empty g predictions _ _ _ _ _ _ week Hok) as Hne.
  destruct (generate_returns g predictions wake_time sleep_time break_duration
              max_sessions_per_day session_duration meals Hne)
    as [week' [sunday [Hok' [Hkeys [Hdays [Hsun Hshape]]]]]].
  rewrite Hok in Hok'. injection Hok' as <-.
  assert (Hday : In day days).
  { rewrite <- Hkeys. apply get_some_in_keys. eauto. }
  destruct (string_dec day "Sunday") as [->|Hns].
  - rewrite Hsun in Hget. injection Hget as <-.
    eapply sunday_slots_consistent. exact Hshape.
  - rewrite Hdays in Hget by (simpl in Hday |- *; intuition congruence).
    injection Hget as <-. apply day_slots_consistent.
Qed.

Lemma sample_monday_found : PyDict.get "Monday" sample_week = Some sample_monday.
Proof. vm_compute. reflexivity. Qed.

Lemma X11_witness : Forall consistent sample_monday.
Proof.
  apply (X11_durations_match_the_times keep_order_random tt math_history
           (hm 6 0) (hm 23 0) 30 6 60 default_meals sample_week "Monday").
  - exact sample_week_generated.
  - exact sample_monday_found.
Defined.



(** ** Sunday's fixed blocks *)

Lemma sunday_generated `{NumpyRandom} (g : rng_state)
    (predictions : list prediction)
    (wake_time sleep_time break_duration max_sessions_per_day session_duration : Z)
    (meals : meal_times) (week : timetable) (sunday : list Slot.t) :
  fst (generate_smart_timetable g predictions wake_time sleep_time break_duration
         max_sessions_per_day session_duration meals) = Ok week ->
  PyDict.get "Sunday" week = Some sunday ->
  exists first others,
    sunday_slots wake_time (fst (breakfast meals)) (fst (lunch meals))
      (fst (dinner meals)) (snd (breakfast meals)) (snd (lunch meals))
      (snd (dinner meals)) (morning_routine meals)
      (if sleep_time <=? wake_time then sleep_time + 1440 else sleep_time)
      (first :: others) = Ok sunday.
Proof.
  intros Hok Hget.
  pose proof (generated_not_empty g predictions _ _ _ _ _ _ week Hok) as Hne.
  destruct (generate_returns g predictions wake_time sleep_time break_duration
              max_sessions_per_day session_duration meals Hne)
    as [week' [sunday' [Hok' [_ [_ [Hsun Hshape]]]]]].
  rewrite Hok in Hok'. injection Hok' as <-.
  rewrite Hsun in Hget. injection Hget as <-.
  destruct (map subject (nlargest 3 predictions)) as [|first others]; [discriminate|].
  eauto.
Qed.

Lemma sorted_by_start_adjacent (l1 : list Slot.t) (a b : Slot.t) (l2 : list Slot.t) :
  sorted_by_start (l1 ++ a :: b :: l2) = true -> Slot.start a <= Slot.start b.
Proof.
  induction l1 as [|x l1 IH]; cbn [app].
  - change (sorted_by_start (a :: b :: l2))
      with ((Slot.start a <=? Slot.start b) && sorted_by_start (b :: l2)).
    intros Hs. apply andb_prop in Hs. lia.
  - intros Hs. apply IH. destruct l1 as [|y l1]; cbn [app] in Hs |- *.
    + change (sorted_by_start (x :: a :: b :: l2))
        with ((Slot.start x <=? Slot.start a) && sorted_by_start (a :: b :: l2)) in Hs.
      apply andb_prop in Hs. tauto.
    + change (sorted_by_start (x :: y :: l1 ++ a :: b :: l2))
        with ((Slot.start x <=? Slot.start y)
              && sorted_by_start (y :: l1 ++ a :: b :: l2)) in Hs.
      apply andb_prop in Hs. tauto.
Qed.

Lemma no_overlap_adjacent (l1 : list Slot.t) (a b : Slot.t) (l2 : list Slot.t) :
  no_overlap (l1 ++ a :: b :: l2) = true -> overlap a b = false.
Proof.
  induction l1 as [|x l1 IH]; cbn [app no_overlap forallb]; intros Hn.
  - apply andb_prop in Hn. destruct Hn as [Hn _].
    apply andb_prop in Hn. destruct Hn as [Hn _].
    now apply negb_true_iff in Hn.
  - apply andb_prop in Hn. tauto.
Qed.

Lemma sunday_slots_ordered
    (wake_dt breakfast_dt lunch_dt dinner_dt : Z)
    (breakfast_duration lunch_duration dinner_duration morning_routine_duration : Z)
    (sleep_dt : Z) (first : string) (others : list string) (sunday : list Slot.t) :
  0 <= morning_routine_duration -> 0 < breakfast_duration ->
  0 < lunch_duration -> 0 < dinner_duration ->
  sunday_slots wake_dt breakfast_dt lunch_dt dinner_dt breakfast_duration
    lunch_duration dinner_duration morning_routine_duration sleep_dt (first :: others)
  = Ok sunday ->
  (sorted_by_start sunday && no_overlap sunday = true
   <-> wake_dt + morning_routine_duration <= breakfast_dt
       /\ breakfast_dt + breakfast_duration + 210 <= lunch_dt
       /\ lunch_dt + lunch_duration + 120 <= dinner_dt).
Proof.
  intros Hr Hb Hl Hd.
  destruct (sunday_slots_shape wake_dt breakfast_dt lunch_dt dinner_dt
              breakfast_duration lunch_duration dinner_duration
              morning_routine_duration sleep_dt first others)
    as [common [leisure [Hshape [Hcommon Hleisure]]]].
  rewrite Hshape. intros E. injection E as <-. subst common leisure.
  clear Hshape. cbv zeta. cbn [app].
  split.
  - intros Hyp. apply andb_prop in Hyp. destruct Hyp as [Hs Hn].
    match type of Hs with
    | sorted_by_start [?s1; ?s2; ?s3; ?s4; ?s5; ?s6; ?s7; ?s8; ?s9] = true =>
        pose proof (sorted_by_start_adjacent [] s1 s2 [s3; s4; s5; s6; s7; s8; s9] Hs)
          as Hs12;
        pose proof (sorted_by_start_adjacent [s1; s2; s3; s4] s5 s6 [s7; s8; s9] Hs)
          as Hs56;
        pose proof (sorted_by_start_adjacent [s1; s2; s3; s4; s5; s6] s7 s8 [s9] Hs)
          as Hs78;
        pose proof (no_overlap_adjacent [] s1 s2 [s3; s4; s5; s6; s7; s8; s9] Hn)
          as Hn12;
        pose proof (no_overlap_adjacent [s1; s2; s3; s4] s5 s6 [s7; s8; s9] Hn)
          as Hn56;
        pose proof (no_overlap_adjacent [s1; s2; s3; s4; s5; s6] s7 s8 [s9] Hn)
          as Hn78
    end.
    clear Hs Hn. unfold overlap, Slot.start, Slot.stop in *.
    cbn [Slot.time fst snd] in *. lia.
  - intros Hyp. cbn [sorted_by_start no_overlap forallb].
    unfold overlap, Slot.start, Slot.stop. cbn [Slot.time fst snd].
    repeat (apply andb_true_intro; split); try reflexivity; lia.
Qed.

(** X14: with a morning routine that is not negative and meals of positive
    length, the Sunday of a returned timetable is sorted by start time and
    free of overlaps exactly when its fixed blocks fit between the configured
    times: the routine ends by breakfast, the two revisions and their break
    (210 minutes after breakfast) end by lunch, and the two-hour assessment
    after lunch ends by dinner.  Nothing in the code checks this. *)
Theorem X14_sunday_ordered_iff_fixed_blocks_fit :
  forall (R : NumpyRandom) (g : rng_state) (predictions : list prediction)
         (wake_time sleep_time break_duration max_sessions_per_day session_duration : Z)
         (meals : meal_times) (week : timetable) (sunday : list Slot.t),
    0 <= morning_routine meals ->
    0 < snd (breakfast meals) -> 0 < snd (lunch meals) -> 0 < snd (dinner meals) ->
    fst (generate_smart_timetable g predictions wake_time sleep_time break_duration
           max_sessions_per_day session_duration meals) = Ok week ->
    PyDict.get "Sunday" week = Some sunday ->
    (sorted_by_start sunday && no_overlap sunday = true
     <-> wake_time + morning_routine meals <= fst (breakfast meals)
         /\ fst (breakfast meals) + snd (breakfast meals) + 210 <= fst (lunch meals)
         /\ fst (lunch meals) + snd (lunch meals) + 120 <= fst (dinner meals)).
Proof.
  intros R g predictions wake_time sleep_time break_duration max_sessions_per_day
         session_duration meals week sunday Hr Hb Hl Hd Hok Hget.
  destruct (sunday_generated g predictions wake_time sleep_time break_duration
              max_sessions_per_day session_duration meals week sunday Hok Hget)
    as [first [others Hshape]].
  exact (sunday_slots_ordered _ _ _ _ _ _ _ _ _ first others sunday Hr Hb Hl Hd Hshape).
Qed.

Lemma sample_sunday_found : PyDict.get "Sunday" sample_week = Some sample_sunday.
Proof. vm_compute. reflexivity. Qed.

Lemma X14_witness :
  sorted_by_start sample_sunday && no_overlap sample_sunday = true
  <-> hm 6 0 + morning_routine default_meals <= fst (breakfast default_meals)
      /\ fst (breakfast default_meals) + snd (breakfast default_meals) + 210
         <= fst (lunch default_meals)
      /\ fst (lunch default_meals) + snd (lunch default_meals) + 120
         <= fst (dinner default_meals).
Proof.
  apply (X14_sunday_ordered_iff_fixed_blocks_fit keep_order_random tt math_history
           (hm 6 0) (hm 23 0) 30 6 60 default_meals sample_week sample_sunday).
  - simpl. lia.
  - simpl. lia.
  - simpl. lia.
  - simpl. lia.
  - exact sample_week_generated.
  - exact sample_sunday_found.
Defined.

(** ** Meals of a study day *)

Lemma count_meal_app (label : string) (l1 l2 : list Slot.t) :
  count_meal label (l1 ++ l2) = (count_meal label l1 + count_meal label l2)%nat.
Proof. unfold count_meal. now rewrite filter_app, length_app. Qed.

Lemma meal_first_lt (current_time meal_dt session_end : Z) :
  meal_first current_time meal_dt session_end = true -> current_time < meal_dt.
Proof. unfold meal_first. lia. Qed.

Lemma no_dinner_yet (slots : list Slot.t) :
  existsb is_dinner slots = false -> count_meal "🍽️ Dinner" slots = 0%nat.
Proof.
  induction slots as [|slot rest IH]; [reflexivity|].
  cbn [existsb]. intros Hno. apply orb_false_elim in Hno. destruct Hno as [Hslot Hrest].
  unfold count_meal in *. cbn [filter].
  destruct (is_meal "🍽️ Dinner" slot) eqn:Em; [|now apply IH].
  unfold is_meal in Em. apply andb_prop in Em. destruct Em as [Hty Hlabel].
  apply String.eqb_eq in Hlabel.
  unfold is_dinner in Hslot. unfold has_type in Hty.
  rewrite Hty, Hlabel in Hslot. vm_compute in Hslot. discriminate.
Qed.

Section MealCounts.
Variables wake_dt breakfast_dt lunch_dt dinner_dt : Z.
Variables breakfast_duration lunch_duration dinner_duration : Z.
Variables morning_routine_duration break_duration session_duration : Z.

Hypothesis lunch_nonneg : 0 <= lunch_duration.
Hypothesis dinner_nonneg : 0 <= dinner_duration.
Hypothesis break_nonneg : 0 <= break_duration.
Hypothesis session_nonneg : 0 <= session_duration.

Lemma place_session_meals (n : nat) (slots : list Slot.t) (current_time : Z)
    (i : nat) (subject : string) :
  meals_served lunch_dt dinner_dt (slots, current_time) ->
  meals_served lunch_dt dinner_dt
    (place_session lunch_dt dinner_dt lunch_duration dinner_duration
       break_duration session_duration n (slots, current_time) i subject).
Proof.
  unfold meals_served, served. cbn [fst snd]. intros [Hr [Hb [Hl Hd]]].
  unfold place_session.
  destruct (meal_first current_time lunch_dt _) eqn:El;
    [apply meal_first_lt in El|];
    (destruct (meal_first _ dinner_dt _) eqn:Ed; [apply meal_first_lt in Ed|]);
    destruct (_ <? _); cbn [fst snd];
    rewrite ?count_meal_app, ?count_type_app;
    unfold lunch_slot, dinner_slot, study_slot, break_slot;
    cbn [count_meal count_type filter is_meal has_type Slot.type Slot.subject
         slot_type_eqb andb List.length];
    change (String.eqb "🍛 Lunch" "🍛 Lunch") with true;
    change (String.eqb "🍽️ Dinner" "🍽️ Dinner") with true;
    change (String.eqb "🍛 Lunch" "🍽️ Dinner") with false;
    change (String.eqb "🍽️ Dinner" "🍛 Lunch") with false;
    change (String.eqb "🍛 Lunch" "🍳 Breakfast") with false;
    change (String.eqb "🍽️ Dinner" "🍳 Breakfast") with false;
    cbn [filter List.length]; lia.
Qed.

Lemma place_sessions_meals (n : nat) :
  forall (subjects : list string) (st : list Slot.t * Z) (i : nat),
    meals_served lunch_dt dinner_dt st ->
    meals_served lunch_dt dinner_dt
      (place_sessions lunch_dt dinner_dt lunch_duration dinner_duration
         break_duration session_duration n st i subjects).
Proof.
  induction subjects as [|s rest IH]; intros [slots t] i Hinv;
    cbn [place_sessions]; [exact Hinv|].
  apply IH. apply place_session_meals. exact Hinv.
Qed.

Lemma ensure_dinner_meals (slots : list Slot.t) (current_time : Z) :
  meals_served lunch_dt dinner_dt (slots, current_time) ->
  let after := ensure_dinner dinner_dt dinner_duration (slots, current_time) in
  count_type Routine after = 1%nat
  /\ count_meal "🍳 Breakfast" after = 1%nat
  /\ (count_meal "🍛 Lunch" after <= 1)%nat
  /\ (count_meal "🍽️ Dinner" after <= 1)%nat.
Proof.
  unfold meals_served, served. cbn [fst snd]. intros [Hr [Hb [Hl Hd]]].
  unfold ensure_dinner.
  destruct (existsb is_dinner slots) eqn:Ex; cbn [negb]; cbv zeta.
  - repeat split; try assumption; lia.
  - apply no_dinner_yet in Ex.
    destruct (_ <? _); [|repeat split; try assumption; lia].
    destruct (_ <=? _);
      rewrite ?count_meal_app, ?count_type_app;
      unfold dinner_slot, self_study_slot;
      cbn [count_meal count_type filter is_meal has_type Slot.type Slot.subject
           slot_type_eqb andb List.length];
      change (String.eqb "🍽️ Dinner" "🍽️ Dinner") with true;
      change (String.eqb "🍽️ Dinner" "🍛 Lunch") with false;
      change (String.eqb "🍽️ Dinner" "🍳 Breakfast") with false;
      cbn [filter List.length]; lia.
Qed.

Lemma day_slots_meals (subjects_today : list string) :
  let slots :=
    day_slots wake_dt breakfast_dt lunch_dt dinner_dt breakfast_duration
      lunch_duration dinner_duration morning_routine_duration break_duration
      session_duration subjects_today in
  count_type Routine slots = 1%nat
  /\ count_meal "🍳 Breakfast" slots = 1%nat
  /\ (count_meal "🍛 Lunch" slots <= 1)%nat
  /\ (count_meal "🍽️ Dinner" slots <= 1)%nat.
Proof.
  unfold day_slots.
  pose proof (place_sessions_meals (List.length subjects_today) subjects_today
                ([routine_slot wake_dt morning_routine_duration;
                  breakfast_slot breakfast_dt breakfast_duration],
                 breakfast_dt + breakfast_duration) 0) as Hs.
  destruct (place_sessions _ _ _ _ _ _ _ _ _ _) as [slots t].
  apply ensure_dinner_meals. apply Hs.
  unfold meals_served, served. cbn [fst snd].
  repeat split; try reflexivity; left; reflexivity.
Qed.

End MealCounts.

(** X13: when the lunch, dinner, break and session durations are not
    negative, each generated day from Monday to Saturday holds exactly one
    Morning Routine and one Breakfast, at most one Lunch and at most one
    Dinner: a meal is placed only while the cursor is before it, and the
    cursor is past it afterwards. *)
Theorem X13_each_meal_at_most_once_a_day :
  forall (R : NumpyRandom) (g : rng_state) (predictions : list prediction)
         (wake_time sleep_time break_duration max_sessions_per_day session_duration : Z)
         (meals : meal_times) (week : timetable) (day : string),
    0 <= snd (lunch meals) -> 0 <= snd (dinner meals) ->
    0 <= break_duration -> 0 <= session_duration ->
    fst (generate_smart_timetable g predictions wake_time sleep_time break_duration
           max_sessions_per_day session_duration meals) = Ok week ->
    In day study_days ->
    exists slots,
      PyDict.get day week = Some slots
      /\ count_type Routine slots = 1%nat
      /\ count_meal "🍳 Breakfast" slots = 1%nat
      /\ (count_meal "🍛 Lunch" slots <= 1)%nat
      /\ (count_meal "🍽️ Dinner" slots <= 1)%nat.
Proof.
  intros R g predictions wake_time sleep_time break_duration max_sessions_per_day
         session_duration meals week day Hl Hd Hb Hs Hok Hday.
  pose proof (generated_not_empty g predictions _ _ _ _ _ _ week Hok) as Hne.
  destruct (study_day_sessions g predictions wake_time sleep_time break_duration
              max_sessions_per_day session_duration meals week day Hne Hok Hday)
    as [slots [Hget [Hslots _]]].
  exists slots. split; [exact Hget|]. rewrite Hslots.
  now apply day_slots_meals.
Qed.

Lemma X13_witness :
  exists slots,
    PyDict.get "Monday" sample_week = Some slots
    /\ count_type Routine slots = 1%nat
    /\ count_meal "🍳 Breakfast" slots = 1%nat
    /\ (count_meal "🍛 Lunch" slots <= 1)%nat
    /\ (count_meal "🍽️ Dinner" slots <= 1)%nat.
Proof.
  apply (X13_each_meal_at_most_once_a_day keep_order_random tt math_history
           (hm 6 0) (hm 23 0) 30 6 60 default_meals sample_week "Monday").
  - simpl. lia.
  - simpl. lia.
  - lia.
  - lia.
  - exact sample_week_generated.
  - simpl. tauto.
Defined.

(** ** The statistics of [display_timetable] *)

Lemma sum_values_set (k : string) (v : Z) (d : PyDict.t Z) :
  sum_values (PyDict.set k v d) = sum_values d - dict_get d k 0 + v.
Proof.
  unfold sum_values, dict_get.
  induction d as [|[k' v'] d IH]; cbn [PyDict.set PyDict.get map fold_right snd].
  - lia.
  - destruct (String.eqb k' k); cbn [map fold_right snd]; lia.
Qed.

Lemma tally_slot_sum (st : Z * PyDict.t Z) (slot : Slot.t) :
  sum_values (snd st) = fst st ->
  sum_values (snd (tally_slot st slot)) = fst (tally_slot st slot).
Proof.
  destruct st as [total hours]. unfold tally_slot. cbn [fst snd]. intros Hsum.
  destruct (counts_as_study slot); cbn [fst snd]; [|exact Hsum].
  rewrite sum_values_set. lia.
Qed.

Lemma tally_day_sum (slots : list Slot.t) :
  forall st : Z * PyDict.t Z,
    sum_values (snd st) = fst st ->
    sum_values (snd (fold_left tally_slot slots st))
    = fst (fold_left tally_slot slots st).
Proof.
  induction slots as [|slot rest IH]; intros st Hsum; cbn [fold_left]; [exact Hsum|].
  apply IH. now apply tally_slot_sum.
Qed.

Lemma tally_week_sum (items : list (string * list Slot.t)) :
  forall st : Z * PyDict.t Z,
    sum_values (snd st) = fst st ->
    let after :=
      fold_left (fun st '(day, slots) => fold_left tally_slot slots st) items st in
    sum_values (snd after) = fst after.
Proof.
  induction items as [|[day slots] rest IH]; intros st Hsum; cbn [fold_left];
    [exact Hsum|].
  apply IH. now apply tally_day_sum.
Qed.

(** X15: for any timetable, with durations counted exactly, the values of
    [subject_hours] add up to [total_study_hours]: the per-subject breakdown
    loses and double-counts nothing of the total. *)
Theorem X15_subject_hours_add_up_to_the_total :
  forall week : timetable,
    sum_values (snd (weekly_statistics week)) = fst (weekly_statistics week).
Proof.
  intros week. unfold weekly_statistics.
  apply (tally_week_sum (PyDict.items week) (0, [])). reflexivity.
Qed.

Lemma tally_slot_keys (st : Z * PyDict.t Z) (slot : Slot.t) (k : string) :
  In k (PyDict.keys (snd (tally_slot st slot)))
  <-> In k (PyDict.keys (snd st)) \/ In k (day_labels [slot]).
Proof.
  destruct st as [total hours]. unfold tally_slot, day_labels. cbn [fst snd filter].
  destruct (counts_as_study slot); cbn [fst snd map In]; [|tauto].
  rewrite keys_set.
  destruct (in_dec string_dec (clean_subject (Slot.subject slot)) (PyDict.keys hours))
    as [Hin|Hin].
  - split; [tauto|]. intros [H|[<-|[]]]; assumption.
  - rewrite in_app_iff. cbn [In]. tauto.
Qed.

Lemma day_labels_cons (slot : Slot.t) (slots : list Slot.t) :
  day_labels (slot :: slots) = day_labels [slot] ++ day_labels slots.
Proof.
  unfold day_labels. cbn [filter].
  destruct (counts_as_study slot); reflexivity.
Qed.

Lemma tally_day_keys (slots : list Slot.t) (k : string) :
  forall st : Z * PyDict.t Z,
    In k (PyDict.keys (snd (fold_left tally_slot slots st)))
    <-> In k (PyDict.keys (snd st)) \/ In k (day_labels slots).
Proof.
  induction slots as [|slot rest IH]; intros st; cbn [fold_left].
  - unfold day_labels. simpl. tauto.
  - rewrite IH, tally_slot_keys, (day_labels_cons slot rest), in_app_iff. tauto.
Qed.

Lemma tally_week_keys (items : list (string * list Slot.t)) (k : string) :
  forall st : Z * PyDict.t Z,
    In k (PyDict.keys
            (snd (fold_left (fun st '(day, slots) => fold_left tally_slot slots st)
                    items st)))
    <-> In k (PyDict.keys (snd st))
        \/ In k (flat_map (fun '(day, slots) => day_labels slots) items).
Proof.
  induction items as [|[day slots] rest IH]; intros st; cbn [fold_left flat_map].
  - simpl. tauto.
  - rewrite IH, tally_day_keys, in_app_iff. tauto.
Qed.

Lemma statistics_keys (week : timetable) (k : string) :
  In k (PyDict.keys (snd (weekly_statistics week))) <-> In k (counted_labels week).
Proof.
  unfold weekly_statistics, counted_labels.
  rewrite tally_week_keys. simpl. tauto.
Qed.

Lemma tally_slot_nodup (st : Z * PyDict.t Z) (slot : Slot.t) :
  NoDup (PyDict.keys (snd st)) -> NoDup (PyDict.keys (snd (tally_slot st slot))).
Proof.
  destruct st as [total hours]. unfold tally_slot. cbn [fst snd].
  destruct (counts_as_study slot); cbn [snd]; [|tauto].
  apply keys_set_nodup.
Qed.

Lemma tally_day_nodup (slots : list Slot.t) :
  forall st : Z * PyDict.t Z,
    NoDup (PyDict.keys (snd st)) ->
    NoDup (PyDict.keys (snd (fold_left tally_slot slots st))).
Proof.
  induction slots as [|slot rest IH]; intros st Hnd; cbn [fold_left]; [exact Hnd|].
  apply IH. now apply tally_slot_nodup.
Qed.

Lemma tally_week_nodup (items : list (string * list Slot.t)) :
  forall st : Z * PyDict.t Z,
    NoDup (PyDict.keys (snd st)) ->
    NoDup (PyDict.keys
             (snd (fold_left (fun st '(day, slots) => fold_left tally_slot slots st)
                     items st))).
Proof.
  induction items as [|[day slots] rest IH]; intros st Hnd; cbn [fold_left];
    [exact Hnd|].
  apply IH. now apply tally_day_nodup.
Qed.

Lemma statistics_keys_nodup (week : timetable) :
  NoDup (PyDict.keys (snd (weekly_statistics week))).
Proof.
  unfold weekly_statistics. apply tally_week_nodup. constructor.
Qed.

Lemma get_some_in_items {V : Type} (k : string) (v : V) (d : PyDict.t V) :
  PyDict.get k d = Some v -> In (k, v) (PyDict.items d).
Proof.
  unfold PyDict.items. induction d as [|[k' v'] d IH]; cbn [PyDict.get In];
    [discriminate|].
  destruct (String.eqb_spec k' k) as [->|Hne].
  - intros E. injection E as ->. now left.
  - intros E. right. now apply IH.
Qed.

Lemma counted_label_of_slot (week : timetable) (day : string)
    (slots : list Slot.t) (slot : Slot.t) :
  PyDict.get day week = Some slots -> In slot slots ->
  counts_as_study slot = true ->
  In (clean_subject (Slot.subject slot)) (counted_labels week).
Proof.
  intros Hget Hin Hcounts. unfold counted_labels.
  apply in_flat_map. exists (day, slots). split; [now apply get_some_in_items|].
  unfold day_labels. apply in_map_iff. exists slot. split; [reflexivity|].
  apply filter_In. now split.
Qed.

(** [replace] passes over a prefix that holds no occurrence. *)
Lemma clean_revision_label (s : string) :
  clean_subject ("📚 Revision: " ++ s) = ("📚 " ++ clean_subject s)%string.
Proof. destruct s; reflexivity. Qed.

Lemma clean_assessment_label :
  clean_subject "📝 Mock Test / Practice Problems" = "📝 Assessment".
Proof. vm_compute. reflexivity. Qed.

Lemma nlargest_subjects_in (n : nat) (predictions : list prediction) (s : string) :
  In s (map subject (nlargest n predictions)) -> In s (map subject predictions).
Proof.
  unfold nlargest. intros Hin. apply in_map_iff in Hin.
  destruct Hin as [row [Hs Hrow]]. apply in_map_iff. exists row. split; [exact Hs|].
  apply (Permutation_in row (sort_by_weakness_perm predictions)).
  rewrite <- (firstn_skipn n (sort_by_weakness predictions)).
  apply in_or_app. now left.
Qed.

Lemma two_distinct_members (l : list string) (a b : string) :
  NoDup l -> In a l -> In b l -> a <> b -> (2 <= List.length l)%nat.
Proof.
  intros Hnd Ha Hb Hne.
  assert (Hab : NoDup [a; b]).
  { constructor; [simpl; intuition congruence|]. constructor; [simpl; tauto|constructor]. }
  apply (NoDup_incl_length Hab). intros x [<-|[<-|[]]]; assumption.
Qed.

Lemma covered_key (week : timetable) (k : string) :
  In k (counted_labels week) -> k <> "Assessment" ->
  In k (covered_keys (snd (weekly_statistics week))).
Proof.
  intros Hin Hne. unfold covered_keys. apply filter_In. split.
  - now apply statistics_keys.
  - destruct (String.eqb_spec k "Assessment"); [contradiction|reflexivity].
Qed.

(** X16: for every timetable the call returns, "Subjects Covered" counts
    the Sunday assessment and a revision as subjects of their own: the key
    ["📝 Assessment"] passes the filter [s != 'Assessment'], and the Revision
    of a predicted subject [s] is tallied under ["📚 " + s] (cleaned), not
    under [s]; so the metric is at least 2 whatever the subjects are. *)
Theorem X16_subjects_covered_counts_assessment_and_revision :
  forall (R : NumpyRandom) (g : rng_state) (predictions : list prediction)
         (wake_time sleep_time break_duration max_sessions_per_day session_duration : Z)
         (meals : meal_times) (week : timetable),
    fst (generate_smart_timetable g predictions wake_time sleep_time break_duration
           max_sessions_per_day session_duration meals) = Ok week ->
    let subject_hours := snd (weekly_statistics week) in
    In "📝 Assessment" (covered_keys subject_hours)
    /\ (exists s, In s (map subject predictions)
                  /\ In ("📚 " ++ clean_subject s)%string (covered_keys subject_hours))
    /\ (2 <= subjects_covered subject_hours)%nat.
Proof.
  intros R g predictions wake_time sleep_time break_duration max_sessions_per_day
         session_duration meals week Hok subject_hours.
  pose proof (generated_not_empty g predictions _ _ _ _ _ _ week Hok) as Hne.
  destruct (generate_returns g predictions wake_time sleep_time break_duration
              max_sessions_per_day session_duration meals Hne)
    as [week' [sunday [Hok' [_ [_ [Hsun Hshape]]]]]].
  rewrite Hok in Hok'. injection Hok' as <-.
  pose proof (nlargest_subjects_in 3 predictions) as Hpred.
  destruct (map subject (nlargest 3 predictions)) as [|first others]; [discriminate|].
  destruct (sunday_slots_shape wake_time (fst (breakfast meals)) (fst (lunch meals))
              (fst (dinner meals)) (snd (breakfast meals)) (snd (lunch meals))
              (snd (dinner meals)) (morning_routine meals)
              (if sleep_time <=? wake_time then sleep_time + 1440 else sleep_time)
              first others)
    as [common [leisure [Hs [Hcommon _]]]].
  rewrite Hs in Hshape. injection Hshape as <-.
  assert (Hassessment : In "📝 Assessment" (covered_keys subject_hours)).
  { apply covered_key; [|discriminate].
    rewrite <- clean_assessment_label.
    apply (counted_label_of_slot week "Sunday" (common ++ [leisure])
             (Slot.mk (fst (lunch meals) + snd (lunch meals),
                       fst (lunch meals) + (snd (lunch meals) + 120))
                      "📝 Mock Test / Practice Problems" Assessment 120));
      [exact Hsun| |reflexivity].
    apply in_or_app. left. rewrite Hcommon. cbv zeta. cbn [In]. tauto. }
  assert (Hrevision :
            In ("📚 " ++ clean_subject first)%string (covered_keys subject_hours)).
  { apply covered_key; [|discriminate].
    rewrite <- clean_revision_label.
    apply (counted_label_of_slot week "Sunday" (common ++ [leisure])
             (Slot.mk (fst (breakfast meals) + snd (breakfast meals),
                       fst (breakfast meals) + snd (breakfast meals) + 90)
                      ("📚 Revision: " ++ first)%string Revision 90));
      [exact Hsun| |reflexivity].
    apply in_or_app. left. rewrite Hcommon. cbv zeta. cbn [In]. tauto. }
  split; [exact Hassessment|]. split.
  - exists first. split; [|exact Hrevision]. apply Hpred. now left.
  - unfold subjects_covered.
    apply (two_distinct_members _ "📝 Assessment" ("📚 " ++ clean_subject first)%string);
      [|exact Hassessment|exact Hrevision|discriminate].
    unfold covered_keys. apply NoDup_filter. apply statistics_keys_nodup.
Qed.

Lemma X16_witness :
  In "📝 Assessment" (covered_keys (snd (weekly_statistics sample_week)))
  /\ (exists s, In s (map subject math_history)
                /\ In ("📚 " ++ clean_subject s)%string
                      (covered_keys (snd (weekly_statistics sample_week))))
  /\ (2 <= subjects_covered (snd (weekly_statistics sample_week)))%nat.
Proof.
  exact (X16_subjects_covered_counts_assessment_and_revision keep_order_random tt
           math_history (hm 6 0) (hm 23 0) 30 6 60 default_meals sample_week
           sample_week_generated).
Defined.
